(** * A shallow embedding of the production-floor server (src/server.py)

    The server keeps its whole state in module-level Python objects
    ([SUBMISSION_LOG], [DOWNTIME_LOG], [SCRAP_LOG], [MACHINE_PLANS],
    [MACHINE_PLAN_QUEUES], [MACHINE_PLAN_HISTORY], [SID_TO_MACHINE]) and
    every handler runs to completion against them.  A handler is embedded
    as a pure function from the request and the state before to the state
    after and the list of messages it emits, in emission order.

    Dictionaries keyed by machine name or connection id are [gmap]s; a
    dictionary literal sent to a client is an association list in the
    order of the literal; JSON objects received from a client are maps
    from field name to string.  Writing to disk ([save_*]) does not change
    the in-memory state and is left out. *)

From Stdlib Require Import ZArith QArith Lia Sorted Ascii String.
From stdpp Require Import gmap strings list fin_maps pretty.

Open Scope string_scope.

(** ** Python values *)

(** The values that appear in the dictionaries the server builds for the
    dashboard: [None], a string, an integer default and a float default. *)
Inductive pyval :=
  | PyNone
  | PyStr (s : string)
  | PyInt (z : Z)
  | PyFloat (q : Q).

(** Truthiness of [d.get(k)] for a dictionary of strings: [None] and the
    empty string are false. *)
Definition truthy (o : option string) : bool :=
  match o with
  | Some s => bool_decide (s ≠ "")
  | None => false
  end.

(** [a or b] on the results of two [.get] calls. *)
Definition py_or (a b : option string) : option string :=
  if truthy a then a else b.


Definition get_default (d : gmap string string) (k : string) (dflt : pyval) : pyval :=
  match d !! k with Some s => PyStr s | None => dflt end.

Definition of_option (o : option string) : pyval :=
  match o with Some s => PyStr s | None => PyNone end.

(** Lookup in a dictionary literal. *)
Fixpoint assoc (k : string) (d : list (string * pyval)) : option pyval :=
  match d with
  | [] => None
  | (k', v) :: rest => if String.eqb k k' then Some v else assoc k rest
  end.

(** ** datetime *)

(** A naive [datetime.datetime]: what [strptime] with the two formats of
    the server, [datetime.now()] and [datetime.utcnow()] return.
    [fromisoformat] can also return an aware one, see [stamp] below. *)
Record datetime := DateTime {
  year : Z;
  month : Z;
  day : Z;
  hour : Z;
  minute : Z;
  second : Z;
  microsecond : Z
}.

(** [dt.date()] *)
Definition date (dt : datetime) : Z * Z * Z := (year dt, month dt, day dt).

Definition is_leap (y : Z) : bool :=
  ((y mod 4 =? 0) && (negb (y mod 100 =? 0) || (y mod 400 =? 0)))%Z.

Definition days_in_month (y m : Z) : Z :=
  (if (m =? 2) then (if is_leap y then 29 else 28)
   else if (m =? 4) || (m =? 6) || (m =? 9) || (m =? 11) then 30
   else 31)%Z.

(** Days in the months before month [m] of a common year. *)
Definition DAYS_BEFORE_MONTH (m : Z) : Z :=
  (if m =? 1 then 0 else if m =? 2 then 31 else if m =? 3 then 59
   else if m =? 4 then 90 else if m =? 5 then 120 else if m =? 6 then 151
   else if m =? 7 then 181 else if m =? 8 then 212 else if m =? 9 then 243
   else if m =? 10 then 273 else if m =? 11 then 304 else 334)%Z.

Definition days_before_year (y : Z) : Z :=
  (let y1 := y - 1 in y1 * 365 + y1 / 4 - y1 / 100 + y1 / 400)%Z.

Definition days_before_month (y m : Z) : Z :=
  (DAYS_BEFORE_MONTH m + (if (2 <? m) && is_leap y then 1 else 0))%Z.

(** [dt.toordinal()] *)
Definition toordinal (dt : datetime) : Z :=
  (days_before_year (year dt) + days_before_month (year dt) (month dt) + day dt)%Z.

(** What the [datetime] constructor accepts. *)
Definition valid_datetime (dt : datetime) : bool :=
  ((1 <=? year dt) && (year dt <=? 9999) &&
   (1 <=? month dt) && (month dt <=? 12) &&
   (1 <=? day dt) && (day dt <=? days_in_month (year dt) (month dt)) &&
   (0 <=? hour dt) && (hour dt <? 24) &&
   (0 <=? minute dt) && (minute dt <? 60) &&
   (0 <=? second dt) && (second dt <? 60) &&
   (0 <=? microsecond dt) && (microsecond dt <? 1000000))%Z.

(** Comparison of two naive datetimes is the comparison of the tuples
    [(year, month, day, hour, minute, second, microsecond)]. *)
Definition dt_tuple (dt : datetime) : list Z :=
  [year dt; month dt; day dt; hour dt; minute dt; second dt; microsecond dt].

Fixpoint tuple_ltb (a b : list Z) : bool :=
  match a, b with
  | x :: a', y :: b' => (x <? y)%Z || ((x =? y)%Z && tuple_ltb a' b')
  | [], _ :: _ => true
  | _, [] => false
  end.

Definition dt_ltb (a b : datetime) : bool := tuple_ltb (dt_tuple a) (dt_tuple b).

(** [a - b] as a [timedelta], kept exactly, in microseconds. *)
Definition dt_sub (a b : datetime) : Z :=
  (let days := toordinal a - toordinal b in
   let secs := (second a + minute a * 60 + hour a * 3600)
               - (second b + minute b * 60 + hour b * 3600) in
   (days * 86400 + secs) * 1000000 + (microsecond a - microsecond b))%Z.

(** [td.total_seconds() / 3600], kept as the exact rational; the float the
    server stores is this number rounded, with the same sign. *)
Definition total_hours_of (td : Z) : Q := Qmake td 3600000000.

(** *** Naive and aware

    [datetime.fromisoformat] returns a naive datetime for a string without
    a UTC offset and an aware one, with a fixed-offset [tzinfo], for a
    string that ends in an offset such as [+05:30].  A [stamp] is either
    of the two: the fields as they are written, and what [utcoffset()]
    returns, in microseconds. *)
Record stamp := Stamp {
  wall : datetime;
  utcoffset : option Z
}.

Definition is_aware (s : stamp) : bool :=
  match utcoffset s with Some _ => true | None => false end.

(** The offset of a [timezone] lies strictly between -24 and 24 hours. *)
Definition valid_stamp (s : stamp) : bool :=
  valid_datetime (wall s) &&
  match utcoffset s with
  | Some o => ((-86400000000 <? o) && (o <? 86400000000))%Z
  | None => true
  end.

(** [a - b]: the difference of the fields for two naive datetimes, that
    difference less the difference of the offsets for two aware ones (so
    the time between the two instants), and a [TypeError], here [None],
    for a naive and an aware one. *)
Definition stamp_sub (a b : stamp) : option Z :=
  match utcoffset a, utcoffset b with
  | None, None => Some (dt_sub (wall a) (wall b))
  | Some myoff, Some otoff => Some (dt_sub (wall a) (wall b) + otoff - myoff)%Z
  | _, _ => None
  end.

(** [a < b]: the comparison of the fields for two naive datetimes; for two
    aware ones with different offsets Python takes the sign of [a - b],
    and with the same offset it compares the fields, which for well-formed
    datetimes is that sign again ([stamp_ltb_same_offset] below); a naive
    and an aware one do not compare: [TypeError], here [None]. *)
Definition stamp_ltb (a b : stamp) : option bool :=
  match utcoffset a, utcoffset b with
  | None, None => Some (dt_ltb (wall a) (wall b))
  | Some myoff, Some otoff => Some (dt_sub (wall a) (wall b) + otoff - myoff <? 0)%Z
  | _, _ => None
  end.

(** The functions of Python's [datetime] library that parse and print.
    They are a collaborator of the server, so the server is embedded over
    any implementation that only ever returns well-formed datetimes.
    [strptime] is only called with formats that have no [%z], so what it
    returns is naive; [strftime] is only called with formats that print
    fields, and [isoformat] only on readings of the clock. *)
Class DatetimeLib := {
  strptime : string → string → option datetime;
  fromisoformat : string → option stamp;
  strftime : datetime → string → string;
  isoformat : datetime → string;
  strptime_valid : ∀ s fmt dt, strptime s fmt = Some dt → valid_datetime dt = true;
  fromisoformat_valid : ∀ s t, fromisoformat s = Some t → valid_stamp t = true
}.

(** ** The data the server stores *)

(** One line of a plan: the cells of a sheet row, all strings
    ([df.fillna('').astype(str)]), plus [line_id] and [status]. *)
Abbreviation row := (gmap string string).
Abbreviation plan := (list (gmap string string)).

(** An element of [MACHINE_PLAN_HISTORY[m]]. *)
Record archive := Archive {
  archived_at : string;
  archived_plan : plan
}.

(** An element of [SUBMISSION_LOG]: the submitted object, whose
    ['datetime'] key [handle_submit_output] has set to a [datetime]. *)
Record entry := Entry {
  e_fields : gmap string string;
  e_datetime : datetime
}.

(** An element of [DOWNTIME_LOG], as built by [handle_submit_downtime]. *)
Record downtime_entry := Downtime {
  start_time : stamp;
  end_time : stamp;
  total_hours : Q;
  worker_name : pyval;
  shift : pyval;
  machine_name : pyval;
  fg_part_no : pyval;
  cable_id : pyval;
  reason : pyval;
  t1_apl_no : pyval;
  t2_apl_no : pyval
}.

Record State := mkState {
  SUBMISSION_LOG : list entry;
  DOWNTIME_LOG : list downtime_entry;
  SCRAP_LOG : list (gmap string string);
  MACHINE_PLANS : gmap string plan;
  MACHINE_PLAN_QUEUES : gmap string (list plan);
  MACHINE_PLAN_HISTORY : gmap string (list archive);
  SID_TO_MACHINE : gmap string string
}.

(** The state of a server started without any saved file. *)
Definition initial_state : State :=
  mkState [] [] [] ∅ ∅ ∅ ∅.

(** ** What the server emits *)

Inductive payload :=
  | P_dashboard (log : list (list (string * pyval)))
                (downtime_log : list downtime_entry)
  | P_online (onlineMachines : gset string)
  | P_confirm (success : bool) (machineName : option string) (why : option string)
  | P_plan (p : plan) (machineName : string)
  | P_count (count : nat) (machineName : string)
  | P_history (history : list archive) (machineName : string)
  | P_failed (why : string) (machineName : string)
  | P_scrap (data : gmap string string).

(** [socketio.emit(event, payload, room=...)]; no room is a broadcast to
    every connected client. *)
Record emit := Emit {
  event : string;
  body : payload;
  room : option string
}.

(** The reply of an HTTP route. *)
Record response := Response {
  message : string;
  code : nat
}.

(** ** The handlers *)

Section Server.
Context `{DatetimeLib}.

(** [with_plans], [with_queues], ... write one of the module-level
    objects and leave the others as they are. *)
Definition with_plans (v : gmap string plan) (st : State) : State :=
  mkState (SUBMISSION_LOG st) (DOWNTIME_LOG st) (SCRAP_LOG st) v
          (MACHINE_PLAN_QUEUES st) (MACHINE_PLAN_HISTORY st) (SID_TO_MACHINE st).

Definition with_queues (v : gmap string (list plan)) (st : State) : State :=
  mkState (SUBMISSION_LOG st) (DOWNTIME_LOG st) (SCRAP_LOG st) (MACHINE_PLANS st)
          v (MACHINE_PLAN_HISTORY st) (SID_TO_MACHINE st).

Definition with_history (v : gmap string (list archive)) (st : State) : State :=
  mkState (SUBMISSION_LOG st) (DOWNTIME_LOG st) (SCRAP_LOG st) (MACHINE_PLANS st)
          (MACHINE_PLAN_QUEUES st) v (SID_TO_MACHINE st).

Definition with_sids (v : gmap string string) (st : State) : State :=
  mkState (SUBMISSION_LOG st) (DOWNTIME_LOG st) (SCRAP_LOG st) (MACHINE_PLANS st)
          (MACHINE_PLAN_QUEUES st) (MACHINE_PLAN_HISTORY st) v.

Definition with_submissions (v : list entry) (st : State) : State :=
  mkState v (DOWNTIME_LOG st) (SCRAP_LOG st) (MACHINE_PLANS st)
          (MACHINE_PLAN_QUEUES st) (MACHINE_PLAN_HISTORY st) (SID_TO_MACHINE st).

Definition with_downtime (v : list downtime_entry) (st : State) : State :=
  mkState (SUBMISSION_LOG st) v (SCRAP_LOG st) (MACHINE_PLANS st)
          (MACHINE_PLAN_QUEUES st) (MACHINE_PLAN_HISTORY st) (SID_TO_MACHINE st).

Definition with_scrap (v : list (gmap string string)) (st : State) : State :=
  mkState (SUBMISSION_LOG st) (DOWNTIME_LOG st) v (MACHINE_PLANS st)
          (MACHINE_PLAN_QUEUES st) (MACHINE_PLAN_HISTORY st) (SID_TO_MACHINE st).

(** *** Reading the plan state *)

(** [MACHINE_PLANS.get(m, [])], [len(MACHINE_PLAN_QUEUES.get(m, []))],
    [MACHINE_PLAN_HISTORY.get(m, [])] and [MACHINE_PLAN_QUEUES.get(m, [])],
    as [handle_join_machine_room], [handle_request_plan_history] and
    [handle_request_queued_plans] read them. *)
Definition getActive (m : string) (st : State) : plan :=
  default [] (MACHINE_PLANS st !! m).

Definition getQueuedPlans (m : string) (st : State) : list plan :=
  default [] (MACHINE_PLAN_QUEUES st !! m).

Definition getQueueDepth (m : string) (st : State) : nat :=
  length (getQueuedPlans m st).

Definition getHistory (m : string) (st : State) : list archive :=
  default [] (MACHINE_PLAN_HISTORY st !! m).

(** *** Date filter and dashboard snapshot *)

(** [list.sort(key=lambda x: x['datetime'], reverse=True)]: a stable sort,
    so an entry stays ahead of the later entries with the same key. *)
Fixpoint insert_desc (x : entry) (l : list entry) : list entry :=
  match l with
  | [] => [x]
  | y :: ys =>
      if dt_ltb (e_datetime x) (e_datetime y) then y :: insert_desc x ys
      else x :: y :: ys
  end.

Definition sort_desc (l : list entry) : list entry := foldr insert_desc [] l.

(** [get_data_for_date].  Every stored entry carries its [datetime], so
    the test [entry.get('datetime')] of the filter always passes and the
    filter is the comparison of the dates. *)
Definition get_data_for_date (date_str : option string) (st : State) : list entry :=
  if negb (truthy date_str) then SUBMISSION_LOG st
  else
    match strptime (default "" date_str) "%Y-%m-%d" with
    | None => SUBMISSION_LOG st
    | Some parsed =>
        let filter_date := date parsed in
        let filtered_log :=
          filter (λ e, date (e_datetime e) = filter_date) (SUBMISSION_LOG st) in
        sort_desc filtered_log
    end.


(** [entry.get(k + '_manual') or entry.get(k + '_measured')] *)
Definition combined (e : entry) (k : string) : pyval :=
  of_option (py_or (e_fields e !! (k ++ "_manual")) (e_fields e !! (k ++ "_measured"))).

(** The dictionary [clean_entry] that [broadcast_data] builds per entry. *)
Definition clean_entry (e : entry) : list (string * pyval) :=
  let t1_crimp_height := combined e "t1_crimp_height" in
  let t1_insulation_height := combined e "t1_insulation_height" in
  let t1_crimp_width := combined e "t1_crimp_width" in
  let t1_insulation_width := combined e "t1_insulation_width" in
  let t1_pull_force := combined e "t1_pull_force" in
  let t2_crimp_height := combined e "t2_crimp_height" in
  let t2_insulation_height := combined e "t2_insulation_height" in
  let t2_crimp_width := combined e "t2_crimp_width" in
  let t2_insulation_width := combined e "t2_insulation_width" in
  let t2_pull_force := combined e "t2_pull_force" in
  let d := e_fields e in
  [ ("time_display", PyStr (strftime (e_datetime e) "%Y-%m-%d %H:%M:%S"));
    ("worker_name", get_default d "operator_name" (PyStr "N/A"));
    ("shift", get_default d "shift" (PyStr "N/A"));
    ("machine_name", get_default d "machine_name" (PyStr "N/A"));
    ("fg_part_no", get_default d "fg_part_no" (PyStr "N/A"));
    ("cable_id", get_default d "cable_id" (PyStr "N/A"));
    ("produced_qty", get_default d "produced_qty" (PyInt 0));
    ("produced_length", get_default d "produced_length" (PyFloat 0));
    ("qty_produced_hours", get_default d "qty_produced_hours" (PyFloat 0));
    ("t1_terminal_id", get_default d "t1_terminal_id" (PyStr ""));
    ("t1_apl_no", get_default d "t1_apl_no" (PyStr ""));
    ("t1_crimp_height", t1_crimp_height);
    ("t1_insulation_height", t1_insulation_height);
    ("t1_crimp_width", t1_crimp_width);
    ("t1_insulation_width", t1_insulation_width);
    ("t1_pull_force", t1_pull_force);
    ("t2_terminal_id", get_default d "t2_terminal_id" (PyStr ""));
    ("t2_apl_no", get_default d "t2_apl_no" (PyStr ""));
    ("t2_crimp_height", t2_crimp_height);
    ("t2_insulation_height", t2_insulation_height);
    ("t2_crimp_width", t2_crimp_width);
    ("t2_insulation_width", t2_insulation_width);
    ("t2_pull_force", t2_pull_force) ].

(** The ['log'] component of the snapshot of [broadcast_data]: one
    [clean_entry] per entry of the filtered log, in the order of that
    log. *)
Definition snapshot_log (date_str : option string) (now : datetime) (st : State)
  : list (list (string * pyval)) :=
  let date_str :=
    if negb (truthy date_str) then Some (strftime now "%Y-%m-%d") else date_str in
  let log_to_send := get_data_for_date date_str st in
  clean_entry <$> log_to_send.

(** [list.sort(key=lambda x: x['start_time'], reverse=True)] on entries
    of the downtime log.  The sort compares start times with [<].  It
    cannot order a list that holds a naive and an aware start time without
    comparing one of each kind, so on such a list it raises [TypeError],
    here [None]; on any other list it is the stable descending sort. *)
Definition starts_before (x y : downtime_entry) : bool :=
  default false (stamp_ltb (start_time x) (start_time y)).

Fixpoint insert_downtime_desc (x : downtime_entry) (l : list downtime_entry)
  : list downtime_entry :=
  match l with
  | [] => [x]
  | y :: ys =>
      if starts_before x y then y :: insert_downtime_desc x ys
      else x :: y :: ys
  end.

Definition same_kind (l : list downtime_entry) : bool :=
  forallb (λ e, negb (is_aware (start_time e))) l
  || forallb (λ e, is_aware (start_time e)) l.

Definition sort_downtime_desc (l : list downtime_entry) : option (list downtime_entry) :=
  if same_kind l then Some (foldr insert_downtime_desc [] l) else None.

(** [get_downtime_for_date]; every stored entry carries its
    [start_time], so the test [entry.get('start_time')] always passes.
    [None] is the [TypeError] of the sort. *)
Definition get_downtime_for_date (date_str : option string) (st : State)
  : option (list downtime_entry) :=
  if negb (truthy date_str) then Some (DOWNTIME_LOG st)
  else
    match strptime (default "" date_str) "%Y-%m-%d" with
    | None => Some (DOWNTIME_LOG st)
    | Some parsed =>
        let filter_date := date parsed in
        let filtered_log :=
          filter (λ e, date (wall (start_time e)) = filter_date) (DOWNTIME_LOG st) in
        sort_downtime_desc filtered_log
    end.

(** [broadcast_data]: [None] when it raises, which it does where
    [get_downtime_for_date] does, before anything is emitted.  Of the
    snapshot the embedding keeps ['log'] and ['downtime_log'], the latter
    as the entries whose two timestamps the server sends in ISO format;
    ['chart_data'] is [chart_data] below, and ['machines'] and
    ['initial_stock'] are read from the state without a computation. *)
Definition broadcast_data (date_str : option string) (now : datetime) (st : State)
  : option emit :=
  let log := snapshot_log date_str now st in
  let date_str :=
    if negb (truthy date_str) then Some (strftime now "%Y-%m-%d") else date_str in
  match get_downtime_for_date date_str st with
  | Some downtime_log_to_send =>
      Some (Emit "update_dashboard" (P_dashboard log downtime_log_to_send) None)
  | None => None
  end.

(** *** Presence *)

Definition broadcast_online_status (st : State) : emit :=
  let online_machines : gset string := map_img (SID_TO_MACHINE st) in
  Emit "update_machine_status" (P_online online_machines) None.

(** The loop of [handle_join_machine_room] over [SID_TO_MACHINE.items()]:
    does some other connection hold [machine_name]? *)
Definition already_connected (machine_name sid : string) (st : State) : bool :=
  existsb (λ '(s, name), bool_decide (name = machine_name) && bool_decide (s ≠ sid))
          (map_to_list (SID_TO_MACHINE st)).

Definition handle_join_machine_room (data : gmap string string) (sid : string)
    (st : State) : State * list emit :=
  let machine_name := data !! "machineName" in
  if negb (truthy machine_name) then
    (st, [Emit "join_confirm" (P_confirm false None (Some "Missing machine name."))
               (Some sid)])
  else
    let machine_name := default "" machine_name in
    if already_connected machine_name sid st then
      (st, [Emit "join_confirm"
                 (P_confirm false None
                    (Some ("Machine " ++ machine_name ++ " is already connected.")))
                 (Some sid)])
    else
      let st' := with_sids (<[sid := machine_name]> (SID_TO_MACHINE st)) st in
      let current_plan := getActive machine_name st' in
      let queued_count := getQueueDepth machine_name st' in
      (st', [ broadcast_online_status st';
              Emit "update_worker_plan" (P_plan current_plan machine_name) (Some sid);
              Emit "queued_plan_count" (P_count queued_count machine_name) (Some sid);
              Emit "join_confirm" (P_confirm true (Some machine_name) None) (Some sid) ]).

Definition handle_disconnect (sid : string) (st : State) : State * list emit :=
  match SID_TO_MACHINE st !! sid with
  | Some _ =>
      let st' := with_sids (delete sid (SID_TO_MACHINE st)) st in
      (st', [broadcast_online_status st'])
  | None => (st, [])
  end.

(** [target_machine in SID_TO_MACHINE.values()] of [handle_send_live_message] *)
Definition isOnline (m : string) (st : State) : bool :=
  bool_decide (m ∈ (map_img (SID_TO_MACHINE st) : gset string)).

(** *** Plans *)

(** [any(p.get('status') != 'completed' for p in plan)] *)
Definition has_pending (p : plan) : bool :=
  existsb (λ r : row, bool_decide (r !! "status" ≠ Some "completed")) p.

(** The loop of [upload_plan] over [enumerate(plan_data_raw)]. *)
Definition process_rows (target_machine : string) (plan_data_raw : list row) : plan :=
  imap (λ i (item : row),
          <["status" := "pending"]>
            (<["line_id" := target_machine ++ "_" ++ pretty (i + 1)%nat]> item))
       plan_data_raw.

(** [upload_plan], from the point where the sheet has been decoded:
    [plan_sheet] is [None] when the request carries no file, and otherwise
    the records of the data frame, every cell a string.  When
    [broadcast_data] raises, the [except Exception] of the route answers
    with code 500; the state has been written and the messages to the
    machine room sent by then.  The text of the exception that follows
    ["Error processing file"] is not kept. *)
Definition upload_plan (target_machine : option string) (plan_sheet : option (list row))
    (now : datetime) (st : State) : State * list emit * response :=
  match plan_sheet with
  | Some df =>
      if negb (truthy target_machine) then
        (st, [], Response "Error: Missing machine name or file." 400)
      else
        let target_machine := default "" target_machine in
        let plan_data_raw := take 10 df in
        let plan_data_processed := process_rows target_machine plan_data_raw in
        let existing_plan := MACHINE_PLANS st !! target_machine in
        let has_active_pending :=
          match existing_plan with
          | Some (r :: rest) => has_pending (r :: rest)
          | _ => false
          end in
        if has_active_pending then
          let q := (default [] (MACHINE_PLAN_QUEUES st !! target_machine)
                    ++ [plan_data_processed])%list in
          let st' := with_queues (<[target_machine := q]> (MACHINE_PLAN_QUEUES st)) st in
          let sent := broadcast_data (Some (strftime now "%Y-%m-%d")) now st' in
          (st',
           (Emit "queued_plan_count" (P_count (length q) target_machine)
                 (Some target_machine) :: option_list sent)%list,
           match sent with
           | Some _ =>
               Response ("Success: Plan sheet for " ++ target_machine
                         ++ " uploaded and queued (existing active plan).") 200
           | None => Response "Error processing file" 500
           end)
        else
          let st' :=
            with_plans (<[target_machine := plan_data_processed]> (MACHINE_PLANS st)) st in
          let sent := broadcast_data (Some (strftime now "%Y-%m-%d")) now st' in
          (st',
           (Emit "update_worker_plan" (P_plan plan_data_processed target_machine)
                 (Some target_machine)
            :: Emit "queued_plan_count"
                    (P_count (getQueueDepth target_machine st') target_machine)
                    (Some target_machine)
            :: option_list sent)%list,
           match sent with
           | Some _ =>
               Response ("Success: Plan sheet for " ++ target_machine
                         ++ " uploaded and sent to machine room.") 200
           | None => Response "Error processing file" 500
           end)
  | None => (st, [], Response "Error: Missing machine name or file." 400)
  end.

(** The loop of [handle_mark_plan_complete] over the rows of the plan:
    the first row whose [line_id] matches is completed, then [break]. *)
Fixpoint mark_row (line_id : string) (p : plan) : plan :=
  match p with
  | [] => []
  | item :: rest =>
      if bool_decide (item !! "line_id" = Some line_id)
      then <["status" := "completed"]> item :: rest
      else item :: mark_row line_id rest
  end.

(** [utcnow] is the reading of [datetime.utcnow()]. *)
Definition handle_mark_plan_complete (data : gmap string string) (utcnow : datetime)
    (st : State) : State * list emit :=
  let line_id := data !! "lineId" in
  let machine_name := data !! "machineName" in
  if negb (truthy line_id) || negb (truthy machine_name) then (st, [])
  else
    let line_id := default "" line_id in
    let machine_name := default "" machine_name in
    match MACHINE_PLANS st !! machine_name with
    | None => (st, [])
    | Some plan0 =>
        let plan := mark_row line_id plan0 in
        let st1 := with_plans (<[machine_name := plan]> (MACHINE_PLANS st)) st in
        let e_plan :=
          Emit "update_worker_plan" (P_plan plan machine_name) (Some machine_name) in
        let has_pending := has_pending plan in
        let queue := default [] (MACHINE_PLAN_QUEUES st !! machine_name) in
        match queue with
        | next_plan :: queue' =>
            if negb has_pending then
              let history :=
                (default [] (MACHINE_PLAN_HISTORY st !! machine_name)
                 ++ [Archive (isoformat utcnow) plan])%list in
              let st2 :=
                with_plans (<[machine_name := next_plan]> (MACHINE_PLANS st))
                  (with_history (<[machine_name := history]> (MACHINE_PLAN_HISTORY st))
                     (with_queues (<[machine_name := queue']> (MACHINE_PLAN_QUEUES st))
                        st)) in
              (st2,
               [ e_plan;
                 Emit "plan_history_update" (P_history history machine_name)
                      (Some machine_name);
                 Emit "update_worker_plan" (P_plan next_plan machine_name)
                      (Some machine_name);
                 Emit "queued_plan_count" (P_count (length queue') machine_name)
                      (Some machine_name) ])
            else
              (st1,
               [ e_plan;
                 Emit "queued_plan_count" (P_count (length queue) machine_name)
                      (Some machine_name) ])
        | [] =>
            (st1,
             [ e_plan;
               Emit "queued_plan_count" (P_count 0 machine_name) (Some machine_name) ])
        end
    end.

Definition handle_request_dequeue_plan (data : gmap string string) (sid : string)
    (utcnow : datetime) (st : State) : State * list emit :=
  let machine_name := data !! "machineName" in
  if negb (truthy machine_name) then (st, [])
  else
    let machine_name := default "" machine_name in
    let queue := default [] (MACHINE_PLAN_QUEUES st !! machine_name) in
    match queue with
    | [] =>
        (st, [Emit "dequeue_failed" (P_failed "No queued plans" machine_name) (Some sid)])
    | next_plan :: queue' =>
        let st1 :=
          with_queues (<[machine_name := queue']> (MACHINE_PLAN_QUEUES st)) st in
        let current := MACHINE_PLANS st !! machine_name in
        let '(st2, e_hist) :=
          match current with
          | Some (r :: rest) =>
              let history :=
                (default [] (MACHINE_PLAN_HISTORY st !! machine_name)
                 ++ [Archive (isoformat utcnow) (r :: rest)])%list in
              (with_history (<[machine_name := history]> (MACHINE_PLAN_HISTORY st)) st1,
               [Emit "plan_history_update" (P_history history machine_name)
                     (Some machine_name)])
          | _ => (st1, [])
          end in
        (with_plans (<[machine_name := next_plan]> (MACHINE_PLANS st)) st2,
         (e_hist ++
          [ Emit "dequeued_plan" (P_plan next_plan machine_name) (Some machine_name);
            Emit "queued_plan_count" (P_count (length queue') machine_name)
                 (Some machine_name) ])%list)
    end.

(** *** Logs *)

(** [handle_submit_output].  A missing key is the [KeyError] branch, a
    string [strptime] refuses the [ValueError] branch; the text of the
    library's message that follows the reason is not kept.  The handler
    catches nothing else: when [broadcast_data] raises, the entry has
    been appended and the exception leaves the handler, which emits
    nothing.  [now] is the reading of [datetime.now()]. *)
Definition handle_submit_output (data : gmap string string) (sid : string)
    (now : datetime) (st : State) : State * list emit :=
  match data !! "entry_date" with
  | None =>
      (st, [Emit "submission_success"
                 (P_confirm false None (Some "Missing data field: 'entry_date'"))
                 (Some sid)])
  | Some entry_date =>
      match data !! "entry_time" with
      | None =>
          (st, [Emit "submission_success"
                     (P_confirm false None (Some "Missing data field: 'entry_time'"))
                     (Some sid)])
      | Some entry_time =>
          match strptime (entry_date ++ " " ++ entry_time) "%Y-%m-%d %H:%M" with
          | None =>
              (st, [Emit "submission_success"
                         (P_confirm false None (Some "Invalid data format")) (Some sid)])
          | Some dt =>
              let data := Entry (delete "datetime" data) dt in
              let st' := with_submissions (SUBMISSION_LOG st ++ [data])%list st in
              (st',
               match broadcast_data (Some (strftime dt "%Y-%m-%d")) now st' with
               | Some sent =>
                   [ sent;
                     Emit "submission_success" (P_confirm true None None) (Some sid) ]
               | None => []
               end)
          end
      end
  end.

(** [handle_submit_downtime].  After the [KeyError] and [ValueError]
    branches comes [except Exception]: it catches the [TypeError] of the
    subtraction of a naive and an aware timestamp, raised before anything
    is stored, and the [TypeError] of [broadcast_data], raised after the
    entry has been appended; the append is not undone.  The text of the
    exception that follows ["Server error"] is not kept.  The format
    given to [strftime] prints the date, which is that of the fields. *)
Definition handle_submit_downtime (data : gmap string string) (sid : string)
    (now : datetime) (st : State) : State * list emit :=
  match data !! "start_time" with
  | None =>
      (st, [Emit "downtime_submission_success"
                 (P_confirm false None (Some "Missing data field. Error: 'start_time'"))
                 (Some sid)])
  | Some start_str =>
      match fromisoformat start_str with
      | None =>
          (st, [Emit "downtime_submission_success"
                     (P_confirm false None (Some "Invalid data format")) (Some sid)])
      | Some start_time =>
          match data !! "end_time" with
          | None =>
              (st, [Emit "downtime_submission_success"
                         (P_confirm false None
                            (Some "Missing data field. Error: 'end_time'"))
                         (Some sid)])
          | Some end_str =>
              match fromisoformat end_str with
              | None =>
                  (st, [Emit "downtime_submission_success"
                             (P_confirm false None (Some "Invalid data format"))
                             (Some sid)])
              | Some end_time =>
                  match stamp_sub end_time start_time with
                  | None =>
                      (st, [Emit "downtime_submission_success"
                                 (P_confirm false None (Some "Server error"))
                                 (Some sid)])
                  | Some time_difference =>
                  let total_hours := total_hours_of time_difference in
                  let downtime_entry :=
                    Downtime start_time end_time total_hours
                      (get_default data "operator_name" (PyStr "N/A"))
                      (get_default data "shift" (PyStr "N/A"))
                      (get_default data "machine_name" (PyStr "N/A"))
                      (get_default data "fg_part_no" (PyStr "N/A"))
                      (get_default data "cable_id" (PyStr "N/A"))
                      (get_default data "reason" (PyStr "No Reason Provided"))
                      (get_default data "t1_apl_no" (PyStr "N/A"))
                      (get_default data "t2_apl_no" (PyStr "N/A")) in
                  let st' := with_downtime (DOWNTIME_LOG st ++ [downtime_entry])%list st in
                  (st',
                   match broadcast_data (Some (strftime (wall start_time) "%Y-%m-%d"))
                                        now st' with
                   | Some sent =>
                       [ sent;
                         Emit "downtime_submission_success" (P_confirm true None None)
                              (Some sid) ]
                   | None =>
                       [ Emit "downtime_submission_success"
                              (P_confirm false None (Some "Server error")) (Some sid) ]
                   end)
                  end
              end
          end
      end
  end.

(** [handle_scrap_submission]: the first [emit] is the first statement of
    the function and serialises [data] as it is at that moment. *)
Definition handle_scrap_submission (data : gmap string string) (now : datetime)
    (st : State) : State * list emit :=
  let first := Emit "submit_scrap_data" (P_scrap data) None in
  let data :=
    match data !! "timestamp" with
    | None => <["timestamp" := strftime now "%Y-%m-%d %H:%M:%S"]> data
    | Some _ => data
    end in
  let st' := with_scrap (SCRAP_LOG st ++ [data])%list st in
  (st', [first; Emit "submit_scrap_data" (P_scrap data) None]).

(** *** The server as a transition system *)

(** The requests that can change the state, each with what its handler
    reads from the connection and the clock.  The remaining handlers
    ([request_dashboard_data], [request_plan_history],
    [request_queued_plans], [request_scrap_history], [send_live_message],
    [connect]) only read the state. *)
Inductive request :=
  | UploadPlan (target_machine : option string) (plan_sheet : option (list row))
               (now : datetime)
  | SubmitOutput (data : gmap string string) (sid : string) (now : datetime)
  | SubmitDowntime (data : gmap string string) (sid : string) (now : datetime)
  | SubmitScrap (data : gmap string string) (now : datetime)
  | JoinMachineRoom (data : gmap string string) (sid : string)
  | Disconnect (sid : string)
  | MarkPlanComplete (data : gmap string string) (utcnow : datetime)
  | RequestDequeuePlan (data : gmap string string) (sid : string) (utcnow : datetime).

Definition handle (r : request) (st : State) : State * list emit :=
  match r with
  | UploadPlan target_machine plan_sheet now =>
      (upload_plan target_machine plan_sheet now st).1
  | SubmitOutput data sid now => handle_submit_output data sid now st
  | SubmitDowntime data sid now => handle_submit_downtime data sid now st
  | SubmitScrap data now => handle_scrap_submission data now st
  | JoinMachineRoom data sid => handle_join_machine_room data sid st
  | Disconnect sid => handle_disconnect sid st
  | MarkPlanComplete data utcnow => handle_mark_plan_complete data utcnow st
  | RequestDequeuePlan data sid utcnow => handle_request_dequeue_plan data sid utcnow st
  end.

(** The states the server can be in after any sequence of requests. *)
Inductive reachable : State → Prop :=
  | reachable_initial : reachable initial_state
  | reachable_handle r st : reachable st → reachable (handle r st).1.

(** Runs a list of requests, oldest first. *)
Definition run (rs : list request) (st : State) : State :=
  foldl (λ st r, (handle r st).1) st rs.

End Server.

(** ** Predicates used to state the properties *)

(** No two distinct connections hold the same machine name. *)
Definition presence_injective (st : State) : Prop :=
  ∀ s1 s2 m,
    SID_TO_MACHINE st !! s1 = Some m → SID_TO_MACHINE st !! s2 = Some m → s1 = s2.

(** [p'] is plan [p] after [mark_plan_complete] has run at most once on
    it: the same rows, with at most one more row completed. *)
Definition same_plan (p p' : plan) : Prop :=
  p' = p ∨ ∃ lid, p' = mark_row lid p.

(** From [st] to [st'] plan [p] stays the active plan of machine [m], and
    the history of [m] is untouched. *)
Definition stays_active (m : string) (p : plan) (st st' : State) : Prop :=
  ∃ p', MACHINE_PLANS st' !! m = Some p' ∧ same_plan p p' ∧
        getHistory m st' = getHistory m st.

(** From [st] to [st'] plan [p] is promoted in full: it is archived at the
    end of the history of [m] and the head of the queue of [m] becomes
    the active plan. *)
Definition promoted (m : string) (p : plan) (st st' : State) : Prop :=
  ∃ p' next q t,
    same_plan p p' ∧
    getQueuedPlans m st = next :: q ∧
    MACHINE_PLANS st' !! m = Some next ∧
    getQueuedPlans m st' = q ∧
    getHistory m st' = (getHistory m st ++ [Archive t p'])%list.

(** Request [r] is an upload for [m] that finds no pending row in the
    active plan [p] and puts the uploaded plan in its place; history and
    queue of [m] are untouched, so [p] is not archived. *)
Definition replaced_by_upload (r : request) (m : string) (p : plan)
    (st st' : State) : Prop :=
  ∃ df now,
    r = UploadPlan (Some m) (Some df) now ∧
    has_pending p = false ∧
    MACHINE_PLANS st' !! m = Some (process_rows m (take 10 df)) ∧
    getHistory m st' = getHistory m st ∧
    getQueuedPlans m st' = getQueuedPlans m st.

(** A list of entries is in descending order of [datetime]: no entry
    comes before one with a later timestamp. *)
Definition sorted_desc (l : list entry) : Prop :=
  StronglySorted (λ a b, dt_ltb (e_datetime a) (e_datetime b) = false) l.

(** ** A datetime library to run the handlers with

    The fixed-width subset of what Python's parsers accept
    ([YYYY-MM-DD], [YYYY-MM-DD HH:MM], and [YYYY-MM-DDTHH:MM[:SS]] with
    nothing, [Z] or [+HH:MM] or [-HH:MM] behind it) and the printers for the three formats the server uses.  The theorems hold for
    every [DatetimeLib]; this one is used to evaluate the handlers on
    concrete requests. *)
Module StrictDatetime.

Definition digit_of (a : ascii) : option Z :=
  let n := nat_of_ascii a in
  if (48 <=? n)%nat && (n <=? 57)%nat then Some (Z.of_nat n - 48)%Z else None.

Fixpoint read_digits (n : nat) (acc : Z) (s : string) : option (Z * string) :=
  match n with
  | O => Some (acc, s)
  | S n' =>
      match s with
      | String a rest =>
          match digit_of a with
          | Some d => read_digits n' (acc * 10 + d)%Z rest
          | None => None
          end
      | EmptyString => None
      end
  end.

Definition read_char (c : ascii) (s : string) : option string :=
  match s with
  | String a rest => if Ascii.eqb a c then Some rest else None
  | EmptyString => None
  end.

Definition read_date (s : string) : option (Z * Z * Z * string) :=
  '(y, s) ← read_digits 4 0 s;
  s ← read_char "-"%char s;
  '(m, s) ← read_digits 2 0 s;
  s ← read_char "-"%char s;
  '(d, s) ← read_digits 2 0 s;
  Some (y, m, d, s).

Definition read_hm (s : string) : option (Z * Z * string) :=
  '(h, s) ← read_digits 2 0 s;
  s ← read_char ":"%char s;
  '(mi, s) ← read_digits 2 0 s;
  Some (h, mi, s).

Definition checked (dt : datetime) : option datetime :=
  if valid_datetime dt then Some dt else None.

Definition parse_date (s : string) : option datetime :=
  '(y, m, d, s) ← read_date s;
  if bool_decide (s = "") then checked (DateTime y m d 0 0 0 0) else None.

Definition parse_date_hm (sep : ascii) (s : string) : option datetime :=
  '(y, m, d, s) ← read_date s;
  s ← read_char sep s;
  '(h, mi, s) ← read_hm s;
  if bool_decide (s = "") then checked (DateTime y m d h mi 0 0) else None.

(** What follows the time: nothing, [Z], or [+HH:MM] or [-HH:MM]. *)
Definition read_offset (s : string) : option (option Z) :=
  match s with
  | EmptyString => Some None
  | String c rest =>
      if Ascii.eqb c "Z"%char then
        if bool_decide (rest = "") then Some (Some 0%Z) else None
      else
        sign ← (if Ascii.eqb c "+"%char then Some 1%Z
                else if Ascii.eqb c "-"%char then Some (-1)%Z else None);
        '(h, mi, s) ← read_hm rest;
        let o := (sign * (h * 3600 + mi * 60) * 1000000)%Z in
        if bool_decide (s = "") && (h <? 24)%Z && (mi <? 60)%Z
           && (-86400000000 <? o)%Z && (o <? 86400000000)%Z
        then Some (Some o) else None
  end.

Definition read_seconds (s : string) : option (Z * string) :=
  match read_char ":"%char s with
  | Some s => read_digits 2 0 s
  | None => Some (0%Z, s)
  end.

Definition parse_iso (s : string) : option stamp :=
  '(y, m, d, s) ← read_date s;
  s ← read_char "T"%char s;
  '(h, mi, s) ← read_hm s;
  '(sec, s) ← read_seconds s;
  o ← read_offset s;
  dt ← checked (DateTime y m d h mi sec 0);
  Some (Stamp dt o).

Definition parse (s fmt : string) : option datetime :=
  if bool_decide (fmt = "%Y-%m-%d") then parse_date s
  else if bool_decide (fmt = "%Y-%m-%d %H:%M") then parse_date_hm " "%char s
  else None.

Fixpoint zeros (n : nat) : string :=
  match n with O => "" | S n' => String "0"%char (zeros n') end.

Definition pad (w : nat) (z : Z) : string :=
  let s := pretty (Z.to_N z) in zeros (w - String.length s) ++ s.

Definition print_date (dt : datetime) : string :=
  pad 4 (year dt) ++ "-" ++ pad 2 (month dt) ++ "-" ++ pad 2 (day dt).

Definition print_time (dt : datetime) : string :=
  pad 2 (hour dt) ++ ":" ++ pad 2 (minute dt) ++ ":" ++ pad 2 (second dt).

Definition print (dt : datetime) (fmt : string) : string :=
  if bool_decide (fmt = "%Y-%m-%d") then print_date dt
  else if bool_decide (fmt = "%Y-%m-%d %H:%M:%S") then print_date dt ++ " " ++ print_time dt
  else fmt.

Definition print_iso (dt : datetime) : string :=
  print_date dt ++ "T" ++ print_time dt
  ++ (if (microsecond dt =? 0)%Z then "" else "." ++ pad 6 (microsecond dt)).

End StrictDatetime.

(** * Properties *)

Section StrictLaws.
Import StrictDatetime.

(** Splits a hypothesis that a parser written in the option monad
    returned a result into the results of its steps. *)
Ltac parser_cases :=
  repeat first
    [ progress simplify_option_eq
    | match goal with
      | Hp : context [let '(_, _) := ?x in _] |- _ => destruct x
      | Hp : context [if bool_decide ?P then _ else _] |- _ =>
          destruct (bool_decide P) eqn:?
      end ].

Lemma checked_valid dt dt' : checked dt = Some dt' → valid_datetime dt' = true.
Proof. unfold checked. destruct (valid_datetime dt) eqn:E; congruence. Qed.

Lemma parse_valid s fmt dt : parse s fmt = Some dt → valid_datetime dt = true.
Proof.
  unfold parse, parse_date, parse_date_hm. intros Hp.
  repeat case_bool_decide; parser_cases; eauto using checked_valid.
Qed.

Lemma read_offset_valid s o :
  read_offset s = Some (Some o) → (-86400000000 < o < 86400000000)%Z.
Proof.
  unfold read_offset. destruct s as [|c rest]; [done|].
  destruct (Ascii.eqb c "Z"); [case_bool_decide; intros; simplify_eq; lia|].
  intros Hp. parser_cases.
  match type of Hp with
  | (if ?c then _ else _) = _ => destruct c eqn:Hc; [|done]
  end.
  simplify_eq. apply andb_prop in Hc as [Hc ?]. apply andb_prop in Hc as [_ ?]. lia.
Qed.

Lemma parse_iso_valid s t : parse_iso s = Some t → valid_stamp t = true.
Proof.
  unfold parse_iso. intros Hp. parser_cases. unfold valid_stamp. simpl.
  apply andb_true_intro. split; [by eapply checked_valid|].
  match goal with
  | Ho : read_offset _ = Some ?o |- _ => destruct o as [o'|]; [|done];
      apply read_offset_valid in Ho
  end.
  apply andb_true_intro. split; lia.
Qed.

End StrictLaws.

#[export] Instance strict_datetime : DatetimeLib := {|
  strptime := StrictDatetime.parse;
  fromisoformat := StrictDatetime.parse_iso;
  strftime := StrictDatetime.print;
  isoformat := StrictDatetime.print_iso;
  strptime_valid := parse_valid;
  fromisoformat_valid := parse_iso_valid
|}.


Section PlanLifecycle.
Context `{DatetimeLib}.

#[local] Arguments has_pending : simpl never.

Lemma truthy_Some s : s ≠ "" → truthy (Some s) = true.
Proof. intros Hs. unfold truthy. by rewrite bool_decide_eq_true_2. Qed.

(** [mark_row] only ever writes the [status] of a row. *)
Lemma mark_row_same_cells lid (p : plan) :
  delete "status" <$> mark_row lid p = delete "status" <$> p.
Proof.
  induction p as [|item rest IH]; [done|]. simpl.
  case_bool_decide; rewrite !fmap_cons; [|by rewrite IH].
  f_equal. by rewrite delete_insert_eq.
Qed.

Lemma mark_row_idemp lid (p : plan) : mark_row lid (mark_row lid p) = mark_row lid p.
Proof.
  induction p as [|item rest IH]; [done|]. simpl.
  destruct (bool_decide (item !! "line_id" = Some lid)) eqn:E; simpl.
  - apply bool_decide_eq_true_1 in E.
    rewrite lookup_insert_ne by done.
    rewrite bool_decide_eq_true_2 by done.
    by rewrite insert_insert_eq.
  - by rewrite E, IH.
Qed.

(** C4. If the machine has an active plan with a row that is not
    completed, an accepted upload for that machine (machine name and
    file present) leaves every active plan as it was, puts the new plan,
    with its line ids and all rows pending, at the back of the machine's
    queue, and the queue depth grows by exactly one. *)
Theorem upload_plan_queues_behind_pending
    (m : string) (df : list row) (now : datetime) (st : State) (p : plan) :
  m ≠ "" →
  MACHINE_PLANS st !! m = Some p →
  has_pending p = true →
  let st' := (upload_plan (Some m) (Some df) now st).1.1 in
  MACHINE_PLANS st' = MACHINE_PLANS st ∧
  getActive m st' = p ∧
  getQueuedPlans m st' = (getQueuedPlans m st ++ [process_rows m (take 10 df)])%list ∧
  getQueueDepth m st' = S (getQueueDepth m st) ∧
  MACHINE_PLAN_HISTORY st' = MACHINE_PLAN_HISTORY st.
Proof.
  intros Hm Hp Hpend. unfold upload_plan.
  rewrite truthy_Some by done. simpl. rewrite Hp.
  destruct p as [|r rest]; [discriminate|]. rewrite Hpend. simpl.
  unfold getActive, getQueueDepth, getQueuedPlans. simpl.
  rewrite Hp, lookup_insert_eq. simpl.
  repeat split; try done.
  rewrite length_app. simpl. lia.
Qed.


(** C2. When [mark_plan_complete] completes the last pending row of the
    machine's active plan and the machine's queue is not empty, then in
    the state the handler leaves the active plan is the former head of
    the queue, the queue is its former tail, and the history has gained
    exactly one record, at its end, whose plan is the previously active
    plan: the same rows, cell for cell, now all completed. *)
Theorem mark_last_row_promotes
    (data : gmap string string) (utcnow : datetime) (st : State)
    (m lid : string) (p next : plan) (q : list plan) :
  data !! "machineName" = Some m →
  data !! "lineId" = Some lid →
  m ≠ "" →
  lid ≠ "" →
  MACHINE_PLANS st !! m = Some p →
  has_pending p = true →
  has_pending (mark_row lid p) = false →
  MACHINE_PLAN_QUEUES st !! m = Some (next :: q) →
  let st' := (handle_mark_plan_complete data utcnow st).1 in
  getActive m st' = next ∧
  getQueuedPlans m st' = q ∧
  getHistory m st' =
    (getHistory m st ++ [Archive (isoformat utcnow) (mark_row lid p)])%list ∧
  delete "status" <$> mark_row lid p = delete "status" <$> p.
Proof.
  intros Hm Hl Hmne Hlne Hp _ Hdone Hq. unfold handle_mark_plan_complete.
  rewrite Hm, Hl, !truthy_Some by done. simpl.
  rewrite Hp, Hq. simpl. rewrite Hdone. simpl.
  unfold getActive, getQueuedPlans, getHistory. simpl.
  rewrite !lookup_insert_eq. simpl.
  repeat split; try done. apply mark_row_same_cells.
Qed.

(** C5, as the code has it.  A dequeue request that names no machine
    (the field is missing or empty) is dropped: nothing changes and
    nothing is emitted.  A request that names machine [m] fails with
    ['dequeue_failed'] / "No queued plans" and changes nothing when the
    queue of [m] is empty; otherwise the front of the queue becomes the
    active plan, the queue keeps its tail, and the plan that was active,
    when there is one and it has a row, is appended to the history
    whether or not it still has pending rows. *)
Theorem dequeue_plan_spec
    (data : gmap string string) (sid : string) (utcnow : datetime) (st : State) :
  let res := handle_request_dequeue_plan data sid utcnow st in
  (truthy (data !! "machineName") = false → res = (st, [])) ∧
  (∀ m, data !! "machineName" = Some m → m ≠ "" →
     getQueuedPlans m st = [] →
     res = (st, [Emit "dequeue_failed" (P_failed "No queued plans" m) (Some sid)])) ∧
  (∀ m next q, data !! "machineName" = Some m → m ≠ "" →
     getQueuedPlans m st = next :: q →
     getActive m res.1 = next ∧
     getQueuedPlans m res.1 = q ∧
     getHistory m res.1 =
       match MACHINE_PLANS st !! m with
       | Some (r :: rest) =>
           (getHistory m st ++ [Archive (isoformat utcnow) (r :: rest)])%list
       | _ => getHistory m st
       end).
Proof.
  unfold handle_request_dequeue_plan, getQueuedPlans. simpl.
  split; [|split].
  - by intros ->.
  - intros m Hm Hmne Hq. rewrite Hm, truthy_Some by done. simpl. by rewrite Hq.
  - intros m next q Hm Hmne Hq. rewrite Hm, truthy_Some by done. simpl.
    rewrite Hq. unfold getActive, getHistory.
    destruct (MACHINE_PLANS st !! m) as [[|r rest]|];
      simpl; by rewrite !lookup_insert_eq.
Qed.

Lemma with_plans_id (st : State) (m : string) (p : plan) :
  MACHINE_PLANS st !! m = Some p →
  with_plans (<[m := p]> (MACHINE_PLANS st)) st = st.
Proof. intros Hp. destruct st. unfold with_plans. simpl in *. by rewrite insert_id. Qed.

(** A promotion shortens the queue of the machine, so it shows in
    [MACHINE_PLAN_QUEUES]. *)
Lemma insert_tail_ne (qs : gmap string (list plan)) m (next : plan) q :
  qs !! m = Some (next :: q) → <[m := q]> qs ≠ qs.
Proof.
  intros Hq Heq. apply (f_equal (λ x, length <$> x !! m)) in Heq.
  rewrite lookup_insert_eq, Hq in Heq. simpl in Heq. injection Heq. lia.
Qed.

Lemma mark_ignored (data : gmap string string) (t : datetime) (st : State) :
  truthy (data !! "lineId") = false ∨ truthy (data !! "machineName") = false
  ∨ (∃ m, data !! "machineName" = Some m ∧ MACHINE_PLANS st !! m = None) →
  handle_mark_plan_complete data t st = (st, []).
Proof.
  unfold handle_mark_plan_complete. intros [Hl | [Hm | (m & Hm & Hp)]].
  - by rewrite Hl.
  - rewrite Hm. by rewrite orb_true_r.
  - destruct (negb _ || negb _); [done|]. rewrite Hm. simpl. by rewrite Hp.
Qed.

(** The state [handle_mark_plan_complete] leaves when the request is
    well formed and the machine has a plan. *)
Lemma mark_state (data : gmap string string) (t : datetime) (st : State)
    (m lid : string) (p : plan) :
  data !! "machineName" = Some m → data !! "lineId" = Some lid →
  m ≠ "" → lid ≠ "" →
  MACHINE_PLANS st !! m = Some p →
  (handle_mark_plan_complete data t st).1 =
    match getQueuedPlans m st with
    | next :: q =>
        if has_pending (mark_row lid p)
        then with_plans (<[m := mark_row lid p]> (MACHINE_PLANS st)) st
        else
          with_plans (<[m := next]> (MACHINE_PLANS st))
            (with_history
               (<[m := (getHistory m st
                        ++ [Archive (isoformat t) (mark_row lid p)])%list]>
                  (MACHINE_PLAN_HISTORY st))
               (with_queues (<[m := q]> (MACHINE_PLAN_QUEUES st)) st))
    | [] => with_plans (<[m := mark_row lid p]> (MACHINE_PLANS st)) st
    end.
Proof.
  intros Hm Hl Hmne Hlne Hp. unfold handle_mark_plan_complete, getQueuedPlans, getHistory.
  rewrite Hm, Hl, !truthy_Some by done. simpl. rewrite Hp.
  destruct (default [] (MACHINE_PLAN_QUEUES st !! m)) as [|next q]; [done|].
  by destruct (has_pending (mark_row lid p)).
Qed.

Lemma truthy_true_inv o : truthy o = true → ∃ s, o = Some s ∧ s ≠ "".
Proof.
  destruct o as [s|]; [|done]. unfold truthy. intros Hs.
  apply bool_decide_eq_true_1 in Hs. eauto.
Qed.

(** One [mark_plan_complete] for a machine with a plan leaves the state
    as it is exactly when the marking changes no row and nothing is
    promoted. *)
Lemma mark_fixed (data : gmap string string) (t : datetime) (st : State)
    (m lid : string) (p : plan) :
  data !! "machineName" = Some m → data !! "lineId" = Some lid →
  m ≠ "" → lid ≠ "" →
  MACHINE_PLANS st !! m = Some p →
  (handle_mark_plan_complete data t st).1 = st ↔
  mark_row lid p = p ∧ (has_pending p = true ∨ getQueuedPlans m st = []).
Proof.
  intros Hm Hl Hmne Hlne Hp. rewrite (mark_state _ _ _ m lid p) by done.
  assert (Hplan : ∀ s, with_plans (<[m := mark_row lid p]> (MACHINE_PLANS st)) s = st →
                       mark_row lid p = p).
  { intros s Heq. apply (f_equal (λ x, MACHINE_PLANS x !! m)) in Heq. simpl in Heq.
    rewrite lookup_insert_eq in Heq. congruence. }
  split.
  - intros Heq. destruct (getQueuedPlans m st) as [|next q] eqn:Hq.
    + split; [by eapply Hplan | by right].
    + destruct (has_pending (mark_row lid p)) eqn:Hpend.
      * apply Hplan in Heq. rewrite Heq in Hpend. auto.
      * apply (f_equal MACHINE_PLAN_QUEUES) in Heq. simpl in Heq.
        unfold getQueuedPlans in Hq.
        destruct (MACHINE_PLAN_QUEUES st !! m) as [qs|] eqn:Hq'; simpl in Hq; [|done].
        subst qs. destruct (insert_tail_ne _ _ _ _ Hq' Heq).
  - intros [Hid Hcase]. rewrite Hid.
    destruct (getQueuedPlans m st) as [|next q]; [by apply with_plans_id|].
    destruct Hcase as [-> | ?]; [by apply with_plans_id | done].
Qed.

(** The same for any request, with the two fields read as the handler
    reads them. *)
Lemma mark_nothing_to_do (data : gmap string string) (t : datetime) (st : State) :
  let m := default "" (data !! "machineName") in
  let lid := default "" (data !! "lineId") in
  mark_row lid (getActive m st) = getActive m st →
  has_pending (getActive m st) = true ∨ getQueuedPlans m st = [] →
  (handle_mark_plan_complete data t st).1 = st.
Proof.
  cbv zeta. intros Hid Hcase.
  destruct (truthy (data !! "lineId")) eqn:Hl; [|by rewrite mark_ignored by auto].
  destruct (truthy (data !! "machineName")) eqn:Hm; [|by rewrite mark_ignored by auto].
  apply truthy_true_inv in Hl as (lid & Hl & Hlne).
  apply truthy_true_inv in Hm as (m & Hm & Hmne).
  rewrite Hl, Hm in *. simpl in *.
  destruct (MACHINE_PLANS st !! m) as [p|] eqn:Hp; [|by rewrite mark_ignored by eauto].
  apply (mark_fixed _ _ _ m lid p); try done.
  unfold getActive in *. rewrite Hp in *. done.
Qed.

(** What a [mark_plan_complete] that changes [MACHINE_PLAN_QUEUES] has
    found and done: a promotion. *)
Lemma mark_promotes (data : gmap string string) (t : datetime) (st : State) :
  let m := default "" (data !! "machineName") in
  let lid := default "" (data !! "lineId") in
  MACHINE_PLAN_QUEUES (handle_mark_plan_complete data t st).1 ≠ MACHINE_PLAN_QUEUES st ↔
  ∃ p next q,
    data !! "machineName" = Some m ∧ data !! "lineId" = Some lid ∧ m ≠ "" ∧ lid ≠ "" ∧
    MACHINE_PLANS st !! m = Some p ∧
    has_pending (mark_row lid p) = false ∧
    getQueuedPlans m st = next :: q.
Proof.
  cbv zeta. split.
  - intros Hne.
    destruct (truthy (data !! "lineId")) eqn:Hl;
      [|by rewrite mark_ignored in Hne by auto].
    destruct (truthy (data !! "machineName")) eqn:Hm;
      [|by rewrite mark_ignored in Hne by auto].
    apply truthy_true_inv in Hl as (lid & Hl & Hlne).
    apply truthy_true_inv in Hm as (m & Hm & Hmne).
    rewrite Hl, Hm in *. simpl in *.
    destruct (MACHINE_PLANS st !! m) as [p|] eqn:Hp;
      [|by rewrite mark_ignored in Hne by eauto].
    rewrite (mark_state _ _ _ m lid p) in Hne by done.
    destruct (getQueuedPlans m st) as [|next q] eqn:Hq; [done|].
    destruct (has_pending (mark_row lid p)) eqn:Hpend; [done|].
    exists p, next, q. done.
  - intros (p & next & q & Hm & Hl & Hmne & Hlne & Hp & Hpend & Hq).
    rewrite (mark_state _ _ _ _ _ p Hm Hl Hmne Hlne Hp), Hq, Hpend. simpl.
    unfold getQueuedPlans in Hq.
    destruct (MACHINE_PLAN_QUEUES st !! default "" (data !! "machineName"))
      as [qs|] eqn:Hq'; simpl in Hq; [|done].
    subst qs. by eapply insert_tail_ne.
Qed.

(** When the first call promotes nothing, a second call with the same
    request leaves the state the first call produced. *)
Lemma mark_twice_without_promotion
    (data : gmap string string) (t1 t2 : datetime) (st : State) :
  MACHINE_PLAN_QUEUES (handle_mark_plan_complete data t1 st).1 = MACHINE_PLAN_QUEUES st →
  (handle_mark_plan_complete data t2 (handle_mark_plan_complete data t1 st).1).1
    = (handle_mark_plan_complete data t1 st).1.
Proof.
  intros Hqs.
  destruct (truthy (data !! "lineId")) eqn:Hl; [|by rewrite !mark_ignored by auto].
  destruct (truthy (data !! "machineName")) eqn:Hm; [|by rewrite !mark_ignored by auto].
  apply truthy_true_inv in Hl as (lid & Hl & Hlne).
  apply truthy_true_inv in Hm as (m & Hm & Hmne).
  destruct (MACHINE_PLANS st !! m) as [p|] eqn:Hp;
    [|rewrite (mark_ignored data t1 st) by eauto; simpl;
      by rewrite mark_ignored by eauto].
  assert (Hcase : has_pending (mark_row lid p) = true ∨ getQueuedPlans m st = []).
  { destruct (has_pending (mark_row lid p)) eqn:Hpend; [by left|].
    destruct (getQueuedPlans m st) as [|next q] eqn:Hq; [by right|].
    exfalso. apply (proj2 (mark_promotes data t1 st)); [|done].
    rewrite Hm, Hl. simpl. exists p, next, q. done. }
  assert (Hst1 : (handle_mark_plan_complete data t1 st).1
                 = with_plans (<[m := mark_row lid p]> (MACHINE_PLANS st)) st).
  { rewrite (mark_state _ _ _ m lid p) by done.
    destruct Hcase as [-> | ->]; [|done]. by destruct (getQueuedPlans m st). }
  rewrite Hst1.
  apply (mark_fixed _ _ _ m lid (mark_row lid p)); try done.
  - simpl. by rewrite lookup_insert_eq.
  - split; [apply mark_row_idemp|]. destruct Hcase; [by left | by right].
Qed.

(** Closes the case where plan [p] is still the active plan of the
    machine and its history is as before. *)
Ltac stays p :=
  left; exists p; unfold getHistory; simpl;
  rewrite ?lookup_insert_ne by done; by auto.

(** The handlers of the logs and of presence do not touch the plans. *)
Lemma handle_plans_frame (r : request) (st : State) :
  match r with
  | UploadPlan _ _ _ | MarkPlanComplete _ _ | RequestDequeuePlan _ _ _ => True
  | _ =>
      MACHINE_PLANS (handle r st).1 = MACHINE_PLANS st ∧
      MACHINE_PLAN_QUEUES (handle r st).1 = MACHINE_PLAN_QUEUES st ∧
      MACHINE_PLAN_HISTORY (handle r st).1 = MACHINE_PLAN_HISTORY st
  end.
Proof.
  destruct r; simpl; try done.
  - unfold handle_submit_output. by repeat case_match.
  - unfold handle_submit_downtime. by repeat case_match.
  - unfold handle_join_machine_room. by repeat case_match.
  - unfold handle_disconnect. by repeat case_match.
Qed.

(** Plans only ever get stored under a non-empty machine name, so in a
    reachable state a machine with an active plan has one. *)
Lemma reachable_plans_named (st : State) (m : string) :
  reachable st → is_Some (MACHINE_PLANS st !! m) → m ≠ "".
Proof.
  induction 1 as [|r st Hr IH].
  - simpl. rewrite lookup_empty. by intros [? ?].
  - pose proof (handle_plans_frame r st) as Hf.
    destruct r as [tm ps now | | | | | | data t | data sid t];
      try (destruct Hf as (-> & _ & _); exact IH); clear Hf; simpl.
    + unfold upload_plan. destruct ps as [df|]; [|exact IH].
      destruct (truthy tm) eqn:Htm; simpl; [|exact IH].
      apply truthy_true_inv in Htm as (m' & -> & Hm'). simpl.
      destruct (match MACHINE_PLANS st !! m' with
                | Some (r0 :: rest) => has_pending (r0 :: rest)
                | _ => false end); simpl; [exact IH|].
      rewrite lookup_insert. case_decide; [by subst | exact IH].
    + destruct (truthy (data !! "lineId")) eqn:Hl;
        [|by rewrite mark_ignored by auto].
      destruct (truthy (data !! "machineName")) eqn:Hm;
        [|by rewrite mark_ignored by auto].
      apply truthy_true_inv in Hl as (lid & Hl & Hlne).
      apply truthy_true_inv in Hm as (m' & Hm & Hmne).
      destruct (MACHINE_PLANS st !! m') as [p0|] eqn:Hp0;
        [|by rewrite mark_ignored by eauto].
      rewrite (mark_state _ _ _ m' lid p0) by done.
      destruct (getQueuedPlans m' st) as [|next q];
        try destruct (has_pending (mark_row lid p0)); simpl;
        rewrite lookup_insert; (case_decide; [by subst | exact IH]).
    + unfold handle_request_dequeue_plan.
      destruct (truthy (data !! "machineName")) eqn:Hm; simpl; [|exact IH].
      apply truthy_true_inv in Hm as (m' & Hm & Hmne). rewrite Hm. simpl.
      destruct (default [] (MACHINE_PLAN_QUEUES st !! m')) as [|next q]; [exact IH|].
      destruct (MACHINE_PLANS st !! m') as [[|r0 rest]|]; simpl;
        rewrite lookup_insert; (case_decide; [by subst | exact IH]).
Qed.

(** C1, as the code has it.  The active slot of a machine is the entry
    of the dictionary [MACHINE_PLANS] under its name, so it never holds
    two plans.  Whatever request the server handles, a non-empty active
    plan [p] of machine [m] either stays active (the same rows, with at
    most one more completed, and the history of [m] untouched), or is
    promoted in full (archived at the end of the history of [m] while the
    head of the queue of [m] becomes active), or is replaced by an upload
    for [m] when none of its rows is pending: then the uploaded plan
    becomes active directly and [p] is not archived. *)
Theorem active_plan_leaves_by_promotion_or_upload
    (r : request) (st : State) (m : string) (p : plan) :
  MACHINE_PLANS st !! m = Some p →
  p ≠ [] →
  let st' := (handle r st).1 in
  stays_active m p st st' ∨ promoted m p st st' ∨ replaced_by_upload r m p st st'.
Proof.
  unfold stays_active, promoted, replaced_by_upload, same_plan.
  intros Hp Hne. cbv zeta.
  pose proof (handle_plans_frame r st) as Hframe.
  destruct r as [tm ps now | | | | | | data t | data sid t];
    try (left; destruct Hframe as (Hf1 & Hf2 & Hf3); exists p; unfold getHistory;
         rewrite Hf1, Hf3; by auto); clear Hframe.
  - (* upload_plan *)
    simpl. unfold upload_plan.
    destruct ps as [df|]; [|stays p].
    destruct (truthy tm) eqn:Htm; simpl; [|stays p].
    apply truthy_true_inv in Htm as (m' & -> & Hm'). simpl.
    destruct (decide (m' = m)) as [->|Hmm].
    + rewrite Hp. destruct p as [|r0 rest]; [done|].
      destruct (has_pending (r0 :: rest)) eqn:Hpend; simpl.
      * stays (r0 :: rest).
      * right; right. exists df, now. unfold getHistory, getQueuedPlans. simpl.
        by rewrite lookup_insert_eq.
    + destruct (match MACHINE_PLANS st !! m' with
                | Some (r0 :: rest) => has_pending (r0 :: rest)
                | _ => false end); stays p.
  - (* mark_plan_complete *)
    simpl.
    destruct (truthy (data !! "lineId")) eqn:Hl;
      [|rewrite mark_ignored by auto; stays p].
    destruct (truthy (data !! "machineName")) eqn:Hm;
      [|rewrite mark_ignored by auto; stays p].
    apply truthy_true_inv in Hl as (lid & Hl & Hlne).
    apply truthy_true_inv in Hm as (m' & Hm & Hmne).
    destruct (MACHINE_PLANS st !! m') as [p0|] eqn:Hp0;
      [|rewrite mark_ignored by eauto; stays p].
    rewrite (mark_state _ _ _ m' lid p0) by done.
    destruct (decide (m' = m)) as [->|Hmm].
    + assert (p0 = p) as -> by congruence.
      destruct (getQueuedPlans m st) as [|next q] eqn:Hq.
      * left. exists (mark_row lid p). simpl. rewrite lookup_insert_eq. eauto.
      * destruct (has_pending (mark_row lid p)).
        -- left. exists (mark_row lid p). simpl. rewrite lookup_insert_eq. eauto.
        -- right; left. exists (mark_row lid p), next, q, (isoformat t).
           unfold getQueuedPlans, getHistory. simpl. rewrite !lookup_insert_eq.
           repeat split; eauto.
    + destruct (getQueuedPlans m' st) as [|next q];
        try destruct (has_pending (mark_row lid p0)); stays p.
  - (* request_dequeue_plan *)
    simpl. unfold handle_request_dequeue_plan.
    destruct (truthy (data !! "machineName")) eqn:Hm; simpl; [|stays p].
    apply truthy_true_inv in Hm as (m' & Hm & Hmne). rewrite Hm. simpl.
    destruct (decide (m' = m)) as [->|Hmm].
    + rewrite Hp. destruct p as [|r0 rest]; [done|].
      destruct (MACHINE_PLAN_QUEUES st !! m) as [[|next q]|] eqn:Hq; simpl;
        [stays (r0 :: rest) | | stays (r0 :: rest)].
      right; left. exists (r0 :: rest), next, q, (isoformat t).
      unfold getQueuedPlans, getHistory. simpl. rewrite Hq, !lookup_insert_eq.
      repeat split; eauto.
    + destruct (default [] (MACHINE_PLAN_QUEUES st !! m')) as [|next q]; [stays p|].
      destruct (MACHINE_PLANS st !! m') as [[|r0 rest]|]; stays p.
Qed.

End PlanLifecycle.

Section Presence.
Context `{DatetimeLib}.

Lemma already_connected_spec (m sid : string) (st : State) :
  already_connected m sid st = true ↔
  ∃ sid', sid' ≠ sid ∧ SID_TO_MACHINE st !! sid' = Some m.
Proof.
  unfold already_connected. rewrite existsb_exists. split.
  - intros ([s name] & Hin & Hb). apply list_elem_of_In, elem_of_map_to_list in Hin.
    apply andb_true_iff in Hb as [Hn Hs].
    apply bool_decide_eq_true_1 in Hn, Hs. subst name. eauto.
  - intros (sid' & Hne & Hs). exists (sid', m). split.
    + by apply list_elem_of_In, elem_of_map_to_list.
    + by rewrite !bool_decide_eq_true_2.
Qed.

(** Only joining and disconnecting write [SID_TO_MACHINE]. *)
Lemma handle_sids_frame (r : request) (st : State) :
  match r with
  | JoinMachineRoom _ _ | Disconnect _ => True
  | _ => SID_TO_MACHINE (handle r st).1 = SID_TO_MACHINE st
  end.
Proof.
  destruct r; simpl; try done.
  - unfold upload_plan. by repeat case_match.
  - unfold handle_submit_output. by repeat case_match.
  - unfold handle_submit_downtime. by repeat case_match.
  - unfold handle_mark_plan_complete. by repeat case_match.
  - unfold handle_request_dequeue_plan. repeat case_match; by simplify_eq.
Qed.

Lemma join_preserves_injective data sid st :
  presence_injective st → presence_injective (handle_join_machine_room data sid st).1.
Proof.
  intros Hinj. unfold handle_join_machine_room.
  destruct (truthy (data !! "machineName")); simpl; [|done].
  destruct (already_connected _ sid st) eqn:Hc; simpl; [done|].
  set (m := default "" (data !! "machineName")) in *.
  intros s1 s2 m0. simpl. rewrite !lookup_insert. repeat case_decide; subst.
  - done.
  - intros [= <-] Hs2. exfalso.
    assert (already_connected m s1 st = true) as Hc'
      by (apply already_connected_spec; eauto). congruence.
  - intros Hs1 [= <-]. exfalso.
    assert (already_connected m s2 st = true) as Hc'
      by (apply already_connected_spec; eauto). congruence.
  - apply Hinj.
Qed.

Lemma disconnect_preserves_injective sid st :
  presence_injective st → presence_injective (handle_disconnect sid st).1.
Proof.
  intros Hinj. unfold handle_disconnect.
  destruct (SID_TO_MACHINE st !! sid); simpl; [|done].
  intros s1 s2 m0. simpl. rewrite !lookup_delete. repeat case_decide; try done.
  apply Hinj.
Qed.

Lemma reachable_run (rs : list request) (st : State) :
  reachable st → reachable (run rs st).
Proof.
  revert st. induction rs as [|r rs IH]; intros st Hst; [done|].
  apply IH. by constructor.
Qed.

Lemma reachable_presence_injective st : reachable st → presence_injective st.
Proof.
  induction 1 as [|r st Hr IH].
  - intros s1 s2 m. simpl. by rewrite lookup_empty.
  - pose proof (handle_sids_frame r st) as Hf.
    destruct r; try (unfold presence_injective; rewrite Hf; exact IH).
    + by apply join_preserves_injective.
    + by apply disconnect_preserves_injective.
Qed.

(** C6, as the code has it.  A join whose machine name is missing or
    empty is refused with "Missing machine name." and registers nothing.
    A join that names machine [m] is refused as a conflict exactly when
    another, distinct connection currently maps to [m], and then nothing
    changes; otherwise the mapping of the connection is inserted or
    overwritten and the join is confirmed.  A disconnect removes the
    mapping of the connection and does nothing when there is none.  In
    every reachable state no two distinct connections map to the same
    machine name. *)
Theorem presence_registry_spec :
  (∀ data sid st,
     truthy (data !! "machineName") = false →
     handle_join_machine_room data sid st =
       (st, [Emit "join_confirm" (P_confirm false None (Some "Missing machine name."))
                  (Some sid)])) ∧
  (∀ data sid st m,
     data !! "machineName" = Some m → m ≠ "" →
     let res := handle_join_machine_room data sid st in
     ((∃ sid', sid' ≠ sid ∧ SID_TO_MACHINE st !! sid' = Some m) ↔
      res = (st, [Emit "join_confirm"
                       (P_confirm false None
                          (Some ("Machine " ++ m ++ " is already connected.")))
                       (Some sid)])) ∧
     ((¬ ∃ sid', sid' ≠ sid ∧ SID_TO_MACHINE st !! sid' = Some m) →
      SID_TO_MACHINE res.1 = <[sid := m]> (SID_TO_MACHINE st) ∧
      last res.2 = Some (Emit "join_confirm" (P_confirm true (Some m) None) (Some sid)))) ∧
  (∀ sid st,
     SID_TO_MACHINE (handle_disconnect sid st).1 = delete sid (SID_TO_MACHINE st) ∧
     (SID_TO_MACHINE st !! sid = None → handle_disconnect sid st = (st, []))) ∧
  (∀ st, reachable st → presence_injective st).
Proof.
  split; [|split; [|split]].
  - intros data sid st Hm. unfold handle_join_machine_room. by rewrite Hm.
  - intros data sid st m Hm Hmne. cbv zeta. unfold handle_join_machine_room.
    rewrite Hm, truthy_Some by done. simpl.
    rewrite <- already_connected_spec.
    destruct (already_connected m sid st); simpl.
    + split; [done|]. intros Hn. by destruct Hn.
    + split; [|done]. split; [done|]. intros Heq. discriminate Heq.
  - intros sid st. unfold handle_disconnect.
    destruct (SID_TO_MACHINE st !! sid) eqn:Hs; simpl; [done|].
    split; [|done]. by rewrite delete_id.
  - apply reachable_presence_injective.
Qed.

End Presence.

(** ** Arithmetic of dates *)

Section Calendar.

Lemma valid_datetime_bounds dt :
  valid_datetime dt = true →
  (1 ≤ year dt ≤ 9999 ∧ 1 ≤ month dt ≤ 12 ∧
   1 ≤ day dt ≤ days_in_month (year dt) (month dt) ∧
   0 ≤ hour dt < 24 ∧ 0 ≤ minute dt < 60 ∧ 0 ≤ second dt < 60 ∧
   0 ≤ microsecond dt < 1000000)%Z.
Proof.
  unfold valid_datetime. rewrite !andb_true_iff, !Z.leb_le, !Z.ltb_lt. lia.
Qed.

Lemma days_before_year_succ y :
  days_before_year (y + 1) = (days_before_year y + 365 + (if is_leap y then 1 else 0))%Z.
Proof.
  unfold days_before_year, is_leap. cbv zeta.
  replace (y + 1 - 1)%Z with y by lia.
  destruct (Z.eqb_spec (y mod 4) 0), (Z.eqb_spec (y mod 100) 0),
    (Z.eqb_spec (y mod 400) 0); simpl; Z.div_mod_to_equations; lia.
Qed.

Lemma days_before_year_mono y1 y2 :
  (y1 ≤ y2)%Z → (days_before_year y1 ≤ days_before_year y2)%Z.
Proof.
  unfold days_before_year. cbv zeta. intros Hy. Z.div_mod_to_equations. lia.
Qed.

Lemma month_cases m :
  (1 ≤ m ≤ 12)%Z →
  m = 1%Z ∨ m = 2%Z ∨ m = 3%Z ∨ m = 4%Z ∨ m = 5%Z ∨ m = 6%Z ∨ m = 7%Z ∨ m = 8%Z
  ∨ m = 9%Z ∨ m = 10%Z ∨ m = 11%Z ∨ m = 12%Z.
Proof. lia. Qed.

(** The last day of a month comes before the first day of any later
    month of the same year. *)
Lemma days_before_month_lt y m1 m2 :
  (1 ≤ m1)%Z → (m1 < m2)%Z → (m2 ≤ 12)%Z →
  (days_before_month y m1 + days_in_month y m1 ≤ days_before_month y m2)%Z.
Proof.
  intros H1 H12 H2.
  pose proof (month_cases m1 ltac:(lia)) as Hm1.
  pose proof (month_cases m2 ltac:(lia)) as Hm2.
  repeat (destruct Hm1 as [-> | Hm1]); try subst m1;
    repeat (destruct Hm2 as [-> | Hm2]); try subst m2; try lia;
    unfold days_before_month, days_in_month, DAYS_BEFORE_MONTH;
    destruct (is_leap y); simpl; lia.
Qed.

Lemma days_before_month_bounds y m :
  (1 ≤ m ≤ 12)%Z →
  (0 ≤ days_before_month y m ∧
   days_before_month y m + days_in_month y m ≤ 365 + (if is_leap y then 1 else 0))%Z.
Proof.
  intros Hm. pose proof (month_cases m Hm) as Hm1.
  repeat (destruct Hm1 as [-> | Hm1]); try subst m;
    unfold days_before_month, days_in_month, DAYS_BEFORE_MONTH;
    destruct (is_leap y); simpl; lia.
Qed.

(** [toordinal] orders well-formed dates as their [(year, month, day)]. *)
Lemma toordinal_lt a b :
  valid_datetime a = true → valid_datetime b = true →
  ((year a < year b → toordinal a < toordinal b) ∧
   (year a = year b → month a < month b → toordinal a < toordinal b) ∧
   (year a = year b → month a = month b →
    toordinal a - toordinal b = day a - day b))%Z.
Proof.
  intros Ha Hb. apply valid_datetime_bounds in Ha, Hb. unfold toordinal.
  pose proof (days_before_month_bounds (year a) (month a) ltac:(lia)) as Hma.
  pose proof (days_before_month_bounds (year b) (month b) ltac:(lia)) as Hmb.
  repeat split.
  - intros Hy.
    pose proof (days_before_year_succ (year a)) as Hs.
    pose proof (days_before_year_mono (year a + 1) (year b) ltac:(lia)). lia.
  - intros Hy Hm. rewrite Hy in *.
    pose proof (days_before_month_lt (year b) (month a) (month b)
                  ltac:(lia) Hm ltac:(lia)). lia.
  - intros Hy Hm. rewrite Hy, Hm. lia.
Qed.

(** An earlier datetime minus a later one is a negative duration. *)
Lemma dt_sub_neg a b :
  valid_datetime a = true → valid_datetime b = true →
  dt_ltb a b = true → (dt_sub a b < 0)%Z.
Proof.
  intros Ha Hb Hlt. destruct (toordinal_lt a b Ha Hb) as (Hy & Hm & Hd).
  apply valid_datetime_bounds in Ha, Hb.
  unfold dt_ltb, dt_tuple in Hlt. simpl in Hlt.
  rewrite !orb_true_iff, !andb_true_iff, !Z.ltb_lt, !Z.eqb_eq in Hlt.
  unfold dt_sub. cbv zeta. lia.
Qed.

Lemma total_hours_neg td : (td < 0)%Z → (total_hours_of td < 0)%Q.
Proof. intros Htd. unfold total_hours_of, Qlt. simpl. lia. Qed.

End Calendar.

(** ** The sort of the date filter *)

Section Sorting.

Lemma tuple_ltb_asym a b : tuple_ltb a b = true → tuple_ltb b a = false.
Proof.
  revert b. induction a as [|x a IH]; intros [|y b]; simpl; try done.
  destruct (Z.ltb_spec x y), (Z.ltb_spec y x), (Z.eqb_spec x y), (Z.eqb_spec y x);
    simpl; try lia; try done. apply IH.
Qed.

(** "Not earlier than" is transitive. *)
Lemma tuple_geb_trans a b c :
  tuple_ltb a b = false → tuple_ltb b c = false → tuple_ltb a c = false.
Proof.
  revert b c. induction a as [|x a IH]; intros [|y b] [|z c]; simpl; try done.
  destruct (Z.ltb_spec x y), (Z.ltb_spec y z), (Z.ltb_spec x z),
    (Z.eqb_spec x y), (Z.eqb_spec y z), (Z.eqb_spec x z);
    simpl; try lia; try done. apply IH.
Qed.

Lemma insert_desc_perm x l : insert_desc x l ≡ₚ x :: l.
Proof.
  induction l as [|y ys IH]; simpl; [done|].
  destruct (dt_ltb (e_datetime x) (e_datetime y)); [|done].
  rewrite IH. apply Permutation_swap.
Qed.

Lemma sort_desc_perm l : sort_desc l ≡ₚ l.
Proof.
  induction l as [|x l IH]; simpl; [done|].
  by rewrite insert_desc_perm, IH.
Qed.

Lemma insert_desc_sorted x l : sorted_desc l → sorted_desc (insert_desc x l).
Proof.
  unfold sorted_desc. induction 1 as [|y ys Hs IH Hy]; simpl.
  - repeat constructor.
  - destruct (dt_ltb (e_datetime x) (e_datetime y)) eqn:Hxy.
    + constructor; [done|]. rewrite insert_desc_perm. constructor; [|done].
      by apply tuple_ltb_asym.
    + constructor; [by constructor|]. constructor; [done|].
      eapply Forall_impl; [exact Hy|]. intros z Hz. simpl in Hz.
      eapply tuple_geb_trans; [exact Hxy | exact Hz].
Qed.

Lemma sort_desc_sorted l : sorted_desc (sort_desc l).
Proof.
  induction l as [|x l IH]; simpl; [constructor|]. by apply insert_desc_sorted.
Qed.

End Sorting.

Section Logs.
Context `{DatetimeLib}.

(** What the date filter returns for a date string that parses. *)
Lemma get_data_for_date_parsed (q : string) (dq : datetime) (st : State) :
  q ≠ "" → strptime q "%Y-%m-%d" = Some dq →
  get_data_for_date (Some q) st =
    sort_desc (filter (λ e, date (e_datetime e) = date dq) (SUBMISSION_LOG st)).
Proof.
  intros Hq Hp. unfold get_data_for_date. rewrite truthy_Some by done. simpl.
  by rewrite Hp.
Qed.


(** C7. After [handle_submit_output] has appended an entry whose
    timestamp falls on calendar date [d], a query for a date string that
    denotes [d] returns a list that contains that entry and is in
    descending order of timestamp, and a query for a date string that
    denotes any other calendar date returns a list without it. *)
Theorem query_by_date_round_trip
    (data : gmap string string) (sid : string) (now : datetime) (st : State)
    (entry_date entry_time : string) (dt : datetime) :
  data !! "entry_date" = Some entry_date →
  data !! "entry_time" = Some entry_time →
  strptime (entry_date ++ " " ++ entry_time) "%Y-%m-%d %H:%M" = Some dt →
  let e := Entry (delete "datetime" data) dt in
  let st' := (handle_submit_output data sid now st).1 in
  SUBMISSION_LOG st' = (SUBMISSION_LOG st ++ [e])%list ∧
  ∀ q dq, q ≠ "" → strptime q "%Y-%m-%d" = Some dq →
    (date dq = date dt →
       e ∈ get_data_for_date (Some q) st' ∧ sorted_desc (get_data_for_date (Some q) st')) ∧
    (date dq ≠ date dt → e ∉ get_data_for_date (Some q) st').
Proof.
  intros Hd Ht Hp e st'.
  assert (Hlog : SUBMISSION_LOG st' = (SUBMISSION_LOG st ++ [e])%list).
  { subst st'. unfold handle_submit_output. by rewrite Hd, Ht, Hp. }
  split; [done|]. intros q dq Hq Hpq.
  rewrite (get_data_for_date_parsed q dq) by done. rewrite Hlog. split.
  - intros Hsame. split; [|apply sort_desc_sorted].
    rewrite sort_desc_perm, list_elem_of_filter. split; [done|].
    apply elem_of_app. right. by apply list_elem_of_singleton.
  - intros Hdiff. rewrite sort_desc_perm, list_elem_of_filter.
    intros [Hsame _]. by apply Hdiff.
Qed.





End Logs.

(** * The handlers on concrete requests *)

Module Scenario.

(** A clock reading and two one-row sheets. *)
Definition t0 : datetime := DateTime 2024 1 15 8 0 0 0.
Definition sheet_a : list row := [ {[ "Part No" := "P-100" ]} ].
Definition sheet_b : list row := [ {[ "Part No" := "P-200" ]} ].

Definition mark (m lid : string) : gmap string string :=
  {[ "lineId" := lid; "machineName" := m ]}.

Definition named (m : string) : gmap string string := {[ "machineName" := m ]}.

(** Machine M1 works on plan A. *)
Definition st_a : State :=
  run [UploadPlan (Some "M1") (Some sheet_a) t0] initial_state.

(** Plan B has been uploaded behind plan A. *)
Definition st_ab : State :=
  run [UploadPlan (Some "M1") (Some sheet_b) t0] st_a.

(** Plan A is fully completed and nothing is queued. *)
Definition st_a_done : State :=
  run [MarkPlanComplete (mark "M1" "M1_1") t0] st_a.

Definition plan_a : plan :=
  [ {[ "Part No" := "P-100"; "line_id" := "M1_1"; "status" := "pending" ]} ].
Definition plan_a_done : plan :=
  [ {[ "Part No" := "P-100"; "line_id" := "M1_1"; "status" := "completed" ]} ].
Definition plan_b : plan :=
  [ {[ "Part No" := "P-200"; "line_id" := "M1_1"; "status" := "pending" ]} ].
Definition plan_b_done : plan :=
  [ {[ "Part No" := "P-200"; "line_id" := "M1_1"; "status" := "completed" ]} ].

(** A production submission with a manual and a measured crimp height. *)
Definition output_1 : gmap string string :=
  {[ "entry_date" := "2024-01-15"; "entry_time" := "10:30";
     "machine_name" := "M3"; "produced_qty" := "10";
     "t1_crimp_height_manual" := "5.2"; "t1_crimp_height_measured" := "5.0" ]}.

(** A downtime submission that ends an hour and a half before it starts. *)
Definition downtime_1 : gmap string string :=
  {[ "start_time" := "2024-01-15T10:30:00"; "end_time" := "2024-01-15T09:00:00";
     "machine_name" := "M3" ]}.

(** A downtime submission of half an hour, written without an offset, and
    the state in which it has been stored. *)
Definition downtime_morning : gmap string string :=
  {[ "start_time" := "2024-01-15T08:00:00"; "end_time" := "2024-01-15T08:30:00";
     "machine_name" := "M3" ]}.

Definition st_morning : State :=
  run [SubmitDowntime downtime_morning "c1" t0] initial_state.

(** A downtime submission on the same day, written with a UTC offset,
    that ends an hour and a half before it starts. *)
Definition downtime_utc : gmap string string :=
  {[ "start_time" := "2024-01-15T10:30:00+00:00";
     "end_time" := "2024-01-15T09:00:00+00:00";
     "machine_name" := "M3" ]}.

End Scenario.

Section Scenarios.
Import Scenario.

Example strptime_minute :
  strptime "2024-01-15 10:30" "%Y-%m-%d %H:%M" = Some (DateTime 2024 1 15 10 30 0 0).
Proof. reflexivity. Qed.

Example fromisoformat_rejects_february_30 : fromisoformat "2024-02-30T10:30:05" = None.
Proof. reflexivity. Qed.

Example strftime_seconds :
  strftime (DateTime 2024 1 15 10 30 0 0) "%Y-%m-%d %H:%M:%S" = "2024-01-15 10:30:00".
Proof. reflexivity. Qed.

Example st_a_active : getActive "M1" st_a = plan_a ∧ getQueueDepth "M1" st_a = 0.
Proof. split; reflexivity. Qed.

Example st_ab_queued : getActive "M1" st_ab = plan_a ∧ getQueuedPlans "M1" st_ab = [plan_b].
Proof. split; reflexivity. Qed.

Example st_a_done_active :
  getActive "M1" st_a_done = plan_a_done ∧ getQueuedPlans "M1" st_a_done = [].
Proof. split; reflexivity. Qed.

(** The scenario of the specification: plan A of three rows, plan B of
    two rows behind it, then the three rows of A completed. *)
Example upload_queue_promote :
  let sheet3 : list row := [ {[ "n" := "1" ]}; {[ "n" := "2" ]}; {[ "n" := "3" ]} ] in
  let sheet2 : list row := [ {[ "n" := "4" ]}; {[ "n" := "5" ]} ] in
  let s1 := run [UploadPlan (Some "M1") (Some sheet3) t0] initial_state in
  let s2 := run [UploadPlan (Some "M1") (Some sheet2) t0] s1 in
  let s3 := run [ MarkPlanComplete (mark "M1" "M1_1") t0;
                  MarkPlanComplete (mark "M1" "M1_2") t0;
                  MarkPlanComplete (mark "M1" "M1_3") t0 ] s2 in
  length (getActive "M1" s1) = 3 ∧ has_pending (getActive "M1" s1) = true ∧
  getQueueDepth "M1" s1 = 0 ∧
  getQueueDepth "M1" s2 = 1 ∧ getActive "M1" s2 = getActive "M1" s1 ∧
  getActive "M1" s3 = process_rows "M1" sheet2 ∧ getQueueDepth "M1" s3 = 0 ∧
  length (getHistory "M1" s3) = 1.
Proof. cbv zeta. repeat split; reflexivity. Qed.

(** C1: plan A, the active plan of M1 with its only row completed, is
    taken out of the active slot by the upload of plan B, and the history
    of M1 stays empty: plan A has not been archived. *)
Lemma upload_drops_completed_plan_unarchived :
  let st' := (upload_plan (Some "M1") (Some sheet_b) t0 st_a_done).1.1 in
  reachable st_a_done ∧
  MACHINE_PLANS st_a_done !! "M1" = Some plan_a_done ∧
  MACHINE_PLANS st' !! "M1" = Some plan_b ∧
  plan_b ≠ plan_a_done ∧
  getHistory "M1" st' = [].
Proof.
  cbv zeta. split; [apply reachable_run, reachable_run, reachable_initial|].
  repeat split; try reflexivity.
  intros Heq. apply (f_equal (λ p : plan, p !! 0%nat ≫= (.!! "status"))) in Heq.
  vm_compute in Heq. discriminate.
Qed.

(** C3: with plan B queued behind the one-row plan A, the first
    [mark_plan_complete] for line [M1_1] promotes plan B, and the second
    one completes line [M1_1] of plan B: twice is not once. *)
Lemma mark_twice_differs_from_once :
  let once := (handle_mark_plan_complete (mark "M1" "M1_1") t0 st_ab).1 in
  let twice := (handle_mark_plan_complete (mark "M1" "M1_1") t0 once).1 in
  reachable st_ab ∧
  getActive "M1" once = plan_b ∧
  getActive "M1" twice = plan_b_done ∧
  twice ≠ once.
Proof.
  cbv zeta. split; [apply reachable_run, reachable_run, reachable_initial|].
  repeat split; try reflexivity.
  intros Heq.
  apply (f_equal (λ s, getActive "M1" s !! 0%nat ≫= (.!! "status"))) in Heq.
  vm_compute in Heq. discriminate.
Qed.

(** C5: a dequeue request with an empty machine name, whose queue is
    empty, gets no ['dequeue_failed'] reply; nothing at all is emitted. *)
Lemma dequeue_without_name_is_silent :
  let res := handle_request_dequeue_plan (named "") "c1" t0 initial_state in
  getQueuedPlans "" initial_state = [] ∧
  res = (initial_state, []) ∧
  Emit "dequeue_failed" (P_failed "No queued plans" "") (Some "c1") ∉ res.2.
Proof. cbv zeta. repeat split; try reflexivity. apply not_elem_of_nil. Qed.

(** C6: nobody is connected, so no other connection maps to the empty
    machine name, and still the join is refused and nothing is inserted. *)
Lemma join_without_name_is_refused :
  let res := handle_join_machine_room (named "") "c1" initial_state in
  (¬ ∃ sid', sid' ≠ "c1" ∧ SID_TO_MACHINE initial_state !! sid' = Some "") ∧
  SID_TO_MACHINE res.1 !! "c1" = None ∧
  res.2 = [Emit "join_confirm" (P_confirm false None (Some "Missing machine name."))
                (Some "c1")].
Proof.
  cbv zeta. split; [|split; reflexivity].
  intros (sid' & _ & Hs). simpl in Hs. by rewrite lookup_empty in Hs.
Qed.

(** The scenario of the specification for presence: C1 joins M2, C2 is
    refused, C1 disconnects, C2 joins. *)
Example join_conflict_then_retry :
  let s1 := run [JoinMachineRoom (named "M2") "C1"] initial_state in
  let r2 := handle_join_machine_room (named "M2") "C2" s1 in
  let s3 := run [Disconnect "C1"] r2.1 in
  let s4 := run [JoinMachineRoom (named "M2") "C2"] s3 in
  isOnline "M2" s1 = true ∧
  r2 = (s1, [Emit "join_confirm"
                  (P_confirm false None (Some "Machine M2 is already connected."))
                  (Some "C2")]) ∧
  isOnline "M2" s3 = false ∧
  SID_TO_MACHINE s4 !! "C2" = Some "M2".
Proof. cbv zeta. repeat split; reflexivity. Qed.

(** *** The theorems at concrete requests *)

Lemma active_plan_leaves_by_promotion_or_upload_witness :
  let r := UploadPlan (Some "M1") (Some sheet_b) t0 in
  let st' := (handle r st_a_done).1 in
  MACHINE_PLANS st_a_done !! "M1" = Some plan_a_done ∧
  plan_a_done ≠ [] ∧
  (stays_active "M1" plan_a_done st_a_done st'
   ∨ promoted "M1" plan_a_done st_a_done st'
   ∨ replaced_by_upload r "M1" plan_a_done st_a_done st').
Proof.
  cbv zeta.
  assert (H1 : MACHINE_PLANS st_a_done !! "M1" = Some plan_a_done) by reflexivity.
  assert (H2 : plan_a_done ≠ []) by discriminate.
  split; [exact H1|]. split; [exact H2|].
  exact (active_plan_leaves_by_promotion_or_upload
           (UploadPlan (Some "M1") (Some sheet_b) t0) st_a_done "M1" plan_a_done H1 H2).
Defined.

Lemma upload_plan_queues_behind_pending_witness :
  "M1" ≠ "" ∧
  MACHINE_PLANS st_a !! "M1" = Some plan_a ∧
  has_pending plan_a = true ∧
  getActive "M1" (upload_plan (Some "M1") (Some sheet_b) t0 st_a).1.1 = plan_a ∧
  getQueueDepth "M1" (upload_plan (Some "M1") (Some sheet_b) t0 st_a).1.1
    = S (getQueueDepth "M1" st_a).
Proof.
  assert (H1 : "M1" ≠ "") by discriminate.
  assert (H2 : MACHINE_PLANS st_a !! "M1" = Some plan_a) by reflexivity.
  assert (H3 : has_pending plan_a = true) by reflexivity.
  destruct (upload_plan_queues_behind_pending "M1" sheet_b t0 st_a plan_a H1 H2 H3)
    as (_ & Ha & _ & Hd & _).
  repeat split; assumption.
Defined.

Lemma mark_last_row_promotes_witness :
  mark "M1" "M1_1" !! "machineName" = Some "M1" ∧
  mark "M1" "M1_1" !! "lineId" = Some "M1_1" ∧
  MACHINE_PLANS st_ab !! "M1" = Some plan_a ∧
  has_pending plan_a = true ∧
  has_pending (mark_row "M1_1" plan_a) = false ∧
  MACHINE_PLAN_QUEUES st_ab !! "M1" = Some [plan_b] ∧
  getActive "M1" (handle_mark_plan_complete (mark "M1" "M1_1") t0 st_ab).1 = plan_b ∧
  getHistory "M1" (handle_mark_plan_complete (mark "M1" "M1_1") t0 st_ab).1
    = (getHistory "M1" st_ab ++ [Archive (isoformat t0) (mark_row "M1_1" plan_a)])%list.
Proof.
  assert (H1 : mark "M1" "M1_1" !! "machineName" = Some "M1") by reflexivity.
  assert (H2 : mark "M1" "M1_1" !! "lineId" = Some "M1_1") by reflexivity.
  assert (H3 : "M1" ≠ "") by discriminate.
  assert (H4 : "M1_1" ≠ "") by discriminate.
  assert (H5 : MACHINE_PLANS st_ab !! "M1" = Some plan_a) by reflexivity.
  assert (H6 : has_pending plan_a = true) by reflexivity.
  assert (H7 : has_pending (mark_row "M1_1" plan_a) = false) by reflexivity.
  assert (H8 : MACHINE_PLAN_QUEUES st_ab !! "M1" = Some [plan_b]) by reflexivity.
  destruct (mark_last_row_promotes (mark "M1" "M1_1") t0 st_ab "M1" "M1_1" plan_a
              plan_b [] H1 H2 H3 H4 H5 H6 H7 H8) as (Ha & _ & Hh & _).
  repeat split; assumption.
Defined.

Lemma query_by_date_round_trip_witness :
  let e := Entry (delete "datetime" output_1) (DateTime 2024 1 15 10 30 0 0) in
  let st' := (handle_submit_output output_1 "c1" t0 initial_state).1 in
  output_1 !! "entry_date" = Some "2024-01-15" ∧
  output_1 !! "entry_time" = Some "10:30" ∧
  strptime ("2024-01-15" ++ " " ++ "10:30") "%Y-%m-%d %H:%M"
    = Some (DateTime 2024 1 15 10 30 0 0) ∧
  e ∈ get_data_for_date (Some "2024-01-15") st' ∧
  e ∉ get_data_for_date (Some "2024-01-16") st'.
Proof.
  cbv zeta.
  assert (H1 : output_1 !! "entry_date" = Some "2024-01-15") by reflexivity.
  assert (H2 : output_1 !! "entry_time" = Some "10:30") by reflexivity.
  assert (H3 : strptime ("2024-01-15" ++ " " ++ "10:30") "%Y-%m-%d %H:%M"
               = Some (DateTime 2024 1 15 10 30 0 0)) by reflexivity.
  destruct (query_by_date_round_trip output_1 "c1" t0 initial_state
              "2024-01-15" "10:30" (DateTime 2024 1 15 10 30 0 0) H1 H2 H3)
    as (_ & Hq).
  repeat split; try assumption.
  - apply (Hq "2024-01-15" (DateTime 2024 1 15 0 0 0 0)); [discriminate | | ]; reflexivity.
  - apply (Hq "2024-01-16" (DateTime 2024 1 16 0 0 0 0)); [discriminate | reflexivity |].
    discriminate.
Defined.


(** On a server that holds no downtime entry of that day, the downtime
    submission that ends before it starts is stored with minus an hour and
    a half and acknowledged. *)
Example downtime_end_before_start_on_empty_log :
  let res := handle_submit_downtime downtime_1 "c1" t0 initial_state in
  (∃ d, DOWNTIME_LOG res.1 = [d] ∧ (total_hours d == - (3 # 2))%Q) ∧
  last res.2 = Some (Emit "downtime_submission_success" (P_confirm true None None)
                          (Some "c1")).
Proof. cbv zeta. split; [eexists; split; reflexivity | reflexivity]. Qed.

(** C9. The state holds one downtime entry of 2024-01-15 whose timestamps
    were submitted without an offset, which the server acknowledged.  A
    second submission for that day, with an offset, ends an hour and a
    half before it starts.  The handler appends it with [total_hours] of
    minus an hour and a half; then the sort of [broadcast_data] meets a
    naive and an aware start time and raises, and [except Exception]
    replies with failure.  The entry is stored, and the sender is told
    the opposite of success. *)
Theorem downtime_end_before_start_stored_but_refused :
  let start_t := Stamp (DateTime 2024 1 15 10 30 0 0) (Some 0%Z) in
  let end_t := Stamp (DateTime 2024 1 15 9 0 0 0) (Some 0%Z) in
  let res := handle_submit_downtime downtime_utc "c2" t0 st_morning in
  reachable st_morning ∧
  (handle_submit_downtime downtime_morning "c1" t0 initial_state).2
    = [ Emit "update_dashboard" (P_dashboard [] (DOWNTIME_LOG st_morning)) None;
        Emit "downtime_submission_success" (P_confirm true None None) (Some "c1") ] ∧
  fromisoformat "2024-01-15T10:30:00+00:00" = Some start_t ∧
  fromisoformat "2024-01-15T09:00:00+00:00" = Some end_t ∧
  stamp_ltb end_t start_t = Some true ∧
  (∃ d, DOWNTIME_LOG res.1 = (DOWNTIME_LOG st_morning ++ [d])%list ∧
        start_time d = start_t ∧ end_time d = end_t ∧
        (total_hours d == - (3 # 2))%Q) ∧
  res.2 = [ Emit "downtime_submission_success"
                 (P_confirm false None (Some "Server error")) (Some "c2") ].
Proof.
  cbv zeta. split; [apply reachable_run, reachable_initial|].
  split; [reflexivity|]. split; [reflexivity|]. split; [reflexivity|].
  split; [reflexivity|]. split; [|reflexivity].
  eexists. split; [reflexivity|]. repeat split.
Qed.

(** The hours of that downtime entry: minus an hour and a half. *)
Example downtime_hours_value :
  (total_hours_of (dt_sub (DateTime 2024 1 15 9 0 0 0) (DateTime 2024 1 15 10 30 0 0))
   == - (3 # 2))%Q.
Proof. reflexivity. Qed.

End Scenarios.

(** * Further properties of the plan handlers *)

Section PlanQueues.
Context `{DatetimeLib}.

#[local] Arguments has_pending : simpl never.

Lemma run_cons (r : request) (rs : list request) (st : State) :
  run (r :: rs) st = run rs (handle r st).1.
Proof. reflexivity. Qed.

Lemma run_app (rs1 rs2 : list request) (st : State) :
  run (rs1 ++ rs2) st = run rs2 (run rs1 st).
Proof. unfold run. by rewrite foldl_app. Qed.

Lemma append_inj_r (s a b : string) : s ++ a = s ++ b → a = b.
Proof. induction s as [|c s IH]; simpl; [done|]. intros [= Heq]. by apply IH. Qed.

Lemma process_rows_lookup (m : string) (l : list row) (i : nat) :
  process_rows m l !! i =
    (λ item : row,
       <["status" := "pending"]>
         (<["line_id" := m ++ "_" ++ pretty (i + 1)%nat]> item)) <$> l !! i.
Proof. unfold process_rows. by rewrite list_lookup_imap. Qed.

Lemma process_rows_length (m : string) (l : list row) :
  length (process_rows m l) = length l.
Proof. unfold process_rows. by rewrite length_imap. Qed.

(** The state an accepted upload leaves, in its two branches. *)
Lemma upload_state (m : string) (df : list row) (now : datetime) (st : State) :
  m ≠ "" →
  (upload_plan (Some m) (Some df) now st).1.1 =
    if match MACHINE_PLANS st !! m with
       | Some (r :: rest) => has_pending (r :: rest)
       | _ => false
       end
    then with_queues (<[m := (getQueuedPlans m st
                              ++ [process_rows m (take 10 df)])%list]>
                        (MACHINE_PLAN_QUEUES st)) st
    else with_plans (<[m := process_rows m (take 10 df)]> (MACHINE_PLANS st)) st.
Proof.
  intros Hm. unfold upload_plan. rewrite truthy_Some by done. simpl.
  by destruct (match MACHINE_PLANS st !! m with
               | Some (r :: rest) => has_pending (r :: rest)
               | _ => false end).
Qed.

Lemma has_active_pending_Some (st : State) (m : string) (p : plan) :
  MACHINE_PLANS st !! m = Some p →
  match MACHINE_PLANS st !! m with
  | Some (r :: rest) => has_pending (r :: rest)
  | _ => false
  end = has_pending p.
Proof. intros ->. by destruct p. Qed.

(** X1. The plan an accepted upload stores, as the new active plan or
    at the back of the queue, has the first ten rows of the sheet at
    most; row number [i] (from 0) has status pending and line id
    [<machine>_<i+1>], whatever the sheet had in columns of these names,
    and all its other cells are those of the sheet; the line ids of the
    plan are pairwise distinct. *)
Theorem uploaded_plan_shape
    (m : string) (df : list row) (now : datetime) (st : State) :
  m ≠ "" →
  let pl := process_rows m (take 10 df) in
  let st' := (upload_plan (Some m) (Some df) now st).1.1 in
  (MACHINE_PLANS st' !! m = Some pl ∨ last (getQueuedPlans m st') = Some pl) ∧
  length pl = min 10 (length df) ∧
  (∀ i r, pl !! i = Some r →
     r !! "status" = Some "pending" ∧
     r !! "line_id" = Some (m ++ "_" ++ pretty (i + 1)%nat) ∧
     ∃ item : row, df !! i = Some item ∧
       ∀ k, k ≠ "status" → k ≠ "line_id" → r !! k = item !! k) ∧
  NoDup ((.!! "line_id") <$> pl).
Proof.
  intros Hm pl st'. split; [|split; [|split]].
  - subst st'. rewrite upload_state by done.
    destruct (match MACHINE_PLANS st !! m with
              | Some (r :: rest) => has_pending (r :: rest)
              | _ => false end).
    + right. unfold getQueuedPlans at 1. simpl. rewrite lookup_insert_eq. simpl.
      by rewrite last_snoc.
    + left. simpl. by rewrite lookup_insert_eq.
  - subst pl. by rewrite process_rows_length, length_take.
  - intros i r Hr. subst pl. rewrite process_rows_lookup in Hr.
    apply fmap_Some in Hr as (item & Hitem & ->).
    rewrite lookup_insert_eq, lookup_insert_ne, lookup_insert_eq by done.
    split; [done|]. split; [done|]. exists item. split.
    + apply lookup_take_Some in Hitem. by destruct Hitem.
    + intros k Hk1 Hk2. by rewrite !lookup_insert_ne.
  - apply NoDup_alt. intros i j x Hi Hj.
    rewrite list_lookup_fmap in Hi, Hj. subst pl.
    rewrite process_rows_lookup in Hi, Hj.
    destruct (take 10 df !! i) as [a|]; [|done].
    destruct (take 10 df !! j) as [b|]; [|done]. simpl in Hi, Hj.
    rewrite lookup_insert_ne, lookup_insert_eq in Hi, Hj by done.
    assert (Heq : m ++ "_" ++ pretty (i + 1)%nat = m ++ "_" ++ pretty (j + 1)%nat)
      by congruence.
    apply append_inj_r, (append_inj_r "_") in Heq.
    apply (inj pretty) in Heq. lia.
Qed.

(** X2. While the active plan of a machine has a pending row, any number
    of accepted uploads for that machine leave the active plan alone and
    line up in the queue in upload order, behind what was queued
    already. *)
Theorem uploads_queue_in_order
    (m : string) (dfs : list (list row)) (now : datetime) (st : State) (p : plan) :
  m ≠ "" →
  MACHINE_PLANS st !! m = Some p →
  has_pending p = true →
  let st' := run ((λ df, UploadPlan (Some m) (Some df) now) <$> dfs) st in
  MACHINE_PLANS st' !! m = Some p ∧
  getQueuedPlans m st' =
    (getQueuedPlans m st ++ ((λ df, process_rows m (take 10 df)) <$> dfs))%list.
Proof.
  intros Hm. revert st. induction dfs as [|df dfs IH]; intros st Hp Hpend.
  - cbv zeta. rewrite fmap_nil, app_nil_r. by split.
  - cbv zeta. rewrite !fmap_cons, run_cons.
    change (handle (UploadPlan (Some m) (Some df) now) st).1
      with (upload_plan (Some m) (Some df) now st).1.1.
    set (st1 := (upload_plan (Some m) (Some df) now st).1.1).
    assert (Hst1 : st1 = with_queues
                     (<[m := (getQueuedPlans m st
                              ++ [process_rows m (take 10 df)])%list]>
                        (MACHINE_PLAN_QUEUES st)) st).
    { subst st1. rewrite upload_state by done.
      by rewrite (has_active_pending_Some st m p), Hpend. }
    assert (Hp1 : MACHINE_PLANS st1 !! m = Some p) by (by rewrite Hst1).
    destruct (IH st1 Hp1 Hpend) as [Ha Hq]. split; [exact Ha|].
    rewrite Hq. unfold getQueuedPlans at 1. rewrite Hst1. simpl.
    rewrite lookup_insert_eq. simpl. by rewrite <- app_assoc.
Qed.

(** The state an accepted dequeue leaves when the queue is not empty. *)
Lemma dequeue_state (data : gmap string string) (sid : string) (t : datetime)
    (st : State) (m : string) (next : plan) (q : list plan) :
  data !! "machineName" = Some m → m ≠ "" →
  getQueuedPlans m st = next :: q →
  (handle_request_dequeue_plan data sid t st).1 =
    with_plans (<[m := next]> (MACHINE_PLANS st))
      match MACHINE_PLANS st !! m with
      | Some (r :: rest) =>
          with_history
            (<[m := (getHistory m st ++ [Archive (isoformat t) (r :: rest)])%list]>
               (MACHINE_PLAN_HISTORY st))
            (with_queues (<[m := q]> (MACHINE_PLAN_QUEUES st)) st)
      | _ => with_queues (<[m := q]> (MACHINE_PLAN_QUEUES st)) st
      end.
Proof.
  intros Hm Hmne Hq. unfold handle_request_dequeue_plan, getQueuedPlans in *.
  rewrite Hm, truthy_Some by done. simpl. rewrite Hq.
  by destruct (MACHINE_PLANS st !! m) as [[|r rest]|].
Qed.

(** X3. Repeated dequeue requests for a machine activate its queued
    plans strictly in queue order: after [k+1] of them the active plan is
    the queued plan number [k] (from 0) and the queue has lost exactly
    its first [k+1] plans. *)
Theorem dequeues_activate_in_order
    (data : gmap string string) (sid : string) (t : datetime) (st : State)
    (m : string) (k : nat) (next : plan) :
  data !! "machineName" = Some m →
  m ≠ "" →
  getQueuedPlans m st !! k = Some next →
  let st' := run (replicate (S k) (RequestDequeuePlan data sid t)) st in
  MACHINE_PLANS st' !! m = Some next ∧
  getQueuedPlans m st' = drop (S k) (getQueuedPlans m st).
Proof.
  intros Hm Hmne. revert st. induction k as [|k IH]; intros st Hk; cbv zeta.
  - destruct (getQueuedPlans m st) as [|x q] eqn:Hq; [done|].
    simpl in Hk. injection Hk as ->.
    change (run (replicate 1 (RequestDequeuePlan data sid t)) st)
      with (handle_request_dequeue_plan data sid t st).1.
    rewrite (dequeue_state _ _ _ _ m next q) by done.
    unfold getQueuedPlans.
    destruct (MACHINE_PLANS st !! m) as [[|r rest]|]; simpl;
      rewrite !lookup_insert_eq; by rewrite ?drop_0.
  - destruct (getQueuedPlans m st) as [|x q] eqn:Hq; [done|]. simpl in Hk.
    change (replicate (S (S k)) (RequestDequeuePlan data sid t))
      with (RequestDequeuePlan data sid t
            :: replicate (S k) (RequestDequeuePlan data sid t)).
    rewrite run_cons.
    change (handle (RequestDequeuePlan data sid t) st)
      with (handle_request_dequeue_plan data sid t st).
    set (st1 := (handle_request_dequeue_plan data sid t st).1).
    assert (Hq1 : getQueuedPlans m st1 = q).
    { subst st1. rewrite (dequeue_state _ _ _ _ m x q) by done.
      unfold getQueuedPlans.
      destruct (MACHINE_PLANS st !! m) as [[|r rest]|]; simpl;
        by rewrite lookup_insert_eq. }
    destruct (IH st1) as [Ha Hd]; [by rewrite Hq1|].
    split; [exact Ha|]. rewrite Hd, Hq1. done.
Qed.

(** Every handler only ever appends to the three logs and to the plan
    histories. *)
Lemma handle_append_only (r : request) (st : State) :
  SUBMISSION_LOG st `prefix_of` SUBMISSION_LOG (handle r st).1 ∧
  DOWNTIME_LOG st `prefix_of` DOWNTIME_LOG (handle r st).1 ∧
  SCRAP_LOG st `prefix_of` SCRAP_LOG (handle r st).1 ∧
  ∀ m, getHistory m st `prefix_of` getHistory m (handle r st).1.
Proof.
  assert (Hhist : ∀ m m' (a : archive),
            getHistory m st `prefix_of`
              default [] (<[m' := (getHistory m' st ++ [a])%list]>
                            (MACHINE_PLAN_HISTORY st) !! m)).
  { intros m m' a. rewrite lookup_insert. case_decide as Hmm.
    - subst. by apply prefix_app_r.
    - done. }
  destruct r as [tm ps now | data sid now | data sid now | data now | data sid | sid
                 | data t | data sid t]; simpl.
  - unfold upload_plan. repeat case_match; simpl; done.
  - unfold handle_submit_output. repeat case_match; simpl; repeat split;
      try done; by apply prefix_app_r.
  - unfold handle_submit_downtime. repeat case_match; simpl; repeat split;
      try done; by apply prefix_app_r.
  - unfold handle_scrap_submission. simpl. repeat split; try done;
      by apply prefix_app_r.
  - unfold handle_join_machine_room. repeat case_match; simpl; done.
  - unfold handle_disconnect. repeat case_match; simpl; done.
  - unfold handle_mark_plan_complete. repeat case_match; simpl; repeat split;
      try done. intros m0. unfold getHistory at 2. simpl. apply Hhist.
  - unfold handle_request_dequeue_plan.
    repeat case_match; simplify_eq; simpl; repeat split; try done.
    intros m0. unfold getHistory at 2. simpl. apply Hhist.
Qed.

(** X4. No sequence of requests ever removes or rewrites what has been
    recorded: the production, downtime and scrap logs and the plan
    history of every machine in the state before are prefixes of those in
    the state after. *)
Theorem records_are_append_only (rs : list request) (st : State) :
  let st' := run rs st in
  SUBMISSION_LOG st `prefix_of` SUBMISSION_LOG st' ∧
  DOWNTIME_LOG st `prefix_of` DOWNTIME_LOG st' ∧
  SCRAP_LOG st `prefix_of` SCRAP_LOG st' ∧
  ∀ m, getHistory m st `prefix_of` getHistory m st'.
Proof.
  cbv zeta. revert st. induction rs as [|r rs IH]; intros st.
  - done.
  - rewrite run_cons.
    destruct (handle_append_only r st) as (H1 & H2 & H3 & H4).
    destruct (IH (handle r st).1) as (I1 & I2 & I3 & I4).
    split; [by trans (SUBMISSION_LOG (handle r st).1)|].
    split; [by trans (DOWNTIME_LOG (handle r st).1)|].
    split; [by trans (SCRAP_LOG (handle r st).1)|].
    intros m. by trans (getHistory m (handle r st).1).
Qed.

(** The machine a plan request is about, when it names one. *)
Definition request_machine (r : request) : option string :=
  match r with
  | UploadPlan target_machine _ _ => target_machine
  | MarkPlanComplete data _ => data !! "machineName"
  | RequestDequeuePlan data _ _ => data !! "machineName"
  | _ => None
  end.

(** A request leaves alone the plan state of every machine it does not
    name. *)
Lemma handle_other_machine (r : request) (st : State) (m : string) :
  request_machine r ≠ Some m →
  MACHINE_PLANS (handle r st).1 !! m = MACHINE_PLANS st !! m ∧
  MACHINE_PLAN_QUEUES (handle r st).1 !! m = MACHINE_PLAN_QUEUES st !! m ∧
  MACHINE_PLAN_HISTORY (handle r st).1 !! m = MACHINE_PLAN_HISTORY st !! m.
Proof.
  intros Hr. pose proof (handle_plans_frame r st) as Hframe.
  destruct r as [tm ps now | | | | | | data t | data sid t];
    try (destruct Hframe as (-> & -> & ->); done); clear Hframe; simpl in *.
  - unfold upload_plan. destruct ps as [df|]; [|done].
    destruct (truthy tm) eqn:Htm; simpl; [|done].
    apply truthy_true_inv in Htm as (m' & -> & Hm'). simpl.
    assert (m' ≠ m) by congruence.
    destruct (match MACHINE_PLANS st !! m' with
              | Some (r0 :: rest) => has_pending (r0 :: rest)
              | _ => false end); simpl; by rewrite ?lookup_insert_ne.
  - destruct (truthy (data !! "lineId")) eqn:Hl;
      [|by rewrite mark_ignored by auto].
    destruct (truthy (data !! "machineName")) eqn:Hm;
      [|by rewrite mark_ignored by auto].
    apply truthy_true_inv in Hl as (lid & Hl & Hlne).
    apply truthy_true_inv in Hm as (m' & Hm & Hmne).
    assert (m' ≠ m) by congruence.
    destruct (MACHINE_PLANS st !! m') as [p0|] eqn:Hp0;
      [|by rewrite mark_ignored by eauto].
    rewrite (mark_state _ _ _ m' lid p0) by done.
    destruct (getQueuedPlans m' st) as [|next q];
      try destruct (has_pending (mark_row lid p0)); simpl;
      by rewrite ?lookup_insert_ne.
  - unfold handle_request_dequeue_plan.
    destruct (truthy (data !! "machineName")) eqn:Hm; simpl; [|done].
    apply truthy_true_inv in Hm as (m' & Hm & Hmne). rewrite Hm in *. simpl.
    assert (m' ≠ m) by congruence.
    destruct (default [] (MACHINE_PLAN_QUEUES st !! m')) as [|next q]; [done|].
    destruct (MACHINE_PLANS st !! m') as [[|r0 rest]|]; simpl;
      by rewrite ?lookup_insert_ne.
Qed.

(** X5. The plan state is kept per machine: a sequence of requests none
    of which names machine [m] leaves the active plan, the queue and the
    history of [m] exactly as they were, whatever it does to the other
    machines, the logs and the connections. *)
Theorem plan_state_is_per_machine (rs : list request) (st : State) (m : string) :
  Forall (λ r, request_machine r ≠ Some m) rs →
  let st' := run rs st in
  MACHINE_PLANS st' !! m = MACHINE_PLANS st !! m ∧
  getQueuedPlans m st' = getQueuedPlans m st ∧
  getHistory m st' = getHistory m st.
Proof.
  cbv zeta. unfold getQueuedPlans, getHistory. revert st.
  induction rs as [|r rs IH]; intros st Hrs; [done|].
  apply Forall_cons in Hrs as [Hr Hrs]. rewrite run_cons.
  destruct (handle_other_machine r st m Hr) as (H1 & H2 & H3).
  destruct (IH (handle r st).1 Hrs) as (I1 & I2 & I3).
  by rewrite I1, I2, I3, H1, H2, H3.
Qed.

(** X6. The queue of a machine is first in, first out.  Whatever the
    request, the queue after it is the queue before it, or the queue
    before it with the plan of an accepted upload for that machine added
    at the back, or the queue before it without its head, which is then
    the active plan of the machine. *)
Theorem queue_is_fifo (r : request) (st : State) (m : string) :
  let st' := (handle r st).1 in
  getQueuedPlans m st' = getQueuedPlans m st
  ∨ (∃ df now,
       r = UploadPlan (Some m) (Some df) now ∧
       getQueuedPlans m st' =
         (getQueuedPlans m st ++ [process_rows m (take 10 df)])%list)
  ∨ (∃ next,
       getQueuedPlans m st = next :: getQueuedPlans m st' ∧
       MACHINE_PLANS st' !! m = Some next).
Proof.
  cbv zeta.
  destruct (decide (request_machine r = Some m)) as [Hr|Hr];
    [|left; unfold getQueuedPlans;
      by destruct (handle_other_machine r st m Hr) as (_ & -> & _)].
  destruct r as [tm ps now | | | | | | data t | data sid t]; try done; simpl in Hr.
  - subst tm. simpl. unfold upload_plan. destruct ps as [df|]; [|by left].
    destruct (truthy (Some m)) eqn:Htm; simpl; [|by left].
    destruct (match MACHINE_PLANS st !! m with
              | Some (r0 :: rest) => has_pending (r0 :: rest)
              | _ => false end); simpl; [|by left].
    right; left. exists df, now. split; [done|].
    unfold getQueuedPlans. simpl. by rewrite lookup_insert_eq.
  - simpl.
    destruct (truthy (data !! "lineId")) eqn:Hl;
      [|left; by rewrite mark_ignored by auto].
    destruct (truthy (data !! "machineName")) eqn:Hm;
      [|left; by rewrite mark_ignored by auto].
    apply truthy_true_inv in Hl as (lid & Hl & Hlne).
    apply truthy_true_inv in Hm as (m' & Hm & Hmne).
    assert (m' = m) as -> by congruence.
    destruct (MACHINE_PLANS st !! m) as [p0|] eqn:Hp0;
      [|left; by rewrite mark_ignored by eauto].
    rewrite (mark_state _ _ _ m lid p0) by done.
    destruct (getQueuedPlans m st) as [|next q] eqn:Hq; [left; exact Hq|].
    destruct (has_pending (mark_row lid p0)); [left; exact Hq|].
    right; right. exists next. unfold getQueuedPlans in *. simpl.
    by rewrite !lookup_insert_eq.
  - simpl.
    destruct (decide (m = "")) as [->|Hmne].
    + left. unfold handle_request_dequeue_plan. by rewrite Hr.
    + destruct (getQueuedPlans m st) as [|next q] eqn:Hq.
      * left. unfold handle_request_dequeue_plan, getQueuedPlans in *.
        rewrite Hr, truthy_Some by done. simpl. by rewrite Hq.
      * right; right. exists next.
        rewrite (dequeue_state _ _ _ _ m next q) by done.
        unfold getQueuedPlans.
        destruct (MACHINE_PLANS st !! m) as [[|r0 rest]|]; simpl;
          by rewrite !lookup_insert_eq.
Qed.

(** The loop of [handle_mark_plan_complete] changes nothing when no row
    has the line id. *)
Lemma mark_row_no_match (lid : string) (p : plan) :
  (∀ r : row, r ∈ p → r !! "line_id" ≠ Some lid) → mark_row lid p = p.
Proof.
  induction p as [|item rest IH]; [done|]. intros Hno. simpl.
  rewrite bool_decide_eq_false_2 by (apply Hno; left).
  rewrite IH; [done|]. intros r Hr. apply Hno. by right.
Qed.

(** X7. [mark_plan_complete] completes the first row whose line id
    matches and touches nothing else: rows before and after it, and later
    rows with the same line id, are left as they are, and a plan without
    a matching row is left unchanged. *)
Theorem mark_row_completes_first_match
    (lid : string) (pre : plan) (r : row) (post : plan) :
  (∀ r0 : row, r0 ∈ pre → r0 !! "line_id" ≠ Some lid) →
  mark_row lid pre = pre ∧
  (r !! "line_id" = Some lid →
   mark_row lid (pre ++ r :: post)%list
     = (pre ++ <["status" := "completed"]> r :: post)%list).
Proof.
  intros Hpre. split; [by apply mark_row_no_match|]. intros Hr.
  induction pre as [|item rest IH]; simpl.
  - by rewrite bool_decide_eq_true_2.
  - rewrite bool_decide_eq_false_2 by (apply Hpre; left).
    rewrite IH; [done|]. intros r0 Hr0. apply Hpre. by right.
Qed.

(** Every row of the plan is pending. *)
Definition all_pending (p : plan) : Prop :=
  Forall (λ r : row, r !! "status" = Some "pending") p.

(** Queued plans are as uploaded, and a non-empty queue waits behind an
    active plan that is empty or still has a pending row. *)
Definition queues_wait_for_work (st : State) : Prop :=
  ∀ m, Forall all_pending (getQueuedPlans m st) ∧
       (getQueuedPlans m st ≠ [] →
        ∃ p, MACHINE_PLANS st !! m = Some p ∧ (p = [] ∨ has_pending p = true)).

Lemma process_rows_all_pending (m : string) (l : list row) :
  all_pending (process_rows m l).
Proof.
  apply Forall_lookup. intros i r Hr. rewrite process_rows_lookup in Hr.
  apply fmap_Some in Hr as (item & _ & ->). by rewrite lookup_insert_eq.
Qed.

Lemma all_pending_has_pending (p : plan) :
  all_pending p → p = [] ∨ has_pending p = true.
Proof.
  destruct p as [|r rest]; [by left|]. intros Hp. right.
  apply Forall_cons in Hp as [Hr _]. unfold has_pending. simpl.
  rewrite bool_decide_eq_true_2; [done|]. rewrite Hr. discriminate.
Qed.

Lemma queues_wait_for_work_step (r : request) (st : State) :
  queues_wait_for_work st → queues_wait_for_work (handle r st).1.
Proof.
  intros Hinv m. destruct (Hinv m) as [Hfresh Hwait].
  destruct (decide (request_machine r = Some m)) as [Hr|Hr].
  2: { destruct (handle_other_machine r st m Hr) as (H1 & H2 & _).
       unfold getQueuedPlans in *. by rewrite H1, H2. }
  destruct r as [tm ps now | | | | | | data t | data sid t]; try done; simpl in Hr.
  - subst tm. simpl. unfold upload_plan. destruct ps as [df|]; [|exact (Hinv m)].
    destruct (truthy (Some m)) eqn:Htm; simpl; [|exact (Hinv m)].
    destruct (match MACHINE_PLANS st !! m with
              | Some (r0 :: rest) => has_pending (r0 :: rest)
              | _ => false end) eqn:Hpend; simpl.
    + unfold getQueuedPlans in *. simpl. rewrite lookup_insert_eq. simpl. split.
      * apply Forall_app. split; [done|]. apply Forall_singleton.
        apply process_rows_all_pending.
      * intros _. destruct (MACHINE_PLANS st !! m) as [[|r0 rest]|]; try done.
        eauto.
    + unfold getQueuedPlans in *. simpl. rewrite lookup_insert_eq.
      split; [done|]. intros _. eexists. split; [done|].
      apply all_pending_has_pending, process_rows_all_pending.
  - simpl.
    destruct (truthy (data !! "lineId")) eqn:Hl;
      [|rewrite mark_ignored by auto; exact (Hinv m)].
    destruct (truthy (data !! "machineName")) eqn:Hm;
      [|rewrite mark_ignored by auto; exact (Hinv m)].
    apply truthy_true_inv in Hl as (lid & Hl & Hlne).
    apply truthy_true_inv in Hm as (m' & Hm & Hmne).
    assert (m' = m) as -> by congruence.
    destruct (MACHINE_PLANS st !! m) as [p0|] eqn:Hp0;
      [|rewrite mark_ignored by eauto; exact (Hinv m)].
    rewrite (mark_state _ _ _ m lid p0) by done.
    destruct (getQueuedPlans m st) as [|next q] eqn:Hq.
    + unfold getQueuedPlans in *. simpl. by rewrite Hq.
    + destruct (has_pending (mark_row lid p0)) eqn:Hpend.
      * unfold getQueuedPlans in *. simpl. rewrite Hq, lookup_insert_eq.
        split; [done|]. eauto.
      * apply Forall_cons in Hfresh as [Hnext Hq'].
        unfold getQueuedPlans. simpl. rewrite !lookup_insert_eq. simpl.
        split; [done|]. intros _. eexists. split; [done|].
        by apply all_pending_has_pending.
  - simpl.
    destruct (decide (m = "")) as [->|Hmne].
    + unfold handle_request_dequeue_plan. rewrite Hr. exact (Hinv "").
    + destruct (getQueuedPlans m st) as [|next q] eqn:Hq.
      * unfold handle_request_dequeue_plan, getQueuedPlans in *.
        rewrite Hr, truthy_Some by done. simpl. rewrite Hq.
        exact (Hinv m).
      * rewrite (dequeue_state _ _ _ _ m next q) by done.
        apply Forall_cons in Hfresh as [Hnext Hq'].
        assert (Hgoal :
          ∀ s, MACHINE_PLAN_QUEUES s !! m = Some q →
               Forall all_pending (getQueuedPlans m
                 (with_plans (<[m := next]> (MACHINE_PLANS st)) s)) ∧
               (getQueuedPlans m (with_plans (<[m := next]> (MACHINE_PLANS st)) s)
                  ≠ [] →
                ∃ p, MACHINE_PLANS (with_plans (<[m := next]> (MACHINE_PLANS st)) s)
                       !! m = Some p ∧ (p = [] ∨ has_pending p = true))).
        { intros s Hs. unfold getQueuedPlans. simpl. rewrite Hs, lookup_insert_eq.
          simpl. split; [done|]. intros _. eexists. split; [done|].
          by apply all_pending_has_pending. }
        destruct (MACHINE_PLANS st !! m) as [[|r0 rest]|]; apply Hgoal; simpl;
          by rewrite lookup_insert_eq.
Qed.

Lemma reachable_queues_wait_for_work (st : State) :
  reachable st → queues_wait_for_work st.
Proof.
  induction 1 as [|r st Hr IH].
  - intros m. unfold getQueuedPlans. simpl. rewrite lookup_empty. simpl.
    split; [constructor | done].
  - by apply queues_wait_for_work_step.
Qed.

(** X8. In every state the server can reach, the plans in a queue are as
    they were uploaded, every row pending, and a non-empty queue waits
    behind an active plan that still has a pending row or has no rows at
    all: a queued plan is never left waiting behind a plan whose rows are
    all completed. *)
Theorem queue_never_waits_behind_completed_plan (st : State) (m : string) :
  reachable st →
  Forall all_pending (getQueuedPlans m st) ∧
  (getQueuedPlans m st ≠ [] →
   ∃ p, MACHINE_PLANS st !! m = Some p ∧ (p = [] ∨ has_pending p = true)).
Proof. intros Hst. by apply reachable_queues_wait_for_work. Qed.

(** X9. In a reachable state, for a machine whose active plan has at
    least one row, a [mark_plan_complete] request that changes no row
    (the line id matches no row, or the matching row is completed
    already) leaves the whole state as it is: it cannot trigger a
    promotion. *)
Theorem stale_mark_changes_nothing
    (data : gmap string string) (t : datetime) (st : State)
    (m lid : string) (p : plan) :
  reachable st →
  data !! "machineName" = Some m →
  data !! "lineId" = Some lid →
  MACHINE_PLANS st !! m = Some p →
  p ≠ [] →
  mark_row lid p = p →
  (handle_mark_plan_complete data t st).1 = st.
Proof.
  intros Hst Hm Hl Hp Hne Hid.
  destruct (decide (m = "")) as [->|Hmne];
    [by rewrite mark_ignored by (rewrite Hm; auto)|].
  destruct (decide (lid = "")) as [->|Hlne];
    [by rewrite mark_ignored by (rewrite Hl; auto)|].
  rewrite (mark_state _ _ _ m lid p) by done. rewrite Hid.
  destruct (reachable_queues_wait_for_work st Hst m) as [_ Hwait].
  destruct (getQueuedPlans m st) as [|next q] eqn:Hq; [by apply with_plans_id|].
  destruct Hwait as (p' & Hp' & Hcase); [done|].
  assert (p' = p) as -> by congruence.
  destruct Hcase as [-> | ->]; [done|]. by apply with_plans_id.
Qed.

End PlanQueues.

(** * Marking a row twice *)

Section MarkTwice.
Context `{DatetimeLib}.

#[local] Arguments has_pending : simpl never.

(** In a plan as it was uploaded, marking a line id changes a row
    exactly when some row carries that line id. *)
Lemma mark_row_pending_fixed (lid : string) (p : plan) :
  all_pending p →
  mark_row lid p = p ↔ ∀ r : row, r ∈ p → r !! "line_id" ≠ Some lid.
Proof.
  intros Hp. split; [|apply mark_row_no_match].
  induction Hp as [|item rest Hitem Hrest IH]; [by intros _ r ?%elem_of_nil|].
  simpl. case_bool_decide as Hid.
  - intros [= Heq]. apply (f_equal (.!! "status")) in Heq.
    rewrite lookup_insert_eq, Hitem in Heq. discriminate.
  - intros [= Heq] r [-> | Hr]%elem_of_cons; [done | by apply IH].
Qed.

Lemma all_pending_has_pending_iff (p : plan) :
  all_pending p → has_pending p = true ↔ p ≠ [].
Proof.
  intros Hp. split; [by intros Hpend -> |].
  intros Hne. by destruct (all_pending_has_pending p Hp).
Qed.

(** C3, as the code has it.  Let [st1] be the state after one
    [mark_plan_complete] and [st2] the state after a second one with the
    same request.  [st2 = st1] holds exactly when the first call promoted
    nothing, or the plan it promoted gives the second call nothing to do:
    marking the line id changes no row of it, and it has a pending row or
    nothing is queued behind it.  In a state the server can reach the
    promoted plan is as uploaded, so after a promotion [st2 = st1] holds
    exactly when the promoted plan has no row with that line id and is
    not an empty plan with another plan queued behind it.  The first call
    promotes exactly when the request names a machine and a line id, the
    machine has a plan, no row of it is pending after the marking, and a
    plan is queued.  A request with a missing or empty field, or for a
    machine without a plan, changes nothing; a request whose row is
    already completed, or whose line id matches no row, changes nothing
    unless it promotes, which in a reachable state it can do only when
    the active plan has no rows. *)
Theorem mark_plan_complete_twice
    (data : gmap string string) (t1 t2 : datetime) (st : State) :
  let st1 := (handle_mark_plan_complete data t1 st).1 in
  let st2 := (handle_mark_plan_complete data t2 st1).1 in
  let m := default "" (data !! "machineName") in
  let lid := default "" (data !! "lineId") in
  (st2 = st1 ↔
     MACHINE_PLAN_QUEUES st1 = MACHINE_PLAN_QUEUES st
     ∨ (mark_row lid (getActive m st1) = getActive m st1 ∧
        (has_pending (getActive m st1) = true ∨ getQueuedPlans m st1 = []))) ∧
  (reachable st → MACHINE_PLAN_QUEUES st1 ≠ MACHINE_PLAN_QUEUES st →
     (st2 = st1 ↔
        (∀ r : row, r ∈ getActive m st1 → r !! "line_id" ≠ Some lid) ∧
        (getActive m st1 ≠ [] ∨ getQueuedPlans m st1 = []))) ∧
  (MACHINE_PLAN_QUEUES st1 ≠ MACHINE_PLAN_QUEUES st ↔
     ∃ p next q,
       data !! "machineName" = Some m ∧ data !! "lineId" = Some lid ∧
       m ≠ "" ∧ lid ≠ "" ∧
       MACHINE_PLANS st !! m = Some p ∧
       has_pending (mark_row lid p) = false ∧
       getQueuedPlans m st = next :: q ∧
       getActive m st1 = next ∧ getQueuedPlans m st1 = q) ∧
  (truthy (data !! "lineId") = false ∨ truthy (data !! "machineName") = false →
     st1 = st) ∧
  (MACHINE_PLANS st !! m = None → st1 = st) ∧
  (∀ p, MACHINE_PLANS st !! m = Some p → mark_row lid p = p →
     (has_pending p = true ∨ getQueuedPlans m st = [] → st1 = st) ∧
     (reachable st → p ≠ [] → st1 = st)).
Proof.
  cbv zeta.
  assert (Hpromo :
    MACHINE_PLAN_QUEUES (handle_mark_plan_complete data t1 st).1 ≠ MACHINE_PLAN_QUEUES st →
    ∃ p next q,
      data !! "machineName" = Some (default "" (data !! "machineName")) ∧
      data !! "lineId" = Some (default "" (data !! "lineId")) ∧
      default "" (data !! "machineName") ≠ "" ∧ default "" (data !! "lineId") ≠ "" ∧
      MACHINE_PLANS st !! default "" (data !! "machineName") = Some p ∧
      has_pending (mark_row (default "" (data !! "lineId")) p) = false ∧
      getQueuedPlans (default "" (data !! "machineName")) st = next :: q ∧
      MACHINE_PLANS (handle_mark_plan_complete data t1 st).1
        !! default "" (data !! "machineName") = Some next ∧
      getQueuedPlans (default "" (data !! "machineName"))
        (handle_mark_plan_complete data t1 st).1 = q).
  { intros Hne. apply mark_promotes in Hne
      as (p & next & q & Hm & Hl & Hmne & Hlne & Hp & Hpend & Hq).
    exists p, next, q. repeat (split; [done|]).
    rewrite (mark_state _ _ _ _ _ p Hm Hl Hmne Hlne Hp), Hq, Hpend.
    unfold getQueuedPlans. simpl. by rewrite !lookup_insert_eq. }
  assert (Hign : ∀ t, truthy (data !! "lineId") = false
                 ∨ truthy (data !! "machineName") = false
                 ∨ (∃ m, data !! "machineName" = Some m ∧ MACHINE_PLANS st !! m = None) →
                 (handle_mark_plan_complete data t st).1 = st)
    by (intros t Hc; by rewrite mark_ignored).
  split; [|split; [|split; [|split; [|split]]]].
  - split.
    + intros Heq.
      destruct (decide (MACHINE_PLAN_QUEUES (handle_mark_plan_complete data t1 st).1
                        = MACHINE_PLAN_QUEUES st)) as [Hqs|Hqs]; [by left|right].
      destruct (Hpromo Hqs) as (p & next & q & Hm & Hl & Hmne & Hlne & _ & _ & _ & Hn & _).
      apply (mark_fixed _ _ _ _ _ next Hm Hl Hmne Hlne Hn) in Heq.
      unfold getActive. by rewrite Hn.
    + intros [Hqs | [Hid Hcase]]; [by apply mark_twice_without_promotion|].
      by apply mark_nothing_to_do.
  - intros Hst Hqs.
    destruct (Hpromo Hqs)
      as (p & next & q & Hm & Hl & Hmne & Hlne & _ & _ & Hq & Hn & Hq1).
    assert (Hnext : all_pending next).
    { destruct (reachable_queues_wait_for_work st Hst
                  (default "" (data !! "machineName"))) as [Hall _].
      rewrite Hq in Hall. by apply Forall_cons in Hall as [? _]. }
    rewrite (mark_fixed _ _ _ _ _ next Hm Hl Hmne Hlne Hn).
    unfold getActive. rewrite Hn. simpl.
    by rewrite mark_row_pending_fixed, all_pending_has_pending_iff.
  - split.
    + intros Hqs. destruct (Hpromo Hqs)
        as (p & next & q & Hm & Hl & Hmne & Hlne & Hp & Hpend & Hq & Hn & Hq1).
      exists p, next, q. unfold getActive. rewrite Hn. done.
    + intros (p & next & q & Hm & Hl & Hmne & Hlne & Hp & Hpend & Hq & _).
      apply mark_promotes. exists p, next, q. done.
  - intros [Hl | Hm]; apply Hign; auto.
  - intros Hp.
    destruct (truthy (data !! "machineName")) eqn:Hm; [|apply Hign; auto].
    apply truthy_true_inv in Hm as (m & Hm & Hmne). rewrite Hm in Hp. simpl in Hp.
    apply Hign; eauto.
  - intros p Hp Hid.
    assert (Hnoop : has_pending p = true
                    ∨ getQueuedPlans (default "" (data !! "machineName")) st = [] →
                    (handle_mark_plan_complete data t1 st).1 = st).
    { intros Hcase. apply mark_nothing_to_do; unfold getActive; by rewrite Hp. }
    split; [done|]. intros Hst Hne. apply Hnoop.
    destruct (reachable_queues_wait_for_work st Hst
                (default "" (data !! "machineName"))) as [_ Hwait].
    destruct (getQueuedPlans (default "" (data !! "machineName")) st) as [|next q];
      [by right|].
    destruct Hwait as (p' & Hp' & Hcase); [done|].
    assert (p' = p) as -> by congruence.
    destruct Hcase as [-> | ->]; [done | by left].
Qed.

End MarkTwice.

(** * Live messages and online status *)

(** What [handle_send_live_message] sends: the text to the room of the
    target machine, or a confirmation to the sender. *)
Inductive live_payload :=
  | P_live_message (message : string)
  | P_sent_confirm (success : bool) (machineName : option string) (why : option string).

Record live_emit := LiveEmit {
  live_event : string;
  live_body : live_payload;
  live_room : option string
}.

Section Online.
Context `{DatetimeLib}.

(** [handle_send_live_message] reads the state and changes nothing. *)
Definition handle_send_live_message (data : gmap string string) (sid : string)
    (st : State) : list live_emit :=
  let target_machine := data !! "targetMachine" in
  let message_text := data !! "messageText" in
  if negb (truthy target_machine) || negb (truthy message_text) then
    [LiveEmit "message_sent_confirm"
       (P_sent_confirm false target_machine
          (Some "Missing target machine or message text."))
       (Some sid)]
  else
    let target := default "" target_machine in
    let is_online := isOnline target st in
    if is_online then
      [ LiveEmit "live_message" (P_live_message (default "" message_text)) (Some target);
        LiveEmit "message_sent_confirm" (P_sent_confirm true (Some target) None)
                 (Some sid) ]
    else
      [ LiveEmit "message_sent_confirm"
          (P_sent_confirm false (Some target)
             (Some "Machine is currently offline or not connected."))
          (Some sid) ].

Lemma isOnline_spec (m : string) (st : State) :
  isOnline m st = true ↔ ∃ sid, SID_TO_MACHINE st !! sid = Some m.
Proof.
  unfold isOnline. rewrite bool_decide_eq_true. apply elem_of_map_img.
Qed.

Lemma isOnline_false (m : string) (st : State) :
  isOnline m st = false ↔ ∀ sid, SID_TO_MACHINE st !! sid ≠ Some m.
Proof.
  rewrite <- not_true_iff_false, isOnline_spec. split.
  - intros Hn sid Hs. apply Hn. eauto.
  - intros Hn (sid & Hs). by apply (Hn sid).
Qed.


(** X10. A live message is delivered, to the room of the target machine
    and with a positive confirmation to the sender, exactly when the
    request has a non-empty target and a non-empty text and some
    connection currently maps to the target; in every other case nothing
    is delivered and the sender alone gets one negative confirmation. *)
Theorem live_message_needs_online_target
    (data : gmap string string) (sid : string) (st : State) :
  let out := handle_send_live_message data sid st in
  (∀ target text,
     data !! "targetMachine" = Some target → target ≠ "" →
     data !! "messageText" = Some text → text ≠ "" →
     (∃ sid', SID_TO_MACHINE st !! sid' = Some target) →
     out = [ LiveEmit "live_message" (P_live_message text) (Some target);
             LiveEmit "message_sent_confirm" (P_sent_confirm true (Some target) None)
                      (Some sid) ]) ∧
  ((∃ e, e ∈ out ∧ live_event e = "live_message") →
   ∃ target text sid',
     data !! "targetMachine" = Some target ∧ target ≠ "" ∧
     data !! "messageText" = Some text ∧ text ≠ "" ∧
     SID_TO_MACHINE st !! sid' = Some target) ∧
  ((¬ ∃ e, e ∈ out ∧ live_event e = "live_message") →
   ∃ why, out = [ LiveEmit "message_sent_confirm"
                    (P_sent_confirm false (data !! "targetMachine") (Some why))
                    (Some sid) ]).
Proof.
  cbv zeta. unfold handle_send_live_message. split; [|split].
  - intros target text Ht Htne Hx Hxne Hon.
    rewrite Ht, Hx, !truthy_Some by done. simpl.
    apply isOnline_spec in Hon. by rewrite Hon.
  - intros (e & He & Hev).
    destruct (truthy (data !! "targetMachine")) eqn:Ht; simpl in He.
    2: { apply list_elem_of_singleton in He. subst e. discriminate Hev. }
    destruct (truthy (data !! "messageText")) eqn:Hx; simpl in He.
    2: { apply list_elem_of_singleton in He. subst e. discriminate Hev. }
    apply truthy_true_inv in Ht as (target & Ht & Htne).
    apply truthy_true_inv in Hx as (text & Hx & Hxne).
    rewrite Ht in He. simpl in He.
    destruct (isOnline target st) eqn:Hon.
    + apply isOnline_spec in Hon as (sid' & Hs). by exists target, text, sid'.
    + apply list_elem_of_singleton in He. subst e. discriminate Hev.
  - destruct (truthy (data !! "targetMachine")) eqn:Ht; simpl; [|eauto].
    destruct (truthy (data !! "messageText")) eqn:Hx; simpl; [|eauto].
    apply truthy_true_inv in Ht as (target & -> & Htne). simpl.
    destruct (isOnline target st) eqn:Hon; [|eauto].
    intros Hno. exfalso. apply Hno. eexists. split; [by left | done].
Qed.

(** X11. In a reachable state a disconnect takes the machine of the
    connection offline and changes the online status of no other
    machine. *)
Theorem disconnect_takes_machine_offline (sid m : string) (st : State) :
  reachable st →
  SID_TO_MACHINE st !! sid = Some m →
  let st' := (handle_disconnect sid st).1 in
  isOnline m st' = false ∧
  ∀ m', m' ≠ m → isOnline m' st' = isOnline m' st.
Proof.
  intros Hst Hs. cbv zeta. unfold handle_disconnect. rewrite Hs. simpl.
  pose proof (reachable_presence_injective st Hst) as Hinj. split.
  - apply isOnline_false. intros sid'. simpl. rewrite lookup_delete.
    case_decide as Hss; [done|]. intros Hs'. apply Hss.
    exact (Hinj _ _ _ Hs Hs').
  - intros m' Hm'. apply eq_true_iff_eq. rewrite !isOnline_spec. simpl. split.
    + intros (sid' & Hs'). rewrite lookup_delete in Hs'. case_decide; [done|]. eauto.
    + intros (sid' & Hs'). exists sid'. rewrite lookup_delete.
      case_decide; [|done]. subst. congruence.
Qed.

(** X12. In a reachable state a connection that joins a machine no other
    connection holds is registered for that machine, which is then
    online, and the machine it held before, when that is another one,
    goes offline: a connection holds one machine at a time. *)
Theorem join_moves_connection
    (data : gmap string string) (sid m : string) (st : State) :
  reachable st →
  data !! "machineName" = Some m →
  m ≠ "" →
  (∀ sid', SID_TO_MACHINE st !! sid' = Some m → sid' = sid) →
  let st' := (handle_join_machine_room data sid st).1 in
  SID_TO_MACHINE st' !! sid = Some m ∧
  isOnline m st' = true ∧
  ∀ m_old, SID_TO_MACHINE st !! sid = Some m_old → m_old ≠ m →
           isOnline m_old st' = false.
Proof.
  intros Hst Hm Hmne Hfree. cbv zeta. unfold handle_join_machine_room.
  rewrite Hm, truthy_Some by done. simpl.
  destruct (already_connected m sid st) eqn:Hc.
  { apply already_connected_spec in Hc as (sid' & Hne & Hs').
    by apply Hfree in Hs'. }
  simpl. split; [by rewrite lookup_insert_eq|]. split.
  - apply isOnline_spec. exists sid. simpl. by rewrite lookup_insert_eq.
  - intros m_old Hold Hne. apply isOnline_false. intros sid'. simpl.
    rewrite lookup_insert. case_decide; [congruence|].
    intros Hs'. pose proof (reachable_presence_injective st Hst _ _ _ Hold Hs').
    congruence.
Qed.


End Online.

(** * Further properties of the logs *)

(** In descending order of start time: no entry comes before one that
    starts later. *)
Definition sorted_downtime_desc (l : list downtime_entry) : Prop :=
  StronglySorted (λ a b, starts_before a b = false) l.

(** The list holds a naive and an aware start time. *)
Definition mixes_kinds (l : list downtime_entry) : Prop :=
  ∃ a b, a ∈ l ∧ b ∈ l ∧
         is_aware (start_time a) = false ∧ is_aware (start_time b) = true.

Section DowntimeLog.
Context `{DatetimeLib}.

Lemma forallb_false {A} (f : A → bool) (l : list A) :
  forallb f l = false ↔ ∃ x, x ∈ l ∧ f x = false.
Proof.
  induction l as [|y l IH]; simpl.
  - split; [done|]. by intros (x & ?%elem_of_nil & _).
  - rewrite andb_false_iff, IH. split.
    + intros [Hy | (x & Hx & Hfx)]; [exists y | exists x]; (split; [|done]);
        [left | by right].
    + intros (x & [-> | Hx]%elem_of_cons & Hfx); [by left | right; eauto].
Qed.

Lemma same_kind_false (l : list downtime_entry) :
  same_kind l = false ↔ mixes_kinds l.
Proof.
  unfold same_kind, mixes_kinds. rewrite orb_false_iff, !forallb_false. split.
  - intros [(b & Hb & Hkb) (a & Ha & Hka)]. exists a, b.
    apply negb_false_iff in Hkb. done.
  - intros (a & b & Ha & Hb & Hka & Hkb). split; [exists b | exists a]; (split; [done|]);
      [by rewrite Hkb | done].
Qed.

Lemma insert_downtime_desc_perm x l : insert_downtime_desc x l ≡ₚ x :: l.
Proof.
  induction l as [|y ys IH]; simpl; [done|].
  destruct (starts_before x y); [|done].
  rewrite IH. apply Permutation_swap.
Qed.

Lemma sort_downtime_perm l : foldr insert_downtime_desc [] l ≡ₚ l.
Proof.
  induction l as [|x l IH]; simpl; [done|].
  by rewrite insert_downtime_desc_perm, IH.
Qed.

(** The insertion sort sorts any list on whose entries [<] is an order. *)
Section Ordered.
Variable P : downtime_entry → Prop.
Hypothesis before_asym :
  ∀ a b, P a → P b → starts_before a b = true → starts_before b a = false.
Hypothesis not_before_trans :
  ∀ a b c, P a → P b → P c →
    starts_before a b = false → starts_before b c = false → starts_before a c = false.

Lemma insert_downtime_desc_sorted x l :
  P x → Forall P l →
  sorted_downtime_desc l → sorted_downtime_desc (insert_downtime_desc x l).
Proof.
  unfold sorted_downtime_desc. intros Hx Hl Hs.
  induction Hs as [|y ys Hs IH Hy]; simpl; [repeat constructor|].
  apply Forall_cons in Hl as [HPy HPys].
  destruct (starts_before x y) eqn:Hxy.
  - constructor; [by apply IH|]. rewrite insert_downtime_desc_perm.
    constructor; [by apply before_asym | done].
  - constructor; [by constructor|]. constructor; [done|].
    rewrite Forall_forall in HPys, Hy. apply Forall_forall. intros z Hz.
    apply (not_before_trans x y z); auto.
Qed.

Lemma sort_downtime_sorted l :
  Forall P l → sorted_downtime_desc (foldr insert_downtime_desc [] l).
Proof.
  induction 1 as [|x l Hx Hl IH]; simpl; [constructor|].
  apply insert_downtime_desc_sorted; [done | by rewrite sort_downtime_perm | done].
Qed.

End Ordered.

Lemma sort_downtime_naive l :
  Forall (λ e, is_aware (start_time e) = false) l →
  sorted_downtime_desc (foldr insert_downtime_desc [] l).
Proof.
  apply sort_downtime_sorted; unfold starts_before, stamp_ltb, is_aware.
  - intros a b Ha Hb.
    destruct (utcoffset (start_time a)), (utcoffset (start_time b)); try done.
    simpl. apply tuple_ltb_asym.
  - intros a b c Ha Hb Hc.
    destruct (utcoffset (start_time a)), (utcoffset (start_time b)),
      (utcoffset (start_time c)); try done.
    simpl. apply tuple_geb_trans.
Qed.

Lemma sort_downtime_aware l :
  Forall (λ e, is_aware (start_time e) = true) l →
  sorted_downtime_desc (foldr insert_downtime_desc [] l).
Proof.
  apply sort_downtime_sorted; unfold starts_before, stamp_ltb, is_aware.
  - intros a b Ha Hb.
    destruct (utcoffset (start_time a)), (utcoffset (start_time b)); try done.
    simpl. rewrite Z.ltb_lt, Z.ltb_ge. unfold dt_sub. cbv zeta. lia.
  - intros a b c Ha Hb Hc.
    destruct (utcoffset (start_time a)), (utcoffset (start_time b)),
      (utcoffset (start_time c)); try done.
    simpl. rewrite !Z.ltb_ge. unfold dt_sub. cbv zeta. lia.
Qed.

(** The sort raises exactly on the lists that mix the two kinds, and
    otherwise returns the entries in descending order of start time. *)
Lemma sort_downtime_desc_spec (l : list downtime_entry) :
  (sort_downtime_desc l = None ↔ mixes_kinds l) ∧
  (∀ l', sort_downtime_desc l = Some l' → l' ≡ₚ l ∧ sorted_downtime_desc l').
Proof.
  unfold sort_downtime_desc. destruct (same_kind l) eqn:Hk.
  - split.
    + split; [done|]. intros Hmix%same_kind_false. congruence.
    + intros l' [= <-]. split; [apply sort_downtime_perm|].
      unfold same_kind in Hk. apply orb_prop in Hk as [Hk | Hk].
      * apply sort_downtime_naive, Forall_forall. intros e He.
        rewrite forallb_forall in Hk. apply negb_true_iff, Hk. by apply list_elem_of_In.
      * apply sort_downtime_aware, Forall_forall. intros e He.
        rewrite forallb_forall in Hk. apply Hk. by apply list_elem_of_In.
  - split; [|done]. split; [intros _; by apply same_kind_false | done].
Qed.

(** A query of the downtime log for a date string that parses. *)
Lemma get_downtime_for_date_parsed (q : string) (dq : datetime) (st : State) :
  q ≠ "" → strptime q "%Y-%m-%d" = Some dq →
  get_downtime_for_date (Some q) st
    = sort_downtime_desc
        (filter (λ e, date (wall (start_time e)) = date dq) (DOWNTIME_LOG st)).
Proof.
  intros Hq Hp. unfold get_downtime_for_date. rewrite truthy_Some by done.
  simpl. by rewrite Hp.
Qed.

(** [broadcast_data] raises exactly when its date string parses and the
    downtime entries of that date mix the two kinds. *)
Lemma broadcast_data_raises (q : string) (now : datetime) (st : State) :
  q ≠ "" →
  broadcast_data (Some q) now st = None ↔
  ∃ dq, strptime q "%Y-%m-%d" = Some dq ∧
        mixes_kinds (filter (λ e, date (wall (start_time e)) = date dq) (DOWNTIME_LOG st)).
Proof.
  intros Hq. unfold broadcast_data. rewrite truthy_Some by done. simpl.
  destruct (strptime q "%Y-%m-%d") as [dq|] eqn:Hp.
  - rewrite (get_downtime_for_date_parsed q dq) by done.
    destruct (sort_downtime_desc_spec
                (filter (λ e, date (wall (start_time e)) = date dq) (DOWNTIME_LOG st)))
      as [Hnone _].
    destruct (sort_downtime_desc _) as [l|].
    + split; [done|]. intros (dq' & [= <-] & Hmix). by apply Hnone in Hmix.
    + split; [|done]. intros _. exists dq. split; [done|]. by apply Hnone.
  - unfold get_downtime_for_date. rewrite truthy_Some by done. simpl. rewrite Hp.
    split; [done|]. by intros (dq & ? & _).
Qed.

(** The subtraction of two timestamps raises exactly when one is naive
    and the other aware. *)
Lemma stamp_sub_same_kind (a b : stamp) :
  is_aware a = is_aware b → ∃ td, stamp_sub a b = Some td.
Proof.
  unfold is_aware, stamp_sub. destruct (utcoffset a), (utcoffset b); try done; eauto.
Qed.

Lemma stamp_sub_other_kind (a b : stamp) :
  is_aware a ≠ is_aware b → stamp_sub a b = None.
Proof. unfold is_aware, stamp_sub. by destruct (utcoffset a), (utcoffset b). Qed.

(** X14. After [handle_submit_downtime] has stored an entry, a query of
    the downtime log for a date string that parses either raises
    [TypeError], exactly when the stored entries of that calendar date,
    the new one included, mix naive and aware start times, or returns
    exactly the entries of that date in descending order of start time.
    A list returned for the date of the start time of the new entry
    contains the entry; one returned for any other date does not. *)
Theorem downtime_query_round_trip
    (data : gmap string string) (sid : string) (now : datetime) (st : State)
    (start_str end_str : string) (start_t end_t : stamp) :
  data !! "start_time" = Some start_str →
  data !! "end_time" = Some end_str →
  fromisoformat start_str = Some start_t →
  fromisoformat end_str = Some end_t →
  is_aware start_t = is_aware end_t →
  let st' := (handle_submit_downtime data sid now st).1 in
  ∃ d, DOWNTIME_LOG st' = (DOWNTIME_LOG st ++ [d])%list ∧
       start_time d = start_t ∧
       ∀ q dq, q ≠ "" → strptime q "%Y-%m-%d" = Some dq →
         let day :=
           filter (λ e, date (wall (start_time e)) = date dq) (DOWNTIME_LOG st') in
         (get_downtime_for_date (Some q) st' = None ↔ mixes_kinds day) ∧
         (∀ l, get_downtime_for_date (Some q) st' = Some l →
            l ≡ₚ day ∧ sorted_downtime_desc l ∧
            (date dq = date (wall start_t) → d ∈ l) ∧
            (date dq ≠ date (wall start_t) → d ∉ l)).
Proof.
  intros Hs He Hps Hpe Hkind. cbv zeta. unfold handle_submit_downtime.
  rewrite Hs, He, Hps, Hpe.
  destruct (stamp_sub_same_kind end_t start_t) as [td ->]; [done|].
  simpl. eexists. split; [reflexivity|]. split; [done|].
  intros q dq Hq Hpq. rewrite (get_downtime_for_date_parsed q dq) by done. simpl.
  match goal with
  | |- context [sort_downtime_desc ?day] =>
      destruct (sort_downtime_desc_spec day) as [Hnone Hsome]
  end.
  split; [exact Hnone|]. intros l Hl. destruct (Hsome l Hl) as [Hperm Hsorted].
  split; [done|]. split; [done|]. rewrite Hperm, list_elem_of_filter. split.
  - intros Hsame. split; [done|]. apply elem_of_app. right.
    by apply list_elem_of_singleton.
  - intros Hdiff [Hsame _]. by apply Hdiff.
Qed.

(** X15. A query of the production log without a date, with an empty
    date or with a date string [strptime] refuses returns the whole log
    in arrival order.  A query with a date string that parses returns
    exactly the entries of that calendar date, each as often as it is in
    the log, in descending order of timestamp. *)
Theorem production_query_is_exact (date_str : option string) (st : State) :
  (truthy date_str = false ∨ strptime (default "" date_str) "%Y-%m-%d" = None →
   get_data_for_date date_str st = SUBMISSION_LOG st) ∧
  (∀ q dq, date_str = Some q → q ≠ "" → strptime q "%Y-%m-%d" = Some dq →
     get_data_for_date date_str st
       ≡ₚ filter (λ e, date (e_datetime e) = date dq) (SUBMISSION_LOG st) ∧
     sorted_desc (get_data_for_date date_str st)).
Proof.
  unfold get_data_for_date. split.
  - intros [-> | Hp]; [done|]. destruct (negb (truthy date_str)); [done|].
    by rewrite Hp.
  - intros q dq -> Hq Hp. rewrite truthy_Some by done. simpl. rewrite Hp.
    split; [apply sort_desc_perm | apply sort_desc_sorted].
Qed.

End DowntimeLog.

Section Submissions.
Context `{DatetimeLib}.

Lemma snoc_ne {A} (l : list A) (x : A) : (l ++ [x])%list ≠ l.
Proof.
  intros Heq. apply (f_equal length) in Heq. rewrite length_app in Heq.
  simpl in Heq. lia.
Qed.


(** X17. A downtime submission that is refused leaves the state as it
    was, and the sender alone gets one negative reply with a reason; it
    is refused exactly when a timestamp is missing or does not parse, or
    one timestamp is naive and the other aware.  One that is accepted is
    appended to the downtime log.  It is acknowledged, with the positive
    reply to the sender as the last message, when [broadcast_data] for
    the date of its start time returns.  When [broadcast_data] raises,
    the entry stays in the log and the sender alone gets the negative
    reply ["Server error"]. *)
Theorem downtime_submission_outcomes
    (data : gmap string string) (sid : string) (now : datetime) (st : State) :
  let res := handle_submit_downtime data sid now st in
  ((res.1 = st ∧
    ∃ why, res.2 = [Emit "downtime_submission_success"
                         (P_confirm false None (Some why)) (Some sid)])
   ∨ (res.1 ≠ st ∧
      ∃ d, res.1 = with_downtime (DOWNTIME_LOG st ++ [d])%list st ∧
           let day := strftime (wall (start_time d)) "%Y-%m-%d" in
           let sent := broadcast_data (Some day) now res.1 in
           (is_Some sent →
              last res.2 = Some (Emit "downtime_submission_success"
                                      (P_confirm true None None) (Some sid))) ∧
           (sent = None →
              res.2 = [Emit "downtime_submission_success"
                            (P_confirm false None (Some "Server error")) (Some sid)]) ∧
           (day ≠ "" →
              sent = None ↔
              ∃ dq, strptime day "%Y-%m-%d" = Some dq ∧
                    mixes_kinds (filter (λ e, date (wall (start_time e)) = date dq)
                                        (DOWNTIME_LOG st ++ [d])%list)))) ∧
  (res.1 ≠ st ↔
   ∃ start_str end_str start_t end_t,
     data !! "start_time" = Some start_str ∧ data !! "end_time" = Some end_str ∧
     fromisoformat start_str = Some start_t ∧ fromisoformat end_str = Some end_t ∧
     is_aware start_t = is_aware end_t).
Proof.
  cbv zeta. unfold handle_submit_downtime.
  assert (Hsame : ∀ (x : list emit), (st, x).1 ≠ st ↔ False) by (intros x; by split).
  destruct (data !! "start_time") as [s|];
    [|split; [left; eauto|]; rewrite Hsame; split; [done|];
      by intros (? & ? & ? & ? & ? & _)].
  destruct (fromisoformat s) as [start_t|] eqn:Hps;
    [|split; [left; eauto|]; rewrite Hsame; split; [done|];
      intros (? & ? & ? & ? & ? & _ & ? & _); congruence].
  destruct (data !! "end_time") as [e|];
    [|split; [left; eauto|]; rewrite Hsame; split; [done|];
      by intros (? & ? & ? & ? & _ & ? & _)].
  destruct (fromisoformat e) as [end_t|] eqn:Hpe;
    [|split; [left; eauto|]; rewrite Hsame; split; [done|];
      intros (? & ? & ? & ? & _ & ? & _ & ? & _); congruence].
  destruct (decide (is_aware start_t = is_aware end_t)) as [Hkind|Hkind].
  - destruct (stamp_sub_same_kind end_t start_t) as [td ->]; [done|].
    assert (Hne : ∀ d, with_downtime (DOWNTIME_LOG st ++ [d])%list st ≠ st).
    { intros d Heq. apply (f_equal DOWNTIME_LOG) in Heq. simpl in Heq.
      by apply snoc_ne in Heq. }
    simpl.
    split; [|split; [by intros _; exists s, e, start_t, end_t | intros _; apply Hne]].
    right. split; [apply Hne|]. eexists. split; [reflexivity|]. simpl.
    split; [|split].
    + intros [sent Hsent]. by rewrite Hsent.
    + intros Hsent. by rewrite Hsent.
    + intros Hday. by rewrite broadcast_data_raises.
  - rewrite stamp_sub_other_kind by done.
    split; [left; eauto|]. rewrite Hsame. split; [done|].
    intros (? & ? & ? & ? & ? & ? & ? & ? & ?). simplify_eq.
Qed.

Lemma tuple_trichotomy (a b : list Z) :
  length a = length b →
  tuple_ltb a b = true ∨ a = b ∨ tuple_ltb b a = true.
Proof.
  revert b. induction a as [|x a IH]; intros [|y b]; simpl; try done.
  - auto.
  - intros [= Hlen]. destruct (IH b Hlen) as [Hlt | [-> | Hgt]];
      destruct (Z.ltb_spec x y), (Z.ltb_spec y x), (Z.eqb_spec x y), (Z.eqb_spec y x);
      simpl; try lia; auto.
    subst. auto.
Qed.

Lemma dt_tuple_inj (a b : datetime) : dt_tuple a = dt_tuple b → a = b.
Proof. destruct a, b. unfold dt_tuple. simpl. by intros [= -> -> -> -> -> -> ->]. Qed.

Lemma dt_trichotomy (a b : datetime) :
  dt_ltb a b = true ∨ a = b ∨ dt_ltb b a = true.
Proof.
  destruct (tuple_trichotomy (dt_tuple a) (dt_tuple b)) as [? | [Heq | ?]]; auto.
  right; left. by apply dt_tuple_inj.
Qed.

Lemma dt_sub_antisym (a b : datetime) : dt_sub a b = (- dt_sub b a)%Z.
Proof. unfold dt_sub. cbv zeta. lia. Qed.

Lemma dt_sub_diag (a : datetime) : dt_sub a a = 0%Z.
Proof. unfold dt_sub. cbv zeta. lia. Qed.

(** The sign of a difference of well-formed datetimes is their order. *)
Lemma dt_sub_sign (a b : datetime) :
  valid_datetime a = true → valid_datetime b = true →
  ((dt_sub a b < 0)%Z ↔ dt_ltb a b = true) ∧
  (dt_sub a b = 0%Z ↔ a = b) ∧
  ((0 < dt_sub a b)%Z ↔ dt_ltb b a = true).
Proof.
  intros Ha Hb.
  assert (Hlt : dt_ltb a b = true → (dt_sub a b < 0)%Z) by (by apply dt_sub_neg).
  assert (Hgt : dt_ltb b a = true → (0 < dt_sub a b)%Z).
  { intros Hba. rewrite dt_sub_antisym. pose proof (dt_sub_neg b a Hb Ha Hba). lia. }
  assert (Heq : a = b → dt_sub a b = 0%Z) by (intros ->; apply dt_sub_diag).
  split; [|split];
    (split;
     [ intros Hx; destruct (dt_trichotomy a b) as [H1 | [H1 | H1]]; try done;
       first [ apply Hlt in H1; lia | apply Hgt in H1; lia | apply Heq in H1; lia ]
     | first [ exact Hlt | exact Heq | exact Hgt ] ]).
Qed.

(** For two aware datetimes with the same offset Python compares the
    fields; on well-formed datetimes that is the sign of the difference. *)
Lemma stamp_ltb_same_offset (a b : stamp) (o : Z) :
  valid_stamp a = true → valid_stamp b = true →
  utcoffset a = Some o → utcoffset b = Some o →
  stamp_ltb a b = Some (dt_ltb (wall a) (wall b)).
Proof.
  unfold valid_stamp, stamp_ltb. intros [Ha _]%andb_prop [Hb _]%andb_prop -> ->.
  f_equal. destruct (dt_sub_sign (wall a) (wall b) Ha Hb) as (Hlt & _ & _).
  destruct (dt_ltb (wall a) (wall b)).
  - apply Z.ltb_lt. pose proof (proj2 Hlt eq_refl). lia.
  - apply Z.ltb_ge. destruct (Z.lt_ge_cases (dt_sub (wall a) (wall b)) 0) as [Hneg|?];
      [|lia]. by apply Hlt in Hneg.
Qed.

(** X18. The [total_hours] of a stored downtime entry is the time from
    its start to its end in hours: 3600 times [total_hours] is that time
    in seconds, where the time between two naive timestamps is the
    difference of their fields and the time between two aware ones the
    difference of their instants.  Its sign is the order in which Python
    puts the two timestamps: negative exactly when the end is before the
    start, positive exactly when the start is before the end, and zero
    exactly when neither is before the other. *)
Theorem downtime_hours_sign
    (data : gmap string string) (sid : string) (now : datetime) (st : State)
    (start_str end_str : string) (start_t end_t : stamp) :
  data !! "start_time" = Some start_str →
  data !! "end_time" = Some end_str →
  fromisoformat start_str = Some start_t →
  fromisoformat end_str = Some end_t →
  is_aware start_t = is_aware end_t →
  let st' := (handle_submit_downtime data sid now st).1 in
  ∃ d td, last (DOWNTIME_LOG st') = Some d ∧
       start_time d = start_t ∧ end_time d = end_t ∧
       stamp_sub end_t start_t = Some td ∧
       (total_hours d * 3600 == inject_Z td / 1000000)%Q ∧
       ((total_hours d < 0)%Q ↔ stamp_ltb end_t start_t = Some true) ∧
       ((0 < total_hours d)%Q ↔ stamp_ltb start_t end_t = Some true) ∧
       ((total_hours d == 0)%Q ↔
          stamp_ltb end_t start_t = Some false ∧ stamp_ltb start_t end_t = Some false).
Proof.
  intros Hs He Hps Hpe Hkind. cbv zeta. unfold handle_submit_downtime.
  rewrite Hs, He, Hps, Hpe.
  destruct (stamp_sub end_t start_t) as [td|] eqn:Htd;
    [|destruct (stamp_sub_same_kind end_t start_t) as [? ?]; [done | congruence]].
  simpl. eexists. exists td. split; [by rewrite last_snoc|]. simpl.
  split; [done|]. split; [done|]. split; [done|].
  assert (Hvs : valid_datetime (wall start_t) = true)
    by (apply fromisoformat_valid in Hps; by apply andb_prop in Hps as [? _]).
  assert (Hve : valid_datetime (wall end_t) = true)
    by (apply fromisoformat_valid in Hpe; by apply andb_prop in Hpe as [? _]).
  split; [unfold total_hours_of, Qeq, Qmult, Qdiv, Qinv, inject_Z; simpl; lia|].
  assert (Hsign :
    (stamp_ltb end_t start_t = Some true ↔ (td < 0)%Z) ∧
    (stamp_ltb start_t end_t = Some true ↔ (0 < td)%Z) ∧
    (stamp_ltb end_t start_t = Some false ↔ (0 <= td)%Z) ∧
    (stamp_ltb start_t end_t = Some false ↔ (td <= 0)%Z)).
  { assert (Hsome : ∀ b c : bool, Some b = Some c ↔ b = c)
      by (intros b c; split; congruence).
    unfold stamp_sub, stamp_ltb, is_aware in *.
    destruct (utcoffset start_t) as [os|], (utcoffset end_t) as [oe|]; try done;
      injection Htd as <-; rewrite !Hsome.
    - rewrite (dt_sub_antisym (wall start_t) (wall end_t)).
      rewrite !Z.ltb_lt, !Z.ltb_ge. lia.
    - destruct (dt_sub_sign (wall end_t) (wall start_t) Hve Hvs) as (H1 & _ & H3).
      destruct (dt_ltb (wall end_t) (wall start_t)),
        (dt_ltb (wall start_t) (wall end_t));
        intuition (try lia; try congruence). }
  destruct Hsign as (S1 & S2 & S3 & S4). rewrite S1, S2, S3, S4.
  unfold total_hours_of, Qlt, Qeq. simpl. repeat split; lia.
Qed.

End Submissions.

(** * The chart of the dashboard snapshot *)

Section Chart.
Context `{DatetimeLib}.

(** Python's [int] on a string: [None] stands for [ValueError]. *)
Variable py_int : string → option Z.

(** [int(entry.get('produced_qty', 0))], 0 when [int] raises. *)
Definition entry_qty (e : entry) : Z :=
  match e_fields e !! "produced_qty" with
  | Some s => default 0%Z (py_int s)
  | None => 0%Z
  end.

(** [entry.get('machine_name', 'UNKNOWN')] *)
Definition entry_machine (e : entry) : string :=
  default "UNKNOWN" (e_fields e !! "machine_name").

(** [machine_qty_totals[k] += v] on a [defaultdict(int)]: a new key goes
    to the end, an old key keeps its place. *)
Fixpoint add_total (k : string) (v : Z) (totals : list (string * Z))
  : list (string * Z) :=
  match totals with
  | [] => [(k, (0 + v)%Z)]
  | (k', v') :: rest =>
      if decide (k = k') then (k', (v' + v)%Z) :: rest
      else (k', v') :: add_total k v rest
  end.

(** The loop of [broadcast_data] over [log_to_send], as far as the totals
    go, and the list [chart_data] of pairs (machine, total_qty) built from
    [machine_qty_totals.items()]. *)
Definition machine_qty_totals (log_to_send : list entry) : list (string * Z) :=
  foldl (λ totals e, add_total (entry_machine e) (entry_qty e) totals) [] log_to_send.

Definition chart_data (date_str : option string) (now : datetime) (st : State)
  : list (string * Z) :=
  let date_str :=
    if negb (truthy date_str) then Some (strftime now "%Y-%m-%d") else date_str in
  machine_qty_totals (get_data_for_date date_str st).

(** The sum of the quantities of the entries of machine [m]. *)
Definition qty_of_machine (m : string) (log : list entry) : Z :=
  foldr Z.add 0%Z (entry_qty <$> filter (λ e, entry_machine e = m) log).

Fixpoint lookup_total (m : string) (totals : list (string * Z)) : option Z :=
  match totals with
  | [] => None
  | (k, v) :: rest => if decide (m = k) then Some v else lookup_total m rest
  end.

Lemma lookup_add_total (m k : string) (v : Z) (t : list (string * Z)) :
  lookup_total m (add_total k v t) =
    if decide (m = k) then Some (default 0 (lookup_total k t) + v)%Z
    else lookup_total m t.
Proof.
  induction t as [|[k' v'] rest IH]; simpl.
  - by destruct (decide (m = k)).
  - destruct (decide (k = k')) as [->|Hk]; simpl.
    + destruct (decide (m = k')); [done|]. done.
    + destruct (decide (m = k')) as [->|Hm]; simpl.
      * by rewrite decide_False by done.
      * exact IH.
Qed.

Lemma add_total_keys (k : string) (v : Z) (t : list (string * Z)) :
  (add_total k v t).*1 = if decide (k ∈ t.*1) then t.*1 else (t.*1 ++ [k])%list.
Proof.
  induction t as [|[k' v'] rest IH].
  - simpl. destruct (decide (k ∈ [])) as [Hin|Hin]; [|done].
    by apply elem_of_nil in Hin.
  - simpl add_total. rewrite !fmap_cons. simpl fst.
    destruct (decide (k = k')) as [->|Hk].
    + rewrite fmap_cons. simpl fst.
      destruct (decide (k' ∈ k' :: rest.*1)) as [Hin|Hin]; [done|].
      destruct Hin. left.
    + rewrite fmap_cons, IH. simpl fst.
      destruct (decide (k ∈ rest.*1)) as [Hin|Hin];
        destruct (decide (k ∈ k' :: rest.*1)) as [Hin'|Hin']; try done.
      * destruct Hin'. by right.
      * apply elem_of_cons in Hin' as [?|?]; done.
Qed.

Lemma add_total_NoDup (k : string) (v : Z) (t : list (string * Z)) :
  NoDup t.*1 → NoDup (add_total k v t).*1.
Proof.
  intros Hnd. rewrite add_total_keys. destruct (decide (k ∈ t.*1)); [done|].
  apply NoDup_app. split; [done|]. split; [|apply NoDup_singleton].
  intros x Hx Hk. apply list_elem_of_singleton in Hk. by subst.
Qed.

Lemma lookup_total_elem (m : string) (v : Z) (t : list (string * Z)) :
  NoDup t.*1 → (m, v) ∈ t ↔ lookup_total m t = Some v.
Proof.
  induction t as [|[k' v'] rest IH]; simpl; intros Hnd.
  - split; [by intros ?%elem_of_nil | done].
  - apply NoDup_cons in Hnd as [Hk' Hnd]. rewrite elem_of_cons.
    destruct (decide (m = k')) as [->|Hm].
    + split.
      * intros [[= ->] | Hin]; [done|]. destruct Hk'.
        apply list_elem_of_fmap. by exists (k', v).
      * intros [= ->]. by left.
    + rewrite <- IH by done. split; [|by right]. intros [[= ? ?] | ?]; done.
Qed.

Lemma qty_of_machine_cons (m : string) (e : entry) (log : list entry) :
  qty_of_machine m (e :: log) =
    ((if decide (entry_machine e = m) then entry_qty e else 0) + qty_of_machine m log)%Z.
Proof.
  unfold qty_of_machine. rewrite filter_cons.
  destruct (decide (entry_machine e = m)); simpl; [done | lia].
Qed.

Lemma qty_of_machine_absent (m : string) (log : list entry) :
  ¬ Exists (λ e, entry_machine e = m) log → qty_of_machine m log = 0%Z.
Proof.
  induction log as [|e log IH]; intros Hno; [done|].
  rewrite qty_of_machine_cons.
  destruct (decide (entry_machine e = m)) as [Hm|Hm]; [destruct Hno; by left|].
  rewrite IH; [done|]. intros Hex. apply Hno. by right.
Qed.

Lemma totals_fold (m : string) (acc : list (string * Z)) (log : list entry) :
  NoDup acc.*1 →
  let t := foldl (λ totals e, add_total (entry_machine e) (entry_qty e) totals)
                 acc log in
  NoDup t.*1 ∧
  lookup_total m t =
    if decide (Exists (λ e, entry_machine e = m) log)
    then Some (default 0 (lookup_total m acc) + qty_of_machine m log)%Z
    else lookup_total m acc.
Proof.
  cbv zeta. revert acc. induction log as [|e log IH]; intros acc Hnd.
  - simpl foldl. split; [done|].
    destruct (decide (Exists _ [])) as [Hex|Hex]; [by apply Exists_nil in Hex | done].
  - simpl foldl.
    destruct (IH (add_total (entry_machine e) (entry_qty e) acc)) as [Hnd' Hl];
      [by apply add_total_NoDup|].
    split; [done|]. rewrite Hl, lookup_add_total, qty_of_machine_cons.
    pose proof (qty_of_machine_absent m log) as Hnone.
    destruct (decide (Exists (λ e0, entry_machine e0 = m) log)) as [Hex|Hex];
      destruct (decide (Exists (λ e0, entry_machine e0 = m) (e :: log)))
        as [Hex'|Hex'];
      destruct (decide (m = entry_machine e)) as [Hm|Hm];
      destruct (decide (entry_machine e = m)) as [Hm'|Hm']; try congruence;
      try (destruct Hex'; by (left + right));
      try (rewrite Hnone by done);
      try (f_equal; lia);
      try (subst m; simpl; f_equal; lia).
    apply Exists_cons in Hex' as [?|?]; done.
Qed.

Lemma machine_qty_totals_spec (log : list entry) :
  let chart := machine_qty_totals log in
  NoDup chart.*1 ∧
  ∀ m v, (m, v) ∈ chart ↔
         (∃ e, e ∈ log ∧ entry_machine e = m) ∧ v = qty_of_machine m log.
Proof.
  cbv zeta. unfold machine_qty_totals.
  assert (Hnil : NoDup ([] : list (string * Z)).*1) by constructor.
  split; [exact (proj1 (totals_fold "" [] log Hnil))|].
  intros m v. destruct (totals_fold m [] log Hnil) as [Hnd Hl].
  rewrite lookup_total_elem, Hl by done. simpl.
  destruct (decide (Exists _ log)) as [Hex|Hex].
  - apply Exists_exists in Hex. split.
    + intros [= <-]. by split.
    + by intros [_ ->].
  - split; [done|]. intros [Hex' _]. destruct Hex. by apply Exists_exists.
Qed.

(** X19. The chart of the dashboard snapshot has one row per machine
    name that occurs in the production entries selected for the date,
    and the total of a row is the sum of the quantities of the selected
    entries of that machine, an entry whose quantity is missing or not a
    number counting as 0; entries of other dates do not count. *)
Theorem chart_totals_per_machine
    (date_str : option string) (now : datetime) (st : State) :
  let log_to_send :=
    get_data_for_date
      (if negb (truthy date_str) then Some (strftime now "%Y-%m-%d") else date_str)
      st in
  let chart := chart_data date_str now st in
  NoDup chart.*1 ∧
  ∀ m v, (m, v) ∈ chart ↔
         (∃ e, e ∈ log_to_send ∧ entry_machine e = m) ∧
         v = qty_of_machine m log_to_send.
Proof. cbv zeta. unfold chart_data. apply machine_qty_totals_spec. Qed.

End Chart.

(** * The rows of the production export *)

(** [sorted(log, key=...)]: the stable ascending sort. *)
Fixpoint insert_asc_by {A} (key : A → datetime) (x : A) (l : list A) : list A :=
  match l with
  | [] => [x]
  | y :: ys =>
      if dt_ltb (key y) (key x) then y :: insert_asc_by key x ys
      else x :: y :: ys
  end.

Definition sort_asc_by {A} (key : A → datetime) (l : list A) : list A :=
  foldr (insert_asc_by key) [] l.

(** In ascending order of [key]. *)
Definition sorted_asc_by {A} (key : A → datetime) (l : list A) : Prop :=
  StronglySorted (λ a b, dt_ltb (key b) (key a) = false) l.

Section ProductionExport.
Context `{DatetimeLib}.

(** The dictionary [row] that [export_data] builds per entry, without its
    ['datetime_obj']. *)
Definition export_cells (e : entry) : list (string * pyval) :=
  let t1_crimp_height := combined e "t1_crimp_height" in
  let t1_insulation_height := combined e "t1_insulation_height" in
  let t1_crimp_width := combined e "t1_crimp_width" in
  let t1_insulation_width := combined e "t1_insulation_width" in
  let t1_pull_force := combined e "t1_pull_force" in
  let t2_crimp_height := combined e "t2_crimp_height" in
  let t2_insulation_height := combined e "t2_insulation_height" in
  let t2_crimp_width := combined e "t2_crimp_width" in
  let t2_insulation_width := combined e "t2_insulation_width" in
  let t2_pull_force := combined e "t2_pull_force" in
  let d := e_fields e in
  [ ("Shift", get_default d "shift" (PyStr ""));
    ("Worker Name", get_default d "operator_name" (PyStr ""));
    ("Machine Name", get_default d "machine_name" (PyStr ""));
    ("FG Part Number", get_default d "fg_part_no" (PyStr ""));
    ("Cable Identification", get_default d "cable_id" (PyStr ""));
    ("Produced Qty", get_default d "produced_qty" (PyInt 0));
    ("Produced Length", get_default d "produced_length" (PyFloat 0));
    ("QTY PRODUCED HOURS", get_default d "qty_produced_hours" (PyFloat 0));
    ("T1 Part No", get_default d "t1_terminal_id" (PyStr ""));
    ("T1 APL NO", get_default d "t1_apl_no" (PyStr ""));
    ("T1 Crimp H", t1_crimp_height);
    ("T1 Insul H", t1_insulation_height);
    ("T1 Crimp W", t1_crimp_width);
    ("T1 Insul W", t1_insulation_width);
    ("T1 Pull F (N)", t1_pull_force);
    ("T2 Part No", get_default d "t2_terminal_id" (PyStr ""));
    ("T2 APL NO", get_default d "t2_apl_no" (PyStr ""));
    ("T2 Crimp H", t2_crimp_height);
    ("T2 Insul H", t2_insulation_height);
    ("T2 Crimp W", t2_crimp_width);
    ("T2 Insul W", t2_insulation_width);
    ("T2 Pull F (N)", t2_pull_force) ].

(** A line of the exported table: the columns [Date] and [Time] the
    function derives from ['datetime_obj'], then the cells, which the
    dictionary already holds in the order of [NEW_FIELD_NAMES]. *)
Definition export_line (e : entry) : list (string * pyval) :=
  ("Date", PyStr (strftime (e_datetime e) "%Y-%m-%d"))
  :: ("Time", PyStr (strftime (e_datetime e) "%H:%M:%S"))
  :: export_cells e.

(** The table [export_data] hands to the CSV writer, one line per entry
    of the whole log in ascending order of timestamp; [None] is the reply
    "No data to export" with status 204. *)
Definition export_data (st : State) : option (list (list (string * pyval))) :=
  let sorted_log := sort_asc_by e_datetime (SUBMISSION_LOG st) in
  match export_line <$> sorted_log with
  | [] => None
  | rows => Some rows
  end.

(** The columns of the export and the fields of the dashboard record
    that show the same metric. *)
Definition metric_columns : list (string * string) :=
  [ ("T1 Crimp H", "t1_crimp_height"); ("T1 Insul H", "t1_insulation_height");
    ("T1 Crimp W", "t1_crimp_width"); ("T1 Insul W", "t1_insulation_width");
    ("T1 Pull F (N)", "t1_pull_force");
    ("T2 Crimp H", "t2_crimp_height"); ("T2 Insul H", "t2_insulation_height");
    ("T2 Crimp W", "t2_crimp_width"); ("T2 Insul W", "t2_insulation_width");
    ("T2 Pull F (N)", "t2_pull_force") ].

Lemma insert_asc_by_perm {A} (key : A → datetime) x l :
  insert_asc_by key x l ≡ₚ x :: l.
Proof.
  induction l as [|y ys IH]; simpl; [done|].
  destruct (dt_ltb (key y) (key x)); [|done].
  rewrite IH. apply Permutation_swap.
Qed.

Lemma sort_asc_by_perm {A} (key : A → datetime) l : sort_asc_by key l ≡ₚ l.
Proof.
  induction l as [|x l IH]; simpl; [done|].
  by rewrite insert_asc_by_perm, IH.
Qed.

Lemma insert_asc_by_sorted {A} (key : A → datetime) x l :
  sorted_asc_by key l → sorted_asc_by key (insert_asc_by key x l).
Proof.
  unfold sorted_asc_by. induction 1 as [|y ys Hs IH Hy]; simpl.
  - repeat constructor.
  - destruct (dt_ltb (key y) (key x)) eqn:Hyx.
    + constructor; [done|]. rewrite insert_asc_by_perm. constructor; [|done].
      by apply tuple_ltb_asym.
    + constructor; [by constructor|]. constructor; [done|].
      eapply Forall_impl; [exact Hy|]. intros z Hz. simpl in Hz.
      eapply tuple_geb_trans; [exact Hz | exact Hyx].
Qed.

Lemma sort_asc_by_sorted {A} (key : A → datetime) l :
  sorted_asc_by key (sort_asc_by key l).
Proof.
  induction l as [|x l IH]; simpl; [constructor|]. by apply insert_asc_by_sorted.
Qed.

(** X20. The production export has no data exactly when the log is
    empty.  Otherwise it has one line per entry of the whole log, whatever
    the date, in ascending order of timestamp, and every line shows in
    its ten T1/T2 metric columns the same values as the dashboard record
    of the same entry: the manual value when non-empty, else the
    measured one. *)
Theorem export_agrees_with_dashboard (st : State) :
  (export_data st = None ↔ SUBMISSION_LOG st = []) ∧
  (∀ rows, export_data st = Some rows →
     ∃ sorted_log,
       sorted_log ≡ₚ SUBMISSION_LOG st ∧
       sorted_asc_by e_datetime sorted_log ∧
       rows = export_line <$> sorted_log) ∧
  (∀ e col key, (col, key) ∈ metric_columns →
     assoc col (export_line e) = assoc key (clean_entry e)).
Proof.
  split; [|split].
  - unfold export_data.
    pose proof (sort_asc_by_perm e_datetime (SUBMISSION_LOG st)) as Hperm.
    destruct (sort_asc_by e_datetime (SUBMISSION_LOG st)) as [|x l] eqn:Hs; simpl.
    + split; [intros _|done]. by apply Permutation_nil_l in Hperm.
    + split; [done|]. intros Hnil. rewrite Hnil in Hperm.
      by apply Permutation_nil_r in Hperm.
  - intros rows Hrows. exists (sort_asc_by e_datetime (SUBMISSION_LOG st)).
    split; [apply sort_asc_by_perm|]. split; [apply sort_asc_by_sorted|].
    unfold export_data in Hrows.
    destruct (export_line <$> sort_asc_by e_datetime (SUBMISSION_LOG st)); [done|].
    by injection Hrows as <-.
  - intros e col key. unfold metric_columns. rewrite !elem_of_cons, elem_of_nil.
    intros Hk. repeat (destruct Hk as [[= -> ->] | Hk]; [reflexivity|]). done.
Qed.

End ProductionExport.

(** * The machines the dashboard lists *)

Section KnownMachines.
Context `{DatetimeLib}.

#[local] Arguments has_pending : simpl never.

Lemma handle_keeps_plan_entry (r : request) (st : State) (m : string) :
  is_Some (MACHINE_PLANS st !! m) → is_Some (MACHINE_PLANS (handle r st).1 !! m).
Proof.
  intros Hm.
  destruct (decide (request_machine r = Some m)) as [Hr|Hr];
    [|by destruct (handle_other_machine r st m Hr) as (-> & _ & _)].
  destruct r as [tm ps now | | | | | | data t | data sid t]; try done; simpl in Hr.
  - subst tm. simpl. unfold upload_plan. destruct ps as [df|]; [|done].
    destruct (truthy (Some m)); simpl; [|done].
    destruct (match MACHINE_PLANS st !! m with
              | Some (r0 :: rest) => has_pending (r0 :: rest)
              | _ => false end); simpl; [done|].
    by rewrite lookup_insert_eq.
  - simpl.
    destruct (truthy (data !! "lineId")) eqn:Hl;
      [|by rewrite mark_ignored by auto].
    destruct (truthy (data !! "machineName")) eqn:Hn;
      [|by rewrite mark_ignored by auto].
    apply truthy_true_inv in Hl as (lid & Hl & Hlne).
    apply truthy_true_inv in Hn as (m' & Hn & Hmne).
    assert (m' = m) as -> by congruence.
    destruct Hm as [p0 Hp0].
    rewrite (mark_state _ _ _ m lid p0) by done.
    destruct (getQueuedPlans m st) as [|next q];
      try destruct (has_pending (mark_row lid p0)); simpl;
      by rewrite lookup_insert_eq.
  - simpl. unfold handle_request_dequeue_plan.
    destruct (truthy (data !! "machineName")); simpl; [|done].
    rewrite Hr. simpl.
    destruct (default [] (MACHINE_PLAN_QUEUES st !! m)) as [|next q]; [done|].
    destruct (MACHINE_PLANS st !! m) as [[|r0 rest]|]; simpl;
      by rewrite lookup_insert_eq.
Qed.

(** X21. No request ever removes a machine from [MACHINE_PLANS]: a
    machine that has an active-plan entry, and so is in the list of
    machines the dashboard snapshot is built with, keeps one through any
    sequence of requests. *)
Theorem known_machines_stay_known (rs : list request) (st : State) (m : string) :
  is_Some (MACHINE_PLANS st !! m) →
  is_Some (MACHINE_PLANS (run rs st) !! m).
Proof.
  revert st. induction rs as [|r rs IH]; intros st Hm; [done|].
  rewrite run_cons. by apply IH, handle_keeps_plan_entry.
Qed.

End KnownMachines.

(** * The further properties at concrete requests *)

Module Scenario2.
Import Scenario.

(** Connection C1 has joined machine M2. *)
Definition st_m2 : State := run [JoinMachineRoom (named "M2") "C1"] initial_state.

(** Requests about machine M2 and about no machine. *)
Definition other_requests : list request :=
  [ UploadPlan (Some "M2") (Some sheet_b) t0;
    MarkPlanComplete (mark "M2" "M2_1") t0;
    SubmitScrap ∅ t0 ].

(** Decimal digits, the part of Python's [int] the example needs. *)
Fixpoint digits_value (acc : Z) (s : string) : option Z :=
  match s with
  | EmptyString => Some acc
  | String a rest =>
      match StrictDatetime.digit_of a with
      | Some d => digits_value (acc * 10 + d)%Z rest
      | None => None
      end
  end.

Definition digits_int (s : string) : option Z :=
  match s with
  | EmptyString => None
  | _ => digits_value 0 s
  end.

Definition output_on (machine qty day : string) : gmap string string :=
  {[ "entry_date" := day; "entry_time" := "10:30";
     "machine_name" := machine; "produced_qty" := qty ]}.

(** Two entries of M3 on 15 January and one of M4 on the 16th. *)
Definition st_three_outputs : State :=
  run [ SubmitOutput (output_on "M3" "10" "2024-01-15") "c1" t0;
        SubmitOutput (output_on "M4" "3" "2024-01-16") "c2" t0;
        SubmitOutput (output_on "M3" "7" "2024-01-15") "c1" t0 ] initial_state.

(** Plan A of three rows is active with its first two rows completed,
    and plan B of two rows is queued behind it. *)
Definition sheet_a3 : list row :=
  [ {[ "Part No" := "P-101" ]}; {[ "Part No" := "P-102" ]}; {[ "Part No" := "P-103" ]} ].
Definition sheet_b2 : list row :=
  [ {[ "Part No" := "P-201" ]}; {[ "Part No" := "P-202" ]} ].

Definition st_a3_b2 : State :=
  run [ UploadPlan (Some "M1") (Some sheet_a3) t0;
        UploadPlan (Some "M1") (Some sheet_b2) t0;
        MarkPlanComplete (mark "M1" "M1_1") t0;
        MarkPlanComplete (mark "M1" "M1_2") t0 ] initial_state.

Definition plan_b2 : plan :=
  [ {[ "Part No" := "P-201"; "line_id" := "M1_1"; "status" := "pending" ]};
    {[ "Part No" := "P-202"; "line_id" := "M1_2"; "status" := "pending" ]} ].

(** A sheet without rows has been queued behind plan A and promoted:
    the active plan has no rows and plan B waits in the queue. *)
Definition st_empty_active : State :=
  run [ UploadPlan (Some "M1") (Some sheet_a) t0;
        UploadPlan (Some "M1") (Some []) t0;
        UploadPlan (Some "M1") (Some sheet_b) t0;
        MarkPlanComplete (mark "M1" "M1_1") t0 ] initial_state.

(** The day of 15 January holds a downtime entry submitted without an
    offset and one submitted with an offset. *)
Definition st_mixed_day : State :=
  run [ SubmitDowntime downtime_morning "c1" t0;
        SubmitDowntime downtime_utc "c2" t0 ] initial_state.

(** A downtime submission whose start is written at five hours east of
    UTC and whose end is written in UTC: by the fields it ends an hour and
    a half before it starts, by the instants three and a half hours
    after. *)
Definition downtime_offsets : gmap string string :=
  {[ "start_time" := "2024-01-15T10:30:00+05:00";
     "end_time" := "2024-01-15T09:00:00+00:00" ]}.

(** A downtime submission with a naive start and an aware end. *)
Definition downtime_half_aware : gmap string string :=
  {[ "start_time" := "2024-01-15T09:00:00";
     "end_time" := "2024-01-15T10:30:00Z" ]}.

End Scenario2.

Section MoreScenarios.
Import Scenario Scenario2.

(** The scenario of the specification for the chart. *)
Example chart_of_one_day :
  chart_data digits_int (Some "2024-01-15") t0 st_three_outputs = [("M3", 17%Z)].
Proof. reflexivity. Qed.

Lemma uploaded_plan_shape_witness :
  "M1" ≠ "" ∧
  length (process_rows "M1" (take 10 sheet_a)) = min 10 (length sheet_a) ∧
  NoDup ((.!! "line_id") <$> process_rows "M1" (take 10 sheet_a)).
Proof.
  assert (H1 : "M1" ≠ "") by discriminate.
  destruct (uploaded_plan_shape "M1" sheet_a t0 initial_state H1) as (_ & Hlen & _ & Hnd).
  repeat split; assumption.
Defined.

Lemma uploads_queue_in_order_witness :
  "M1" ≠ "" ∧
  MACHINE_PLANS st_a !! "M1" = Some plan_a ∧
  has_pending plan_a = true ∧
  getQueuedPlans "M1"
    (run ((λ df, UploadPlan (Some "M1") (Some df) t0) <$> [sheet_b; sheet_a]) st_a)
  = (getQueuedPlans "M1" st_a
     ++ ((λ df, process_rows "M1" (take 10 df)) <$> [sheet_b; sheet_a]))%list.
Proof.
  assert (H1 : "M1" ≠ "") by discriminate.
  assert (H2 : MACHINE_PLANS st_a !! "M1" = Some plan_a) by reflexivity.
  assert (H3 : has_pending plan_a = true) by reflexivity.
  destruct (uploads_queue_in_order "M1" [sheet_b; sheet_a] t0 st_a plan_a H1 H2 H3)
    as (_ & Hq).
  repeat split; assumption.
Defined.

Lemma dequeues_activate_in_order_witness :
  named "M1" !! "machineName" = Some "M1" ∧
  "M1" ≠ "" ∧
  getQueuedPlans "M1" st_ab !! 0%nat = Some plan_b ∧
  MACHINE_PLANS (run (replicate 1 (RequestDequeuePlan (named "M1") "c1" t0)) st_ab)
    !! "M1" = Some plan_b.
Proof.
  assert (H1 : named "M1" !! "machineName" = Some "M1") by reflexivity.
  assert (H2 : "M1" ≠ "") by discriminate.
  assert (H3 : getQueuedPlans "M1" st_ab !! 0%nat = Some plan_b) by reflexivity.
  destruct (dequeues_activate_in_order (named "M1") "c1" t0 st_ab "M1" 0 plan_b
              H1 H2 H3) as (Ha & _).
  repeat split; assumption.
Defined.

Lemma plan_state_is_per_machine_witness :
  Forall (λ r, request_machine r ≠ Some "M1") other_requests ∧
  MACHINE_PLANS (run other_requests st_ab) !! "M1" = MACHINE_PLANS st_ab !! "M1" ∧
  getQueuedPlans "M1" (run other_requests st_ab) = getQueuedPlans "M1" st_ab.
Proof.
  assert (H1 : Forall (λ r, request_machine r ≠ Some "M1") other_requests)
    by (repeat constructor; discriminate).
  destruct (plan_state_is_per_machine other_requests st_ab "M1" H1) as (Ha & Hq & _).
  repeat split; assumption.
Defined.

Lemma mark_row_completes_first_match_witness :
  (∀ r0 : row, r0 ∈ ([] : plan) → r0 !! "line_id" ≠ Some "M1_1") ∧
  mark_row "M1_1" ([] ++ plan_a ++ plan_a)%list
    = ([] ++ plan_a_done ++ plan_a)%list.
Proof.
  assert (H1 : ∀ r0 : row, r0 ∈ ([] : plan) → r0 !! "line_id" ≠ Some "M1_1")
    by (intros r0 Hin; by apply elem_of_nil in Hin).
  refine (conj H1 _).
  exact (proj2 (mark_row_completes_first_match "M1_1" []
                  {[ "Part No" := "P-100"; "line_id" := "M1_1"; "status" := "pending" ]}
                  plan_a H1) eq_refl).
Defined.

Lemma queue_never_waits_behind_completed_plan_witness :
  reachable st_ab ∧
  (getQueuedPlans "M1" st_ab ≠ [] →
   ∃ p, MACHINE_PLANS st_ab !! "M1" = Some p ∧ (p = [] ∨ has_pending p = true)).
Proof.
  assert (H1 : reachable st_ab) by apply reachable_run, reachable_run, reachable_initial.
  split; [exact H1|].
  exact (proj2 (queue_never_waits_behind_completed_plan st_ab "M1" H1)).
Defined.

Lemma stale_mark_changes_nothing_witness :
  reachable st_a ∧
  mark "M1" "M1_9" !! "machineName" = Some "M1" ∧
  mark "M1" "M1_9" !! "lineId" = Some "M1_9" ∧
  MACHINE_PLANS st_a !! "M1" = Some plan_a ∧
  plan_a ≠ [] ∧
  mark_row "M1_9" plan_a = plan_a ∧
  (handle_mark_plan_complete (mark "M1" "M1_9") t0 st_a).1 = st_a.
Proof.
  assert (H1 : reachable st_a) by apply reachable_run, reachable_initial.
  assert (H2 : mark "M1" "M1_9" !! "machineName" = Some "M1") by reflexivity.
  assert (H3 : mark "M1" "M1_9" !! "lineId" = Some "M1_9") by reflexivity.
  assert (H4 : MACHINE_PLANS st_a !! "M1" = Some plan_a) by reflexivity.
  assert (H5 : plan_a ≠ []) by discriminate.
  assert (H6 : mark_row "M1_9" plan_a = plan_a) by reflexivity.
  refine (conj H1 (conj H2 (conj H3 (conj H4 (conj H5 (conj H6 _)))))).
  exact (stale_mark_changes_nothing (mark "M1" "M1_9") t0 st_a "M1" "M1_9" plan_a
           H1 H2 H3 H4 H5 H6).
Defined.

Lemma disconnect_takes_machine_offline_witness :
  reachable st_m2 ∧
  SID_TO_MACHINE st_m2 !! "C1" = Some "M2" ∧
  isOnline "M2" (handle_disconnect "C1" st_m2).1 = false.
Proof.
  assert (H1 : reachable st_m2) by apply reachable_run, reachable_initial.
  assert (H2 : SID_TO_MACHINE st_m2 !! "C1" = Some "M2") by reflexivity.
  refine (conj H1 (conj H2 _)).
  exact (proj1 (disconnect_takes_machine_offline "C1" "M2" st_m2 H1 H2)).
Defined.

Lemma join_moves_connection_witness :
  reachable st_m2 ∧
  named "M3" !! "machineName" = Some "M3" ∧
  "M3" ≠ "" ∧
  (∀ sid', SID_TO_MACHINE st_m2 !! sid' = Some "M3" → sid' = "C1") ∧
  isOnline "M3" (handle_join_machine_room (named "M3") "C1" st_m2).1 = true ∧
  isOnline "M2" (handle_join_machine_room (named "M3") "C1" st_m2).1 = false.
Proof.
  assert (H1 : reachable st_m2) by apply reachable_run, reachable_initial.
  assert (H2 : named "M3" !! "machineName" = Some "M3") by reflexivity.
  assert (H3 : "M3" ≠ "") by discriminate.
  assert (H4 : ∀ sid', SID_TO_MACHINE st_m2 !! sid' = Some "M3" → sid' = "C1").
  { intros sid' Hs.
    change (SID_TO_MACHINE st_m2) with (<["C1" := "M2"]> (∅ : gmap string string)) in Hs.
    rewrite lookup_insert in Hs. destruct (decide ("C1" = sid')); [done|].
    by rewrite lookup_empty in Hs. }
  destruct (join_moves_connection (named "M3") "C1" "M3" st_m2 H1 H2 H3 H4)
    as (_ & Hon & Hold).
  refine (conj H1 (conj H2 (conj H3 (conj H4 (conj Hon _))))).
  apply (Hold "M2"); [reflexivity | discriminate].
Defined.


Lemma known_machines_stay_known_witness :
  is_Some (MACHINE_PLANS st_ab !! "M1") ∧
  is_Some (MACHINE_PLANS
             (run [ MarkPlanComplete (mark "M1" "M1_1") t0;
                    RequestDequeuePlan (named "M1") "c1" t0 ] st_ab) !! "M1").
Proof.
  assert (H1 : is_Some (MACHINE_PLANS st_ab !! "M1")) by (by exists plan_a).
  refine (conj H1 _).
  exact (known_machines_stay_known
           [ MarkPlanComplete (mark "M1" "M1_1") t0;
             RequestDequeuePlan (named "M1") "c1" t0 ] st_ab "M1" H1).
Defined.

(** The scenario of the specification for the queue: the mark of the
    last row of plan A promotes plan B, which has no row [M1_3], and a
    second mark of [M1_3] changes nothing. *)
Lemma mark_plan_complete_twice_witness :
  let once := (handle_mark_plan_complete (mark "M1" "M1_3") t0 st_a3_b2).1 in
  let twice := (handle_mark_plan_complete (mark "M1" "M1_3") t0 once).1 in
  reachable st_a3_b2 ∧
  getQueuedPlans "M1" st_a3_b2 = [plan_b2] ∧
  getActive "M1" once = plan_b2 ∧
  getQueuedPlans "M1" once = [] ∧
  twice = once.
Proof.
  cbv zeta.
  assert (H1 : reachable st_a3_b2) by apply reachable_run, reachable_initial.
  assert (H2 : getQueuedPlans "M1" st_a3_b2 = [plan_b2]) by reflexivity.
  assert (H3 : getActive "M1" (handle_mark_plan_complete (mark "M1" "M1_3") t0 st_a3_b2).1
               = plan_b2) by reflexivity.
  assert (H4 : getQueuedPlans "M1"
                 (handle_mark_plan_complete (mark "M1" "M1_3") t0 st_a3_b2).1 = [])
    by reflexivity.
  assert (H5 : MACHINE_PLAN_QUEUES
                 (handle_mark_plan_complete (mark "M1" "M1_3") t0 st_a3_b2).1
               ≠ MACHINE_PLAN_QUEUES st_a3_b2).
  { intros Heq. apply (f_equal (λ q, length <$> q !! "M1")) in Heq.
    vm_compute in Heq. discriminate. }
  assert (H6 : ∀ r : row, r ∈ plan_b2 → r !! "line_id" ≠ Some "M1_3").
  { intros r Hr Heq. unfold plan_b2 in Hr.
    apply elem_of_cons in Hr as [-> | Hr];
      [|apply elem_of_cons in Hr as [-> | Hr]; [|by apply elem_of_nil in Hr]];
      vm_compute in Heq; discriminate. }
  refine (conj H1 (conj H2 (conj H3 (conj H4 _)))).
  destruct (mark_plan_complete_twice (mark "M1" "M1_3") t0 t0 st_a3_b2)
    as (_ & Hpromoted & _).
  apply (Hpromoted H1 H5). split; [exact H6 | by right].
Defined.

(** On an active plan without rows a mark whose line id matches no row
    promotes the queued plan. *)
Example unmatched_mark_on_empty_plan_promotes :
  let st' := (handle_mark_plan_complete (mark "M1" "M1_9") t0 st_empty_active).1 in
  reachable st_empty_active ∧
  getActive "M1" st_empty_active = [] ∧
  getQueuedPlans "M1" st_empty_active = [plan_b] ∧
  getActive "M1" st' = plan_b ∧
  getQueuedPlans "M1" st' = [] ∧
  length (getHistory "M1" st') = S (length (getHistory "M1" st_empty_active)).
Proof.
  cbv zeta. split; [apply reachable_run, reachable_initial|].
  repeat split; reflexivity.
Qed.

Lemma downtime_query_round_trip_witness :
  let start_t := Stamp (DateTime 2024 1 15 10 30 0 0) None in
  let end_t := Stamp (DateTime 2024 1 15 9 0 0 0) None in
  let st' := (handle_submit_downtime downtime_1 "c1" t0 initial_state).1 in
  downtime_1 !! "start_time" = Some "2024-01-15T10:30:00" ∧
  downtime_1 !! "end_time" = Some "2024-01-15T09:00:00" ∧
  fromisoformat "2024-01-15T10:30:00" = Some start_t ∧
  fromisoformat "2024-01-15T09:00:00" = Some end_t ∧
  is_aware start_t = is_aware end_t ∧
  ∃ d, DOWNTIME_LOG st' = [d] ∧
       get_downtime_for_date (Some "2024-01-15") st' = Some (DOWNTIME_LOG st') ∧
       d ∈ DOWNTIME_LOG st' ∧
       ∀ l, get_downtime_for_date (Some "2024-01-16") st' = Some l → d ∉ l.
Proof.
  cbv zeta.
  assert (H1 : downtime_1 !! "start_time" = Some "2024-01-15T10:30:00") by reflexivity.
  assert (H2 : downtime_1 !! "end_time" = Some "2024-01-15T09:00:00") by reflexivity.
  assert (H3 : fromisoformat "2024-01-15T10:30:00"
               = Some (Stamp (DateTime 2024 1 15 10 30 0 0) None)) by reflexivity.
  assert (H4 : fromisoformat "2024-01-15T09:00:00"
               = Some (Stamp (DateTime 2024 1 15 9 0 0 0) None)) by reflexivity.
  assert (H5 : is_aware (Stamp (DateTime 2024 1 15 10 30 0 0) None)
               = is_aware (Stamp (DateTime 2024 1 15 9 0 0 0) None)) by reflexivity.
  assert (Hget : get_downtime_for_date (Some "2024-01-15")
                   (handle_submit_downtime downtime_1 "c1" t0 initial_state).1
                 = Some (DOWNTIME_LOG
                           (handle_submit_downtime downtime_1 "c1" t0 initial_state).1))
    by reflexivity.
  destruct (downtime_query_round_trip downtime_1 "c1" t0 initial_state _ _ _ _
              H1 H2 H3 H4 H5) as (d & Hlog & _ & Hq).
  refine (conj H1 (conj H2 (conj H3 (conj H4 (conj H5 _))))).
  exists d. split; [exact Hlog|]. split; [exact Hget|]. split.
  - destruct (Hq "2024-01-15" (DateTime 2024 1 15 0 0 0 0)) as [_ Hsome];
      [discriminate | reflexivity |].
    destruct (Hsome _ Hget) as (_ & _ & Hin & _). apply Hin. reflexivity.
  - intros l Hl.
    destruct (Hq "2024-01-16" (DateTime 2024 1 16 0 0 0 0)) as [_ Hsome];
      [discriminate | reflexivity |].
    destruct (Hsome _ Hl) as (_ & _ & _ & Hout). apply Hout. discriminate.
Defined.

(** On the day that holds both kinds of start time the query raises; for
    another day, and without a date, it returns. *)
Example downtime_query_raises_on_mixed_day :
  reachable st_mixed_day ∧
  length (DOWNTIME_LOG st_mixed_day) = 2%nat ∧
  get_downtime_for_date (Some "2024-01-15") st_mixed_day = None ∧
  get_downtime_for_date (Some "2024-01-16") st_mixed_day = Some [] ∧
  get_downtime_for_date None st_mixed_day = Some (DOWNTIME_LOG st_mixed_day).
Proof. split; [apply reachable_run, reachable_initial|]. repeat split; reflexivity. Qed.

(** A production submission for that day is stored and gets no reply; one
    for the next day is stored and acknowledged. *)
Example production_submission_without_reply :
  let res := handle_submit_output (output_on "M3" "10" "2024-01-15") "c3" t0
               st_mixed_day in
  let res' := handle_submit_output (output_on "M3" "10" "2024-01-16") "c3" t0
                st_mixed_day in
  length (SUBMISSION_LOG res.1) = 1%nat ∧ res.2 = [] ∧
  length (SUBMISSION_LOG res'.1) = 1%nat ∧
  last res'.2 = Some (Emit "submission_success" (P_confirm true None None) (Some "c3")).
Proof. cbv zeta. repeat split; reflexivity. Qed.

(** An upload on that day reaches the machine room and is answered with
    an error all the same. *)
Example upload_on_mixed_day :
  let res := upload_plan (Some "M1") (Some sheet_a) t0 st_mixed_day in
  MACHINE_PLANS res.1.1 !! "M1" = Some plan_a ∧
  res.1.2 = [ Emit "update_worker_plan" (P_plan plan_a "M1") (Some "M1");
              Emit "queued_plan_count" (P_count 0 "M1") (Some "M1") ] ∧
  res.2 = Response "Error processing file" 500.
Proof. cbv zeta. repeat split; reflexivity. Qed.

(** A naive start and an aware end do not subtract: nothing is stored. *)
Example downtime_half_aware_refused :
  handle_submit_downtime downtime_half_aware "c1" t0 initial_state
  = (initial_state,
     [ Emit "downtime_submission_success"
            (P_confirm false None (Some "Server error")) (Some "c1") ]).
Proof. reflexivity. Qed.

Lemma downtime_hours_sign_witness :
  let start_t := Stamp (DateTime 2024 1 15 10 30 0 0) (Some 18000000000%Z) in
  let end_t := Stamp (DateTime 2024 1 15 9 0 0 0) (Some 0%Z) in
  downtime_offsets !! "start_time" = Some "2024-01-15T10:30:00+05:00" ∧
  downtime_offsets !! "end_time" = Some "2024-01-15T09:00:00+00:00" ∧
  fromisoformat "2024-01-15T10:30:00+05:00" = Some start_t ∧
  fromisoformat "2024-01-15T09:00:00+00:00" = Some end_t ∧
  is_aware start_t = is_aware end_t ∧
  dt_ltb (wall end_t) (wall start_t) = true ∧
  ∃ d, last (DOWNTIME_LOG (handle_submit_downtime downtime_offsets "c1" t0
                             initial_state).1) = Some d ∧
       (total_hours d == 7 # 2)%Q ∧ (0 < total_hours d)%Q.
Proof.
  cbv zeta.
  assert (H1 : downtime_offsets !! "start_time" = Some "2024-01-15T10:30:00+05:00")
    by reflexivity.
  assert (H2 : downtime_offsets !! "end_time" = Some "2024-01-15T09:00:00+00:00")
    by reflexivity.
  assert (H3 : fromisoformat "2024-01-15T10:30:00+05:00"
               = Some (Stamp (DateTime 2024 1 15 10 30 0 0) (Some 18000000000%Z)))
    by reflexivity.
  assert (H4 : fromisoformat "2024-01-15T09:00:00+00:00"
               = Some (Stamp (DateTime 2024 1 15 9 0 0 0) (Some 0%Z))) by reflexivity.
  assert (H5 : is_aware (Stamp (DateTime 2024 1 15 10 30 0 0) (Some 18000000000%Z))
               = is_aware (Stamp (DateTime 2024 1 15 9 0 0 0) (Some 0%Z)))
    by reflexivity.
  assert (H6 : dt_ltb (DateTime 2024 1 15 9 0 0 0) (DateTime 2024 1 15 10 30 0 0) = true)
    by reflexivity.
  destruct (downtime_hours_sign downtime_offsets "c1" t0 initial_state _ _ _ _
              H1 H2 H3 H4 H5) as (d & td & Hlast & _ & _ & Htd & Hhours & _ & Hpos & _).
  refine (conj H1 (conj H2 (conj H3 (conj H4 (conj H5 (conj H6 _)))))).
  exists d. split; [exact Hlast|]. split.
  - injection Htd as <-. apply (Qmult_inj_r _ _ 3600); [discriminate|].
    rewrite Hhours. reflexivity.
  - apply Hpos. reflexivity.
Defined.

End MoreScenarios.
